(** * HiddenFileReader: pattern matching, tree rendering and aggregation

    A shallow embedding of [filters.py], [tree_generator.py] and
    [aggregator.py], together with the properties that the specification
    states about them.

    Conventions of the embedding.
    - A Python [str] is a [string] holding the UTF-8 encoding of the text.
      Prefix, suffix, substring and equality tests on UTF-8 text coincide with
      the same tests on code points; [len] counts the bytes that are not
      continuation bytes.  [str.lower] is modelled on the ASCII letters.
    - A Python [bytes] object is a [list byte].
    - A Python [set] of patterns is a list enumerating it; every function that
      iterates over a set only asks whether some element matches.
    - The file system is a finite tree of regular files and directories
      (no symbolic links, no special files) that does not change during a scan.
*)

From Stdlib Require Import String Ascii List ZArith NArith Lia Bool.
From Stdlib Require Import Strings.Byte.
From Stdlib Require Import Permutation.
From Stdlib Require Import Floats Uint63.
Import ListNotations.
Open Scope string_scope.

Set Implicit Arguments.
Set Warnings "-register-all".

(* ================================================================= *)
(** ** Python string primitives *)

Module Py.

(** [s.startswith(p)] *)
Fixpoint startswith (s p : string) {struct p} : bool :=
  match p, s with
  | EmptyString, _ => true
  | String c p', String d s' => Ascii.eqb c d && startswith s' p'
  | String _ _, EmptyString => false
  end.

(** [s.endswith(p)] *)
Fixpoint endswith (s p : string) : bool :=
  String.eqb s p ||
  match s with
  | EmptyString => false
  | String _ s' => endswith s' p
  end.

(** [p in s] for two strings: [p] occurs in [s] as a contiguous run. *)
Fixpoint str_in (p s : string) : bool :=
  startswith s p ||
  match s with
  | EmptyString => false
  | String _ s' => str_in p s'
  end.

Definition lower_ascii (c : ascii) : ascii :=
  let n := N_of_ascii c in
  if ((65 <=? n) && (n <=? 90))%N then ascii_of_N (n + 32) else c.

(** [s.lower()] *)
Fixpoint lower (s : string) : string :=
  match s with
  | EmptyString => EmptyString
  | String c s' => String (lower_ascii c) (lower s')
  end.

(** [s[1:]] *)
Definition drop_first (s : string) : string :=
  match s with
  | EmptyString => EmptyString
  | String _ s' => s'
  end.

(** [s[:-1]] *)
Fixpoint drop_last (s : string) : string :=
  match s with
  | EmptyString => EmptyString
  | String c s' =>
      match s' with
      | EmptyString => EmptyString
      | String _ _ => String c (drop_last s')
      end
  end.

(** [s.split(sep)] for a one-character separator; [cur] holds the current
    field, most recent character last. *)
Fixpoint split_from (sep : ascii) (cur s : string) : list string :=
  match s with
  | EmptyString => [cur]
  | String c s' =>
      if Ascii.eqb c sep then cur :: split_from sep "" s'
      else split_from sep (cur ++ String c "") s'
  end.

Definition split (sep : ascii) (s : string) : list string :=
  split_from sep "" s.

(** [sep.join(l)] *)
Fixpoint join (sep : string) (l : list string) : string :=
  match l with
  | [] => ""
  | [x] => x
  | x :: rest => x ++ sep ++ join sep rest
  end.

(** [x in l] for a set or list of strings *)
Definition mem (x : string) (l : list string) : bool :=
  existsb (String.eqb x) l.

(** [s.count(p)]: non-overlapping occurrences, scanning left to right.
    [fuel] bounds the scan; [String.length s + 1] always suffices. *)
Fixpoint skip (n : nat) (s : string) : string :=
  match n, s with
  | O, _ => s
  | S n', String _ s' => skip n' s'
  | S _, EmptyString => EmptyString
  end.

Fixpoint count_from (fuel : nat) (s p : string) : nat :=
  match fuel with
  | O => 0
  | S fuel' =>
      if startswith s p then
        match p with
        | EmptyString =>
            match s with
            | EmptyString => 1
            | String _ s' => S (count_from fuel' s' p)
            end
        | String _ _ => S (count_from fuel' (skip (String.length p) s) p)
        end
      else
        match s with
        | EmptyString => 0
        | String _ s' => count_from fuel' s' p
        end
  end.

Definition count (s p : string) : nat :=
  count_from (S (String.length s)) s p.

(** [s.replace(old, new)], scanning left to right; [fuel] as for [count]. *)
Fixpoint replace_from (fuel : nat) (s old new : string) : string :=
  match fuel with
  | O => s
  | S fuel' =>
      if startswith s old then
        match old with
        | EmptyString =>
            new ++ match s with
                   | EmptyString => EmptyString
                   | String c s' => String c (replace_from fuel' s' old new)
                   end
        | String _ _ =>
            new ++ replace_from fuel' (skip (String.length old) s) old new
        end
      else
        match s with
        | EmptyString => EmptyString
        | String c s' => String c (replace_from fuel' s' old new)
        end
  end.

Definition replace (s old new : string) : string :=
  replace_from (S (String.length s)) s old new.

(** [c * n] for a one-character string *)
Fixpoint times (c : ascii) (n : nat) : string :=
  match n with
  | O => EmptyString
  | S n' => String c (times c n')
  end.

(** [len(s)] for text held in UTF-8: the bytes [0x80..0xBF] continue a
    character and are not counted. *)
Definition is_continuation (c : ascii) : bool :=
  let n := N_of_ascii c in ((128 <=? n) && (n <=? 191))%N.

Fixpoint len (s : string) : nat :=
  match s with
  | EmptyString => 0
  | String c s' => if is_continuation c then len s' else S (len s')
  end.

End Py.

(* ================================================================= *)
(** ** [os.path] and [pathlib] on POSIX *)

Module OsPath.

Definition sep : ascii := "/"%char.

(** [os.path.join(a, b)] *)
Definition join (a b : string) : string :=
  if Py.startswith b "/" then b
  else if String.eqb a "" || Py.endswith a "/" then a ++ b
  else a ++ "/" ++ b.

(** The root that [pathlib] splits off: ["/"], ["//"] (exactly two leading
    slashes) or nothing. *)
Definition root_of (path : string) : string :=
  if Py.startswith path "/" then
    if Py.startswith path "//" && negb (Py.startswith path "///")
    then "//" else "/"
  else "".

Definition keep_component (x : string) : bool :=
  negb (String.eqb x "") && negb (String.eqb x ".").

(** [Path(path).parts] *)
Definition parts (path : string) : list string :=
  let rel := filter keep_component (Py.split sep path) in
  if String.eqb (root_of path) "" then rel else root_of path :: rel.

(** [os.path.basename(p)] *)
Definition basename (p : string) : string :=
  last (Py.split sep p) "".

(** [s.rstrip(os.sep)] *)
Fixpoint rstrip_sep (s : string) : string :=
  match s with
  | EmptyString => EmptyString
  | String c s' =>
      match rstrip_sep s' with
      | EmptyString => if Ascii.eqb c sep then EmptyString else String c EmptyString
      | r => String c r
      end
  end.

Fixpoint lstrip_sep (s : string) : string :=
  match s with
  | String c s' => if Ascii.eqb c sep then lstrip_sep s' else s
  | EmptyString => EmptyString
  end.

(** [os.path.relpath(path, start)] for a [path] that [os.walk(start)]
    produced, that is [start] extended by [join] with entry names: what
    remains after [start] and the separators that follow it. *)
Definition relpath (path start : string) : string :=
  if Py.startswith path start
  then lstrip_sep (Py.skip (String.length start) path)
  else path.

End OsPath.

(* ================================================================= *)
(** ** filters.py *)

Definition DEFAULT_EXCLUDE_PATTERNS : list string :=
  [ "/proc"; "/sys"; "/dev";
    "node_modules"; ".git"; "__pycache__"; "venv"; ".venv"; ".cache";
    "build"; "dist"; "target" ].

Definition include_dirs_default : list string :=
  [ "dist"; "build"; "target"; "out"; "bin"; "obj"; "generated";
    ".next"; ".nuxt"; ".angular"; ".expo";
    "logs"; "log";
    "temp"; "tmp"; ".tmp";
    ".vscode"; ".idea"; ".vs";
    ".git"; ".svn"; ".hg";
    ".venv"; "venv"; "env"; ".env"; "__pycache__";
    ".github"; ".gitlab"; ".circleci";
    ".docker"; "docker";
    "db"; "database"; "sqlite" ].

Definition include_files_default : list string :=
  [ "*.log"; "*.log.*"; "*.out";
    ".env"; ".env.*"; "*.env"; "*.env.*"; "*.ini"; "*.toml"; "*.conf";
    "*.theme"; ".gitignore"; ".gitconfig"; ".editorconfig";
    "package-lock.json"; "yarn.lock"; "pnpm-lock.yaml"; "composer.lock";
    "poetry.lock"; "Cargo.lock";
    "*.pyc"; "*.pyo"; "*.pyd"; "*.class"; "*.o"; "*.so"; "*.dll"; "*.exe";
    "*.dylib"; "*.a";
    ".DS_Store"; "Thumbs.db"; "desktop.ini";
    "*.bak"; "*.swp"; "*.swo";
    "coverage/"; ".coverage";
    ".bashrc"; ".zshrc"; ".profile"; ".vimrc"; ".eslintrc"; ".prettierrc" ].

Definition get_include_patterns : list string * list string :=
  (include_dirs_default, include_files_default).

(** The inner loop of [should_exclude_path]: [part == pattern] for some part. *)
Fixpoint some_part_is (pattern : string) (path_parts : list string) : bool :=
  match path_parts with
  | [] => false
  | part :: rest => if String.eqb part pattern then true else some_part_is pattern rest
  end.

Fixpoint should_exclude_path (path : string) (exclude_patterns : list string) : bool :=
  match exclude_patterns with
  | [] => false
  | pattern :: rest =>
      if Py.str_in pattern path then true
      else if some_part_is pattern (OsPath.parts path) then true
      else should_exclude_path path rest
  end.

Fixpoint some_part_included (path_parts : list string) (include_dirs : list string) : bool :=
  match path_parts with
  | [] => false
  | part :: rest =>
      if Py.mem (Py.lower part) include_dirs then true
      else some_part_included rest include_dirs
  end.

Definition should_include_path (path : string) (include_dirs : list string) : bool :=
  some_part_included (OsPath.parts path) include_dirs.

Fixpoint include_file_loop (filename_lower : string) (include_files : list string) : bool :=
  match include_files with
  | [] => false
  | pattern :: rest =>
      let pattern_lower := Py.lower pattern in
      if String.eqb filename_lower pattern_lower then true
      else if Py.startswith pattern "*." &&
              Py.endswith filename_lower (Py.lower (Py.drop_first pattern)) then true
      else if Py.endswith pattern "/" &&
              Py.startswith filename_lower (Py.lower (Py.drop_last pattern)) then true
      else include_file_loop filename_lower rest
  end.

Definition should_include_file (filename : string) (include_files : list string) : bool :=
  include_file_loop (Py.lower filename) include_files.

Fixpoint some_part_hidden (path_parts : list string) : bool :=
  match path_parts with
  | [] => false
  | part :: rest => if Py.startswith part "." then true else some_part_hidden rest
  end.

Definition is_hidden_file_or_dir (path : string) : bool :=
  some_part_hidden (OsPath.parts path).

(* ================================================================= *)
(** ** The file system *)

(** The outcome of a system call: a value, or an exception with its text. *)
Inductive io (A : Type) : Type :=
| Ok (a : A)
| Raise (msg : string).
Arguments Ok {A} a.
Arguments Raise {A} msg.

(** What the calls on a regular file answer: [os.path.getsize] and
    [open(...).read()]. *)
Record file_info : Type := mkFile {
  st_size : io Z;
  data : io (list byte)
}.

(** A directory holds its entries in the order in which the system lists
    them; [listable = false] makes listing it raise [PermissionError]. *)
Inductive node : Type :=
| File (name : string) (info : file_info)
| Dir (name : string) (listable : bool) (children : list node).

Definition node_name (n : node) : string :=
  match n with
  | File name _ => name
  | Dir name _ _ => name
  end.

Definition is_dir_node (n : node) : bool :=
  match n with Dir _ _ _ => true | File _ _ => false end.

(** [fs path] is what [path] resolves to. *)
Definition filesystem : Type := string -> option node.

Definition isdir (fs : filesystem) (path : string) : bool :=
  match fs path with
  | Some (Dir _ _ _) => true
  | _ => false
  end.

(* ================================================================= *)
(** ** Sorting names *)

Section Sorting.
Variable A : Type.
Variable key : A -> string.

Fixpoint insert_sorted (x : A) (l : list A) : list A :=
  match l with
  | [] => [x]
  | y :: rest =>
      if String.ltb (key x) (key y) then x :: l
      else y :: insert_sorted x rest
  end.

(** [sorted(l)], stable, ordinal order on the keys. *)
Definition sorted (l : list A) : list A :=
  fold_left (fun acc x => insert_sorted x acc) l [].
End Sorting.

(* ================================================================= *)
(** ** tree_generator.py *)

Definition BRANCH : string := "├── ".
Definition LAST_BRANCH : string := "└── ".
Definition BAR : string := "│   ".
Definition GAP : string := "    ".

(** One appended line of [tree_lines], with the path of the entry it shows. *)
Inductive tree_item : Type :=
| ItemDir (path line : string)
| ItemFile (path line : string)
| ItemDenied (line : string).

Definition item_line (i : tree_item) : string :=
  match i with
  | ItemDir _ l => l
  | ItemFile _ l => l
  | ItemDenied l => l
  end.

(** A listed entry together with the rendering of its own content, which the
    recursion supplies for every child before the entries are sorted. *)
Definition listed : Type := node * (string -> string -> list tree_item).

Definition listed_name (e : listed) : string := node_name (fst e).

Fixpoint show_dirs (no_files : bool) (current_path prefix : string)
    (included_dirs : list listed) : list tree_item :=
  match included_dirs with
  | [] => []
  | e :: rest =>
      let dirname := listed_name e in
      let is_last_dir := match rest with [] => no_files | _ :: _ => false end in
      ItemDir (OsPath.join current_path dirname)
              (prefix ++ (if is_last_dir then LAST_BRANCH else BRANCH) ++ dirname ++ "/")
      :: snd e (OsPath.join current_path dirname)
               (prefix ++ (if is_last_dir then GAP else BAR))
      ++ show_dirs no_files current_path prefix rest
  end.

Fixpoint show_files (current_path prefix : string)
    (included_files : list listed) : list tree_item :=
  match included_files with
  | [] => []
  | e :: rest =>
      let filename := listed_name e in
      let is_last := match rest with [] => true | _ :: _ => false end in
      ItemFile (OsPath.join current_path filename)
               (prefix ++ (if is_last then LAST_BRANCH else BRANCH) ++ filename)
      :: show_files current_path prefix rest
  end.

Section TreeGenerator.
Variables include_dirs include_files : list string.

Definition tree_keeps_dir (current_path : string) (e : listed) : bool :=
  let dir_path := OsPath.join current_path (listed_name e) in
  should_include_path dir_path include_dirs || is_hidden_file_or_dir dir_path.

Definition tree_keeps_file (e : listed) : bool :=
  should_include_file (listed_name e) include_files
  || is_hidden_file_or_dir (listed_name e).

(** The body of [add_directory_content] once the directory is listed. *)
Definition render_listing (current_path prefix : string)
    (entries : list listed) : list tree_item :=
  let items := sorted listed_name entries in
  let dirs := filter (fun e => is_dir_node (fst e)) items in
  let files := filter (fun e => negb (is_dir_node (fst e))) items in
  let included_dirs := filter (tree_keeps_dir current_path) dirs in
  let included_files := filter tree_keeps_file files in
  show_dirs (Nat.eqb (length included_files) 0) current_path prefix included_dirs
  ++ show_files current_path prefix included_files.

Fixpoint add_directory_content (n : node) : string -> string -> list tree_item :=
  fun current_path prefix =>
    match n with
    | File _ _ => []
    | Dir _ false _ => [ItemDenied (prefix ++ BRANCH ++ "[Permission Denied]")]
    | Dir _ true children =>
        render_listing current_path prefix
          (map (fun c => (c, add_directory_content c)) children)
    end.

Definition tree_items (project_path : string) (top : node) : list tree_item :=
  add_directory_content top project_path "".

Definition generate_hidden_directory_tree (project_path : string) (top : node) : string :=
  let project_name := OsPath.basename (OsPath.rstrip_sep project_path) in
  Py.join (String "010"%char "")
    ((project_name ++ "/") :: map item_line (tree_items project_path top)).
End TreeGenerator.

(* ================================================================= *)
(** ** Reading files *)

Section ListSearch.
Variable A : Type.
Variable eqb : A -> A -> bool.

Fixpoint list_startswith (l p : list A) {struct p} : bool :=
  match p, l with
  | [], _ => true
  | x :: p', y :: l' => eqb x y && list_startswith l' p'
  | _ :: _, [] => false
  end.

(** [p in l] for two [bytes] objects. *)
Fixpoint list_in (p l : list A) : bool :=
  list_startswith l p ||
  match l with
  | [] => false
  | _ :: l' => list_in p l'
  end.
End ListSearch.

Definition bytes_in (p l : list byte) : bool := list_in Byte.eqb p l.

Definition in_range (lo hi n : N) : bool := ((lo <=? n) && (n <=? hi))%N.

(** The lead bytes of UTF-8: how many bytes follow, and the range in which
    the first of them must lie. *)
Definition utf8_lead (n : N) : option (nat * N * N) :=
  if in_range 0xC2 0xDF n then Some (1%nat, 0x80%N, 0xBF%N)
  else if (n =? 0xE0)%N then Some (2%nat, 0xA0%N, 0xBF%N)
  else if in_range 0xE1 0xEC n || in_range 0xEE 0xEF n then Some (2%nat, 0x80%N, 0xBF%N)
  else if (n =? 0xED)%N then Some (2%nat, 0x80%N, 0x9F%N)
  else if (n =? 0xF0)%N then Some (3%nat, 0x90%N, 0xBF%N)
  else if in_range 0xF1 0xF3 n then Some (3%nat, 0x80%N, 0xBF%N)
  else if (n =? 0xF4)%N then Some (3%nat, 0x80%N, 0x8F%N)
  else None.

(** Decoding with [encoding="utf-8", errors="ignore"]: well-formed sequences
    are kept, every other byte is dropped.  [pending] is the sequence begun,
    [need] the number of bytes it still lacks, [lo..hi] where the next one
    must lie. *)
Fixpoint utf8_ignore (pending : list byte) (need : nat) (lo hi : N)
    (bs : list byte) : list byte :=
  match bs with
  | [] => []
  | b :: rest =>
      let n := Byte.to_N b in
      let fresh :=
        if (n <? 0x80)%N then b :: utf8_ignore [] 0 0%N 0%N rest
        else match utf8_lead n with
             | Some (k, l, h) => utf8_ignore [b] k l h rest
             | None => utf8_ignore [] 0 0%N 0%N rest
             end in
      match need with
      | O => fresh
      | S k =>
          if in_range lo hi n then
            match k with
            | O => pending ++ b :: utf8_ignore [] 0 0%N 0%N rest
            | S _ => utf8_ignore (pending ++ [b]) k 0x80%N 0xBF%N rest
            end
          else fresh
      end
  end.

Definition LF : ascii := "010"%char.
Definition CR : ascii := "013"%char.

(** Universal newlines on reading: ["\r\n"] and a lone ["\r"] become ["\n"]. *)
Fixpoint translate_newlines (s : string) : string :=
  match s with
  | EmptyString => EmptyString
  | String c s' =>
      if Ascii.eqb c CR then
        match s' with
        | String d s'' =>
            if Ascii.eqb d LF then String LF (translate_newlines s'')
            else String LF (translate_newlines s')
        | EmptyString => String LF EmptyString
        end
      else String c (translate_newlines s')
  end.

(** [open(path, "r", encoding="utf-8", errors="ignore").read()] *)
Definition read_text (content : list byte) : string :=
  translate_newlines (string_of_list_byte (utf8_ignore [] 0 0%N 0%N content)).

(** [sum(1 for _ in f)] over the lines of a text. *)
Fixpoint count_lines_from (in_line : bool) (s : string) : nat :=
  match s with
  | EmptyString => if in_line then 1 else 0
  | String c s' =>
      if Ascii.eqb c LF then S (count_lines_from false s')
      else count_lines_from true s'
  end.

Definition count_lines (s : string) : nat := count_lines_from false s.

(* ================================================================= *)
(** ** aggregator.py: binary classification *)

(** [b'\\x00']: the four bytes backslash, [x], [0], [0]. *)
Definition NUL_LITERAL : list byte := [x5c; x78; x30; x30].

(** [{7,8,9,10,12,13,27} | set(range(0x20, 0x100)) - {0x7f}] *)
Definition text_chars : list N :=
  [7; 8; 9; 10; 12; 13; 27]%N
  ++ filter (fun n => negb (n =? 0x7f)%N) (map N.of_nat (seq 0x20 (0x100 - 0x20))).

Definition is_text_char (b : byte) : bool :=
  existsb (N.eqb (Byte.to_N b)) text_chars.

(** [p / n < 0.7] in binary64: the quotient of two integers is the correctly
    rounded one, and [0.7] denotes the nearest double. *)
Definition ratio_below_0_7 (p n : Z) : bool :=
  PrimFloat.ltb
    (PrimFloat.div (PrimFloat.of_uint63 (Uint63.of_Z p))
                   (PrimFloat.of_uint63 (Uint63.of_Z n)))
    0x1.6666666666666p-1%float.

Definition classify_chunk (chunk : list byte) : bool :=
  if bytes_in NUL_LITERAL chunk then true
  else
    let printable_count := length (filter is_text_char chunk) in
    match chunk with
    | [] => false
    | _ :: _ =>
        ratio_below_0_7 (Z.of_nat printable_count) (Z.of_nat (length chunk))
    end.

(** [opened] is what [open(file_path, "rb")] followed by [read] gives. *)
Definition is_binary_file (opened : io (list byte)) : bool :=
  match opened with
  | Ok content => classify_chunk (firstn 1024 content)
  | Raise _ => true
  end.

(* ================================================================= *)
(** ** aggregator.py: the content-collecting walk *)

(** What [print] is given; the wording comes from the [text] table of the
    caller and plays no part in the decisions. *)
Inductive message : Type :=
| MsgNotFound (path : string)
| MsgAnalyzing (path : string)
| MsgScanning
| MsgIncludedTypes (types : list string)
| MsgGeneratingTree
| MsgProcessingFiles
| MsgSkipLarge (file : string) (size limit : Z)
| MsgSkipBinary (file : string)
| MsgProcessing (file : string)
| MsgBlank
| MsgDryRunBanner
| MsgSummary
| MsgFileCount (count : Z)
| MsgSize (size kb : Z)
| MsgLineCount (lines : Z)
| MsgSuccess (output_path : string).

(** What a scan does to the outside, in order. *)
Inductive event : Type :=
| Stdout (m : message)
| GetSize (path : string)
| OpenBinary (path : string)
| OpenText (path : string).

(** One element of [content_lines]. *)
Inductive content_line : Type :=
| Raw (s : string)
| Heading (rel_path : string)
| Body (file_content : string)
| ErrorBlock (msg : string).

Definition NL : string := String LF EmptyString.
Definition FENCE : string := "```".

Definition render_line (l : content_line) : string :=
  match l with
  | Raw s => s
  | Heading rel_path => "### " ++ rel_path
  | Body file_content => file_content
  | ErrorBlock msg => FENCE ++ NL ++ "# Error reading file: " ++ msg ++ NL ++ FENCE
  end.

(** A [dict] from [str] to [str]: keys in insertion order, a key set again
    keeps its place. *)
Definition dict : Type := list (string * string).

Fixpoint dict_set (d : dict) (k v : string) : dict :=
  match d with
  | [] => [(k, v)]
  | (k', v') :: rest =>
      if String.eqb k' k then (k, v) :: rest else (k', v') :: dict_set rest k v
  end.

Record config : Type := mkConfig {
  project_path : string;
  exclude_patterns : option (list string);
  dry_run : bool;
  output_format : string;
  max_file_size : Z;
  file_filter : string
}.

Definition MAX_FILE_SIZE : Z := 100 * 1024 * 1024.

Definition CONFIG_PATTERNS : list string :=
  [ ".env"; ".env.*"; "*.env"; "*.env.*"; "*.ini"; "*.toml"; "*.yaml";
    "*.yml"; "*.json"; "*.xml" ].

Definition effective_excludes (cfg : config) : list string :=
  match exclude_patterns cfg with
  | Some pats => pats
  | None => DEFAULT_EXCLUDE_PATTERNS
  end.

Record scan_state : Type := mkState {
  content_lines : list content_line;
  file_contents : dict;
  file_count : Z;
  total_size : Z;
  total_lines : Z;
  trace : list event
}.

Definition emit (e : event) (st : scan_state) : scan_state :=
  mkState (content_lines st) (file_contents st) (file_count st)
          (total_size st) (total_lines st) (trace st ++ [e]).

Definition append_lines (ls : list content_line) (st : scan_state) : scan_state :=
  mkState (content_lines st ++ ls) (file_contents st) (file_count st)
          (total_size st) (total_lines st) (trace st).

Definition store (k v : string) (st : scan_state) : scan_state :=
  mkState (content_lines st) (dict_set (file_contents st) k v) (file_count st)
          (total_size st) (total_lines st) (trace st).

Definition add_counts (dc ds dl : Z) (st : scan_state) : scan_state :=
  mkState (content_lines st) (file_contents st) (file_count st + dc)
          (total_size st + ds) (total_lines st + dl) (trace st).

Definition is_text_format (fmt : string) : bool :=
  String.eqb fmt "txt" || String.eqb fmt "md".

(** One entry of the sequence [os.walk] yields, after the loop body has
    pruned [dirs] in place. *)
Record walk_step : Type := mkStep {
  step_root : string;
  step_dirs : list string;
  step_files : list (string * file_info)
}.

Section Aggregator.
Variable cfg : config.
Variables include_dirs include_files : list string.

(** The two comprehensions that rewrite [dirs[:]]. *)
Definition walk_keeps_dir (root d : string) : bool :=
  negb (should_exclude_path (OsPath.join root d) (effective_excludes cfg))
  && (should_include_path (OsPath.join root d) include_dirs
      || is_hidden_file_or_dir (OsPath.join root d)).

Definition files_of (children : list node) : list (string * file_info) :=
  flat_map (fun c => match c with
                     | File name info => [(name, info)]
                     | Dir _ _ _ => []
                     end) children.

Definition dirs_of (children : list node) : list string :=
  map node_name (filter is_dir_node children).

(** [os.walk(top)] top-down with errors ignored: a directory that cannot
    be listed yields nothing. *)
Fixpoint walk (top : string) (n : node) : list walk_step :=
  match n with
  | File _ _ => []
  | Dir _ false _ => []
  | Dir _ true children =>
      mkStep top (filter (walk_keeps_dir top) (dirs_of children)) (files_of children)
      :: flat_map (fun c =>
                     match c with
                     | Dir d _ _ =>
                         if walk_keeps_dir top d
                         then walk (OsPath.join top d) c
                         else []
                     | File _ _ => []
                     end) children
  end.

(** The [except Exception as e] handler. *)
Definition on_exception (rel_path msg : string) (st : scan_state) : scan_state :=
  if dry_run cfg then st
  else if is_text_format (output_format cfg)
  then append_lines [Heading rel_path; ErrorBlock msg; Raw ""] st
  else store rel_path ("# Error reading file: " ++ msg) st.

Definition passes_filter_mode (file file_path : string) : bool :=
  let is_dotfile := is_hidden_file_or_dir file_path in
  let is_config_file := should_include_file file CONFIG_PATTERNS in
  if String.eqb (file_filter cfg) "dotfiles" && negb is_dotfile then false
  else if String.eqb (file_filter cfg) "config" && negb is_config_file then false
  else true.

(** The part of the loop body inside [try], once the size is known. *)
Definition after_size (file_path rel_path : string) (info : file_info)
    (file_size : Z) (st : scan_state) : scan_state :=
  if (file_size >? max_file_size cfg)%Z
  then emit (Stdout (MsgSkipLarge rel_path file_size (max_file_size cfg))) st
  else
    let st := emit (OpenBinary file_path) st in
    if is_binary_file (data info)
    then emit (Stdout (MsgSkipBinary rel_path)) st
    else
      let st := emit (Stdout (MsgProcessing rel_path)) st in
      if dry_run cfg then
        let st := add_counts 1 file_size 0 st in
        let st := emit (OpenText file_path) st in
        match data info with
        | Raise msg => on_exception rel_path msg st
        | Ok content =>
            add_counts 0 0 (Z.of_nat (count_lines (read_text content))) st
        end
      else
        let st := emit (OpenText file_path) st in
        match data info with
        | Raise msg => on_exception rel_path msg st
        | Ok content =>
            let file_content := read_text content in
            let st := store rel_path file_content st in
            let st :=
              if is_text_format (output_format cfg)
              then append_lines [Heading rel_path; Raw FENCE; Body file_content;
                                 Raw FENCE; Raw ""] st
              else st in
            add_counts 1 (Z.of_nat (Py.len file_content))
                       (Z.of_nat (Py.count file_content "\n") + 1) st
        end.

(** The body of [for file in files]. *)
Definition process_file (root : string) (f : string * file_info)
    (st : scan_state) : scan_state :=
  let file := fst f in
  let info := snd f in
  let file_path := OsPath.join root file in
  let rel_path := OsPath.relpath file_path (project_path cfg) in
  if should_exclude_path file_path (effective_excludes cfg) then st
  else if negb (passes_filter_mode file file_path) then st
  else if negb (should_include_file file include_files
                || is_hidden_file_or_dir file_path) then st
  else
    let st := emit (GetSize file_path) st in
    match st_size info with
    | Raise msg => on_exception rel_path msg st
    | Ok file_size => after_size file_path rel_path info file_size st
    end.

Definition process_step (st : scan_state) (s : walk_step) : scan_state :=
  fold_left (fun st f => process_file (step_root s) f st) (step_files s) st.

Definition scan (top : node) (st : scan_state) : scan_state :=
  fold_left process_step (walk (project_path cfg) top) st.
End Aggregator.

(* ================================================================= *)
(** ** aggregator.py: [aggregate_hidden_files] *)

(** The file a run leaves beside the scanned root. *)
Inductive artifact : Type :=
| TextFile (path text : string)
| JsonFile (path : string) (obj : dict)
| SqliteDb (path : string) (rows : list (Z * string * string)).

Definition write_text (ls : list content_line) : string :=
  Py.join NL (map render_line ls).

Definition write_markdown_output (ls : list content_line) (output_path : string) : artifact :=
  TextFile (Py.replace output_path ".txt" ".md") (write_text ls).

Definition write_json_output (d : dict) (output_path : string) : artifact :=
  JsonFile (Py.replace output_path ".txt" ".json") d.

Fixpoint number_rows (next : Z) (d : dict) : list (Z * string * string) :=
  match d with
  | [] => []
  | (k, v) :: rest => (next, k, v) :: number_rows (next + 1) rest
  end.

Definition write_sqlite_output (d : dict) (output_path : string) : artifact :=
  SqliteDb (Py.replace output_path ".txt" ".db") (number_rows 1 d).

Definition artifact_path (a : artifact) : string :=
  match a with
  | TextFile p _ => p
  | JsonFile p _ => p
  | SqliteDb p _ => p
  end.

Record run_result : Type := mkResult {
  returned : bool;
  final : scan_state;
  written : option artifact
}.

Definition initial_state : scan_state := mkState [] [] 0 0 0 [].

Definition RULE : string := "# " ++ Py.times "="%char 50.

Definition summary (st : scan_state) : scan_state :=
  emit (Stdout (MsgLineCount (total_lines st)))
    (emit (Stdout (MsgSize (total_size st) (total_size st / 1024)))
       (emit (Stdout (MsgFileCount (file_count st)))
          (emit (Stdout MsgSummary) st))).

(** Everything before the walk: banner messages, header and tree. *)
Definition prologue (cfg : config) (top : node) : scan_state :=
  let st := emit (Stdout (MsgAnalyzing (project_path cfg))) initial_state in
  let st := emit (Stdout MsgScanning) st in
  let include_dirs := fst get_include_patterns in
  let include_files := snd get_include_patterns in
  let st := emit (Stdout (MsgIncludedTypes (sorted (fun x => x) include_files))) st in
  let st := append_lines [Raw RULE; Raw ("# Path: " ++ project_path cfg);
                          Raw "# Hidden File Analysis"; Raw RULE; Raw ""] st in
  let st := emit (Stdout MsgGeneratingTree) st in
  let st := append_lines
              [Raw "## DIRECTORY STRUCTURE"; Raw FENCE;
               Raw (generate_hidden_directory_tree include_dirs include_files
                      (project_path cfg) top);
               Raw FENCE; Raw ""] st in
  let st := emit (Stdout MsgProcessingFiles) st in
  append_lines [Raw "## FILE CONTENTS"; Raw ""] st.

Definition write_output (cfg : config) (st : scan_state) : artifact :=
  let base_output_path := OsPath.join (project_path cfg) "hidden_dump" in
  if String.eqb (output_format cfg) "json"
  then write_json_output (file_contents st) (base_output_path ++ ".json")
  else if String.eqb (output_format cfg) "sqlite"
  then write_sqlite_output (file_contents st) (base_output_path ++ ".db")
  else if String.eqb (output_format cfg) "md"
  then write_markdown_output (content_lines st) (base_output_path ++ ".md")
  else TextFile (base_output_path ++ ".txt") (write_text (content_lines st)).

(** Everything after the walk.  Writing the artifact is taken to succeed. *)
Definition epilogue (cfg : config) (st : scan_state) : run_result :=
  if dry_run cfg then
    let st := emit (Stdout MsgBlank) st in
    let st := emit (Stdout MsgDryRunBanner) st in
    mkResult true (summary st) None
  else
    let out := write_output cfg st in
    let st := emit (Stdout MsgBlank) st in
    let st := emit (Stdout (MsgSuccess (artifact_path out))) st in
    let st := emit (Stdout MsgBlank) st in
    mkResult true (summary st) (Some out).

Definition aggregate_hidden_files (fs : filesystem) (cfg : config) : run_result :=
  match fs (project_path cfg) with
  | Some (Dir name listable children) =>
      let top := Dir name listable children in
      epilogue cfg
        (scan cfg (fst get_include_patterns) (snd get_include_patterns) top
           (prologue cfg top))
  | _ =>
      mkResult false (emit (Stdout (MsgNotFound (project_path cfg))) initial_state) None
  end.

(* ================================================================= *)
(** ** Views of a scan and the wording of the specification *)

(** The relative paths under which a state holds an entry: the headings of
    the text output and the keys of the structured output. *)
Definition headings (ls : list content_line) : list string :=
  flat_map (fun l => match l with Heading r => [r] | _ => [] end) ls.

Definition recorded (st : scan_state) : list string :=
  headings (content_lines st) ++ map fst (file_contents st).

(** The inclusion decision of the walk for a file: the exclude, filter-mode
    and relevance tests. *)
Definition accepted (cfg : config) (include_files : list string)
    (root file : string) : bool :=
  let file_path := OsPath.join root file in
  negb (should_exclude_path file_path (effective_excludes cfg))
  && passes_filter_mode cfg file file_path
  && (should_include_file file include_files || is_hidden_file_or_dir file_path).

(** [D] is [path] or a leading portion of it. *)
Definition extends (D path : string) : Prop := exists rest, path = D ++ rest.

(** *** isIncludedFile, as the specification words it *)

Definition rule_exact (filename pattern : string) : Prop :=
  Py.lower filename = Py.lower pattern.

Definition rule_suffix (filename pattern : string) : Prop :=
  exists ext, pattern = "*." ++ ext /\
              exists stem, Py.lower filename = stem ++ Py.lower ("." ++ ext).

Definition rule_prefix (filename pattern : string) : Prop :=
  exists dir, pattern = dir ++ "/" /\
              exists rest, Py.lower filename = Py.lower dir ++ rest.

Definition isIncludedFile (filename : string) (patterns : list string) : Prop :=
  exists pattern, In pattern patterns /\
    (rule_exact filename pattern \/ rule_suffix filename pattern
     \/ rule_prefix filename pattern).

(** *** Binary classification, as the specification words it *)

Definition spec_printable (b : byte) : bool :=
  let n := Byte.to_N b in
  ((n =? 9) || (n =? 10) || (n =? 13) || (n =? 12) || (n =? 27)
   || ((0x20 <=? n) && (n <=? 0xFF) && negb (n =? 0x7F)))%N.

Definition spec_is_binary (content : list byte) : bool :=
  let sample := firstn 1024 content in
  if existsb (Byte.eqb x00) sample then true
  else match sample with
       | [] => false
       | _ :: _ =>
           (10 * length (filter spec_printable sample) <? 7 * length sample)%nat
       end.

(** The set the code counts as printable: the specification's set together
    with bell and backspace. *)
Definition printable (b : byte) : bool :=
  let n := Byte.to_N b in
  ((n =? 7) || (n =? 8) || spec_printable b)%N.

(** *** Checking the comparison in binary64 *)

(** The comparison in binary64 agrees with the exact one on every pair that
    a sample of at most 1024 bytes can give. *)
Definition ratio_agrees (p n : Z) : bool :=
  Bool.eqb (ratio_below_0_7 p n) (10 * p <? 7 * n)%Z.

Fixpoint check_row (k : nat) (p n : Z) : bool :=
  match k with
  | O => true
  | S k' => ratio_agrees p n && check_row k' (p + 1) n
  end.

(** Row [n] holds the counts [0..n]. *)
Fixpoint check_rows (k : nat) (n : Z) (width : nat) : bool :=
  match k with
  | O => true
  | S k' => check_row width 0 n && check_rows k' (n + 1) (S width)
  end.

(** *** The gates of the content-collecting walk *)

Inductive gate : Type :=
| ExcludeGate | FilterModeGate | RelevanceGate | SizeGate | BinaryGate.

Definition gate_order : list gate :=
  [ExcludeGate; FilterModeGate; RelevanceGate; SizeGate; BinaryGate].

Definition gate_eqb (g h : gate) : bool :=
  match g, h with
  | ExcludeGate, ExcludeGate | FilterModeGate, FilterModeGate
  | RelevanceGate, RelevanceGate | SizeGate, SizeGate
  | BinaryGate, BinaryGate => true
  | _, _ => false
  end.

Section Gates.
Variable cfg : config.
Variable include_files : list string.
Variables (root file : string) (file_size : Z) (opened : io (list byte)).

Let file_path := OsPath.join root file.
Let rel_path := OsPath.relpath file_path (project_path cfg).

Definition gate_rejects (g : gate) : bool :=
  match g with
  | ExcludeGate => should_exclude_path file_path (effective_excludes cfg)
  | FilterModeGate =>
      (String.eqb (file_filter cfg) "dotfiles"
       && negb (is_hidden_file_or_dir file_path))
      || (String.eqb (file_filter cfg) "config"
          && negb (should_include_file file CONFIG_PATTERNS))
  | RelevanceGate =>
      negb (should_include_file file include_files
            || is_hidden_file_or_dir file_path)
  | SizeGate => (max_file_size cfg <? file_size)%Z
  | BinaryGate => is_binary_file opened
  end.

Definition first_rejection : option gate := find gate_rejects gate_order.

(** What evaluating a gate does to the outside. *)
Definition gate_calls (g : gate) : list event :=
  match g with
  | ExcludeGate | FilterModeGate | RelevanceGate => []
  | SizeGate => [GetSize file_path]
  | BinaryGate => [OpenBinary file_path]
  end.

(** What a rejecting gate reports. *)
Definition gate_report (g : gate) : list event :=
  match g with
  | ExcludeGate | FilterModeGate | RelevanceGate => []
  | SizeGate => [Stdout (MsgSkipLarge rel_path file_size (max_file_size cfg))]
  | BinaryGate => [Stdout (MsgSkipBinary rel_path)]
  end.

(** The gates evaluated when [g] is the first to reject: those up to [g]. *)
Fixpoint gates_through (g : gate) (order : list gate) : list gate :=
  match order with
  | [] => []
  | h :: rest => h :: (if gate_eqb h g then [] else gates_through g rest)
  end.

Definition rejection_events (g : gate) : list event :=
  flat_map gate_calls (gates_through g gate_order) ++ gate_report g.
End Gates.

(** *** What the two walks show *)

Definition tree_dir_paths (items : list tree_item) : list string :=
  flat_map (fun i => match i with ItemDir p _ => [p] | _ => [] end) items.

Definition tree_file_paths (items : list tree_item) : list string :=
  flat_map (fun i => match i with ItemFile p _ => [p] | _ => [] end) items.

(** The directories the walk keeps in [dirs], hence descends into. *)
Definition walk_dir_paths (steps : list walk_step) : list string :=
  flat_map (fun s => map (OsPath.join (step_root s)) (step_dirs s)) steps.

(** The files the walk accepts, with their names. *)
Definition walk_accepted (cfg : config) (include_files : list string)
    (steps : list walk_step) : list (string * string) :=
  flat_map (fun s =>
              map (fun f => (OsPath.join (step_root s) (fst f), fst f))
                  (filter (fun f => accepted cfg include_files (step_root s) (fst f))
                          (step_files s))) steps.

Definition walk_file_paths (cfg : config) (include_files : list string)
    (steps : list walk_step) : list string :=
  map fst (walk_accepted cfg include_files steps).

(** *** Dry run against a normal run *)

Definition with_dry_run (cfg : config) (b : bool) : config :=
  mkConfig (project_path cfg) (exclude_patterns cfg) b (output_format cfg)
           (max_file_size cfg) (file_filter cfg).

(** A file of plain text: its size on disk is the length of its content,
    which is ASCII without carriage returns. *)
Definition plain_byte (b : byte) : bool :=
  ((Byte.to_N b <? 128) && negb (Byte.to_N b =? 13))%N.

Definition plain_file (info : file_info) : bool :=
  match data info, st_size info with
  | Ok content, Ok size =>
      (size =? Z.of_nat (length content))%Z && forallb plain_byte content
  | _, _ => true
  end.

Fixpoint all_files (n : node) : list file_info :=
  match n with
  | File _ info => [info]
  | Dir _ _ children => flat_map all_files children
  end.

(** The events by which a scan shows what it decided for a file. *)
Definition is_file_event (e : event) : bool :=
  match e with
  | GetSize _ | OpenBinary _ | OpenText _ => true
  | Stdout (MsgSkipLarge _ _ _) | Stdout (MsgSkipBinary _)
  | Stdout (MsgProcessing _) => true
  | Stdout _ => false
  end.

Definition bodies (ls : list content_line) : list string :=
  flat_map (fun l => match l with Body c => [c] | _ => [] end) ls.

(** *** Relations between states of a scan *)

(** [st'] records what [st] records and at most [rel] besides. *)
Definition adds_at_most (rel : string) (st st' : scan_state) : Prop :=
  forall r, In r (recorded st') -> In r (recorded st) \/ r = rel.

(** The files of a step that the inclusion tests accept, as sources of
    entries. *)
Definition source_in (cfg : config) (include_files : list string)
    (steps : list walk_step) (r root file : string) : Prop :=
  exists s f, In s steps /\ In f (step_files s)
              /\ root = step_root s /\ file = fst f
              /\ r = OsPath.relpath (OsPath.join root file) (project_path cfg)
              /\ accepted cfg include_files root file = true.

(** Two states that show the same decisions and the same file count. *)
Definition agree (a b : scan_state) : Prop :=
  trace a = trace b /\ file_count a = file_count b.


(* ================================================================= *)
(** ** Sample inputs *)

Module Sample.

Definition text (s : string) : list byte := list_byte_of_string s.

(** A readable file that holds [s]. *)
Definition holding (s : string) : file_info :=
  mkFile (Ok (Z.of_nat (length (text s)))) (Ok (text s)).

Definition cfg_all : config :=
  mkConfig "/p" None false "txt" MAX_FILE_SIZE "all".

Definition cfg_json : config :=
  mkConfig "/p" None false "json" 16 "all".

Definition cfg_dotfiles : config :=
  mkConfig "/p" None false "txt" MAX_FILE_SIZE "dotfiles".

Definition cfg_config : config :=
  mkConfig "/p" None false "json" MAX_FILE_SIZE "config".

(** [/p] with [.env], [README.md], a build directory holding a log and a
    source directory. *)
Definition project : node :=
  Dir "p" true
    [ File ".env" (holding "A=1");
      File "README.md" (holding "hello");
      Dir "build" true [File "app.log" (holding "started")];
      Dir "src" true [File "main.py" (holding "pass")];
      Dir ".vscode" true [File "settings.json" (holding "{}")] ].

(** [/p] holding one empty hidden file. *)
Definition empty_hidden : node :=
  Dir "p" true [File ".keep" (holding "")].

Definition mount (top : node) : filesystem :=
  fun path => if String.eqb path "/p" then Some top else None.

End Sample.

(* ================================================================= *)
(** ** cli.py: [main] *)

Module Cli.

(** [s.upper()], on the ASCII letters as [Py.lower]. *)
Definition upper_ascii (c : ascii) : ascii :=
  let n := N_of_ascii c in
  if ((97 <=? n) && (n <=? 122))%N then ascii_of_N (n - 32) else c.

Fixpoint upper (s : string) : string :=
  match s with
  | EmptyString => EmptyString
  | String c s' => String (upper_ascii c) (upper s')
  end.

(** What [parse_args] returns.  [exclude] and [max_size] are [None] when
    the option is absent; [--exclude] appends, so a list that is present
    holds at least one pattern. *)
Record args : Type := mkArgs {
  path : string;
  lang : string;
  exclude : option (list string);
  dry_run : bool;
  format : string;
  max_size : option string;
  filter : string
}.

Inductive cli_line : Type :=
| AppTitle | Rule | Done | Error | Cancelled.

(** What [main] does, in order: it asks for confirmation, prints a line,
    or calls [aggregate_hidden_files]. *)
Inductive cli_event : Type :=
| Ask
| Say (l : cli_line)
| Aggregate (cfg : config) (r : run_result).

(** How [main] ends: it returns, leaves through [sys.exit], or dies of the
    [ValueError] that [int] raised. *)
Inductive ending : Type :=
| Returns
| SysExit (code : Z)
| ValueError.

Section Main.
(** [os.path.abspath], [int] on a string ([None] when it raises), the file
    system, and the line that [input] reads. *)
Variable abspath : string -> string.
Variable int_of : string -> option Z.
Variable fs : filesystem.
Variable response : string.

Definition exclude_patterns_of (a : args) : list string :=
  match exclude a with
  | Some (x :: xs) => (DEFAULT_EXCLUDE_PATTERNS ++ x :: xs)%list
  | _ => DEFAULT_EXCLUDE_PATTERNS
  end.

Definition scaled (digits : string) (unit : Z) : option Z :=
  match int_of digits with
  | Some n => Some (n * unit)%Z
  | None => None
  end.

Definition max_file_size_of (a : args) : option Z :=
  match max_size a with
  | None => Some MAX_FILE_SIZE
  | Some EmptyString => Some MAX_FILE_SIZE
  | Some s =>
      let size_str := upper s in
      if Py.endswith size_str "G"
      then scaled (Py.drop_last size_str) (1024 * 1024 * 1024)
      else if Py.endswith size_str "M"
      then scaled (Py.drop_last size_str) (1024 * 1024)
      else if Py.endswith size_str "K"
      then scaled (Py.drop_last size_str) 1024
      else int_of size_str
  end.

Definition main (a : args) : list cli_event * ending :=
  let project_path := abspath (path a) in
  let exclude_patterns := exclude_patterns_of a in
  match max_file_size_of a with
  | None => ([], ValueError)
  | Some max_file_size =>
      let asked := if String.eqb project_path "/" then [Ask] else [] in
      if String.eqb project_path "/" && negb (String.eqb (Py.lower response) "y")
      then ((asked ++ [Say Cancelled])%list, SysExit 0)
      else
        let cfg := mkConfig project_path (Some exclude_patterns) (dry_run a)
                            (format a) max_file_size (filter a) in
        let success := aggregate_hidden_files fs cfg in
        if returned success
        then ((asked ++ [Say AppTitle; Say Rule; Aggregate cfg success; Say Done])%list,
              Returns)
        else ((asked ++ [Say AppTitle; Say Rule; Aggregate cfg success; Say Error])%list,
              SysExit 1)
  end.
End Main.

End Cli.

(* ================================================================= *)
(** ** gui.py: the path that [run_hiddenfilereader] takes for the artifact *)

Module Gui.

Definition output_path (project_path output_format : string) : string :=
  let base_path := OsPath.join project_path "hidden_dump" in
  if String.eqb output_format "json" then base_path ++ ".json"
  else if String.eqb output_format "sqlite" then base_path ++ ".db"
  else if String.eqb output_format "md" then base_path ++ ".md"
  else base_path ++ ".txt".

End Gui.

(* ================================================================= *)
(** ** one_file_version.py *)

(** The program in one file.  Its matchers and its tree generator are those
    of [filters.py] and [tree_generator.py] line for line; its pattern sets
    and its aggregator are its own. *)
Module OneFile.

Definition include_files_default : list string :=
  [ "*.log"; "*.log.*"; "*.out";
    ".env"; ".env.*"; "*.env"; "*.env.*"; "*.ini"; "*.toml";
    ".gitignore"; ".gitconfig"; ".editorconfig";
    "package-lock.json"; "yarn.lock"; "pnpm-lock.yaml"; "composer.lock";
    "poetry.lock"; "Cargo.lock";
    "*.pyc"; "*.pyo"; "*.pyd"; "*.class"; "*.o"; "*.so"; "*.dll"; "*.exe";
    "*.dylib"; "*.a";
    ".DS_Store"; "Thumbs.db"; "desktop.ini";
    "*.bak"; "*.swp"; "*.swo";
    "coverage/"; ".coverage";
    ".bashrc"; ".zshrc"; ".profile"; ".vimrc"; ".eslintrc"; ".prettierrc" ].

Definition get_include_patterns : list string * list string :=
  (include_dirs_default, include_files_default).

Section Aggregator.
Variable project_path : string.
Variables include_dirs include_files : list string.

(** The comprehension that rewrites [dirs[:]]. *)
Definition walk_keeps_dir (root d : string) : bool :=
  should_include_path (OsPath.join root d) include_dirs
  || is_hidden_file_or_dir (OsPath.join root d).

Fixpoint walk (top : string) (n : node) : list walk_step :=
  match n with
  | File _ _ => []
  | Dir _ false _ => []
  | Dir _ true children =>
      mkStep top (List.filter (walk_keeps_dir top) (dirs_of children))
             (files_of children)
      :: flat_map (fun c =>
                     match c with
                     | Dir d _ _ =>
                         if walk_keeps_dir top d
                         then walk (OsPath.join top d) c
                         else []
                     | File _ _ => []
                     end) children
  end.

(** The [except Exception as e] handler. *)
Definition on_exception (rel_path msg : string) (st : scan_state) : scan_state :=
  append_lines [Heading rel_path; ErrorBlock msg; Raw ""] st.

(** The body of [for file in files]. *)
Definition process_file (root : string) (f : string * file_info)
    (st : scan_state) : scan_state :=
  let file := fst f in
  let info := snd f in
  let file_path := OsPath.join root file in
  let rel_path := OsPath.relpath file_path project_path in
  if negb (should_include_file file include_files
           || is_hidden_file_or_dir file_path) then st
  else
    let st := emit (GetSize file_path) st in
    match st_size info with
    | Raise msg => on_exception rel_path msg st
    | Ok file_size =>
        if (file_size >? MAX_FILE_SIZE)%Z
        then emit (Stdout (MsgSkipLarge rel_path file_size MAX_FILE_SIZE)) st
        else
          let st := emit (Stdout (MsgProcessing rel_path)) st in
          let st := emit (OpenText file_path) st in
          match data info with
          | Raise msg => on_exception rel_path msg st
          | Ok content =>
              let file_content := read_text content in
              let st := append_lines [Heading rel_path; Raw FENCE; Body file_content;
                                      Raw FENCE; Raw ""] st in
              add_counts 1 (Z.of_nat (Py.len file_content)) 0 st
          end
    end.

Definition process_step (st : scan_state) (s : walk_step) : scan_state :=
  fold_left (fun st f => process_file (step_root s) f st) (step_files s) st.

Definition scan (top : node) (st : scan_state) : scan_state :=
  fold_left process_step (walk project_path top) st.
End Aggregator.

(** Everything before the walk: banner messages, header and tree. *)
Definition prologue (project_path : string) (top : node) : scan_state :=
  let st := emit (Stdout (MsgAnalyzing project_path)) initial_state in
  let st := emit (Stdout MsgScanning) st in
  let include_dirs := fst get_include_patterns in
  let include_files := snd get_include_patterns in
  let st := emit (Stdout (MsgIncludedTypes (sorted (fun x => x) include_files))) st in
  let st := append_lines [Raw RULE; Raw ("# Path: " ++ project_path);
                          Raw "# Hidden File Analysis"; Raw RULE; Raw ""] st in
  let st := emit (Stdout MsgGeneratingTree) st in
  let st := append_lines
              [Raw "## DIRECTORY STRUCTURE"; Raw FENCE;
               Raw (generate_hidden_directory_tree include_dirs include_files
                      project_path top);
               Raw FENCE; Raw ""] st in
  let st := emit (Stdout MsgProcessingFiles) st in
  append_lines [Raw "## FILE CONTENTS"; Raw ""] st.

(** What becomes of the [try] block that writes the file and reads it back
    to count its lines: both succeed, or [open] or [write] raises before
    the file is there, or reading it back raises once it is written. *)
Inductive write_outcome : Type :=
| WriteOk
| WriteFails (error : string)
| ReadBackFails (error : string).

(** [write_error] holds the error that the [except] branch printed with
    [text["write_error"]] as its last line, if it ran. *)
Record run_result : Type := mkResult {
  returned : bool;
  final : scan_state;
  written : option artifact;
  write_error : option string
}.

(** Everything after the walk. *)
Definition epilogue (outcome : write_outcome) (project_path : string)
    (st : scan_state) : run_result :=
  let output_path := OsPath.join project_path "hidden_dump.txt" in
  let final_content := write_text (content_lines st) in
  match outcome with
  | WriteFails error => mkResult false st None (Some error)
  | ReadBackFails error =>
      mkResult false st (Some (TextFile output_path final_content)) (Some error)
  | WriteOk =>
      let line_count := count_lines (translate_newlines final_content) in
      let st := emit (Stdout MsgBlank) st in
      let st := emit (Stdout (MsgSuccess output_path)) st in
      let st := emit (Stdout MsgBlank) st in
      let st := emit (Stdout MsgSummary) st in
      let st := emit (Stdout (MsgFileCount (file_count st))) st in
      let st := emit (Stdout (MsgSize (Z.of_nat (Py.len final_content))
                                      (total_size st / 1024))) st in
      let st := emit (Stdout (MsgLineCount (Z.of_nat line_count))) st in
      mkResult true st (Some (TextFile output_path final_content)) None
  end.

Definition aggregate_hidden_files (fs : filesystem) (outcome : write_outcome)
    (project_path : string) : run_result :=
  match fs project_path with
  | Some (Dir name listable children) =>
      let top := Dir name listable children in
      epilogue outcome project_path
        (scan project_path (fst get_include_patterns) (snd get_include_patterns) top
           (prologue project_path top))
  | _ =>
      mkResult false (emit (Stdout (MsgNotFound project_path)) initial_state) None None
  end.

End OneFile.

(* ================================================================= *)
(** ** Well-formed trees and further views *)

(** The name of a directory entry holds no separator. *)
Definition plain_name (name : string) : bool := negb (Py.str_in "/" name).

(** Every entry below [n] has such a name. *)
Fixpoint plain_names (n : node) : bool :=
  match n with
  | File _ _ => true
  | Dir _ _ children =>
      forallb (fun c => plain_name (node_name c) && plain_names c) children
  end.

(** [s] has no upper-case ASCII letter. *)
Definition is_lower (s : string) : bool := String.eqb (Py.lower s) s.

(** The segments of a path other than its root. *)
Definition path_fields (path : string) : list string :=
  filter OsPath.keep_component (Py.split OsPath.sep path).

(** The reports of processed files among the events of a scan. *)
Definition is_processing (e : event) : bool :=
  match e with
  | Stdout (MsgProcessing _) => true
  | _ => false
  end.

Definition error_blocks (ls : list content_line) : list string :=
  flat_map (fun l => match l with ErrorBlock msg => [msg] | _ => [] end) ls.

Definition sum_of (A : Type) (f : A -> Z) (l : list A) : Z :=
  fold_right (fun x acc => (f x + acc)%Z) 0%Z l.

(** The counters against the text, in a normal run with a text format. *)
Definition counts_bodies (st : scan_state) : Prop :=
  file_count st = Z.of_nat (length (bodies (content_lines st)))
  /\ total_size st = sum_of (fun b => Z.of_nat (Py.len b)) (bodies (content_lines st))
  /\ total_lines st
     = sum_of (fun b => (Z.of_nat (Py.count b "\n") + 1)%Z) (bodies (content_lines st))
  /\ length (headings (content_lines st))
     = (length (bodies (content_lines st))
        + length (error_blocks (content_lines st)))%nat.

(** A file of the walk that the inclusion tests accept, at path [p]. *)
Definition file_at (cfg : config) (include_files : list string)
    (steps : list walk_step) (p : string) (f : string * file_info) : Prop :=
  exists s, In s steps /\ In f (step_files s)
            /\ p = OsPath.join (step_root s) (fst f)
            /\ accepted cfg include_files (step_root s) (fst f) = true.

(** A call on a file is made for an accepted file of the walk; the file is
    opened once its size is known to be within the limit, and opened as
    text once it is known not to be binary. *)
Definition sound_call (cfg : config) (include_files : list string)
    (steps : list walk_step) (e : event) : Prop :=
  match e with
  | Stdout _ => True
  | GetSize p => exists f, file_at cfg include_files steps p f
  | OpenBinary p =>
      exists f, file_at cfg include_files steps p f
                /\ exists size, st_size (snd f) = Ok size
                                /\ (size <= max_file_size cfg)%Z
  | OpenText p =>
      exists f, file_at cfg include_files steps p f
                /\ (exists size, st_size (snd f) = Ok size
                                 /\ (size <= max_file_size cfg)%Z)
                /\ is_binary_file (data (snd f)) = false
  end.

(** The events of one file, taken on its own. *)
Definition file_events (cfg : config) (include_files : list string)
    (root : string) (f : string * file_info) : list event :=
  trace (process_file cfg include_files root f initial_state).

(** The extension that goes with an output format; any format other than
    the three named ones is written as text. *)
Definition extension (fmt : string) : string :=
  if String.eqb fmt "json" then ".json"
  else if String.eqb fmt "sqlite" then ".db"
  else if String.eqb fmt "md" then ".md"
  else ".txt".

Definition row_id (r : Z * string * string) : Z := fst (fst r).
Definition row_entry (r : Z * string * string) : string * string :=
  (snd (fst r), snd r).

(** The four markers of the tree, one for each level of a line. *)
Definition TREE_MARKS : list string := [BRANCH; LAST_BRANCH; BAR; GAP].

(** [line] is [prefix] followed by a marker. *)
Definition indented (prefix line : string) : Prop :=
  exists mark rest, In mark TREE_MARKS /\ line = prefix ++ mark ++ rest.

(** What [os.path.join] puts between a directory and a relative name. *)
Definition glue (a : string) : string :=
  if String.eqb a "" || Py.endswith a "/" then "" else "/".

(** [p] is [start] itself or lies below it, written in the way [join]
    builds paths from [start]. *)
Definition below (start p : string) : Prop :=
  p = start
  \/ exists r, Py.startswith r "/" = false /\ p = start ++ glue start ++ r.

(** What lets an accepted file leave an entry in a normal run: its size
    cannot be read, or it is within the limit and the file is not binary. *)
Definition collectable (cfg : config) (info : file_info) : bool :=
  match st_size info with
  | Raise _ => true
  | Ok file_size =>
      (file_size <=? max_file_size cfg)%Z && negb (is_binary_file (data info))
  end.

(** The entry of a file of the walk that is accepted and collectable. *)
Definition entry_of (cfg : config) (include_files : list string)
    (steps : list walk_step) (r : string) : Prop :=
  exists s f, In s steps /\ In f (step_files s)
              /\ r = OsPath.relpath (OsPath.join (step_root s) (fst f)) (project_path cfg)
              /\ accepted cfg include_files (step_root s) (fst f) = true
              /\ collectable cfg (snd f) = true.

(** The files below [n], with their names. *)
Fixpoint all_entries (n : node) : list (string * file_info) :=
  match n with
  | File name info => [(name, info)]
  | Dir _ _ children => flat_map all_entries children
  end.

(** The patterns that [filters.py] has and [one_file_version.py] lacks. *)
Definition NEWER_PATTERNS : list string := ["*.conf"; "*.theme"].

(** A file on which the package and the program in one file cannot
    differ: it is not binary and none of the newer patterns names it. *)
Definition common_ground (f : string * file_info) : bool :=
  negb (is_binary_file (data (snd f)))
  && negb (should_include_file (fst f) NEWER_PATTERNS).

(** Two states that hold the same text and the same counts of files and
    characters. *)
Definition same_text (a b : scan_state) : Prop :=
  content_lines a = content_lines b
  /\ file_count a = file_count b
  /\ total_size a = total_size b.

(** Two listed entries for the same node whose renderings agree. *)
Definition same_listed (e1 e2 : listed) : Prop :=
  fst e1 = fst e2 /\ forall path prefix, snd e1 path prefix = snd e2 path prefix.

Unset Implicit Arguments.

(* ================================================================= *)
(** ** Facts about the string primitives *)

Module PyFacts.
Import Py.

Lemma startswith_spec s p :
  startswith s p = true <-> exists t, s = p ++ t.
Proof.
  revert s; induction p as [|c p IH]; intros s; simpl.
  - split; [intros _; now exists s | reflexivity].
  - destruct s as [|d s]; simpl.
    + split; [discriminate | intros [t H]; discriminate].
    + rewrite andb_true_iff, Ascii.eqb_eq, IH. split.
      * intros [-> [t ->]]. now exists t.
      * intros [t H]. injection H as -> ->. split; [reflexivity | now exists t].
Qed.

Lemma endswith_spec s p :
  endswith s p = true <-> exists t, s = t ++ p.
Proof.
  induction s as [|c s IH]; cbn [endswith].
  - rewrite orb_false_r, String.eqb_eq. split.
    + intros <-. now exists "".
    + intros [t H]. destruct t; simpl in H; [assumption | discriminate].
  - rewrite orb_true_iff, String.eqb_eq, IH. split.
    + intros [<- | [t ->]]; [now exists "" | now exists (String c t)].
    + intros [t H]. destruct t as [|d t]; simpl in H.
      * now left.
      * injection H as -> ->. right. now exists t.
Qed.

Lemma str_in_spec p s :
  str_in p s = true <-> exists a b, s = a ++ p ++ b.
Proof.
  induction s as [|c s IH]; simpl.
  - rewrite orb_false_r, startswith_spec. split.
    + intros [t H]. now exists "", t.
    + intros [a [b H]]. destruct a; simpl in H; [now exists b | discriminate].
  - rewrite orb_true_iff, startswith_spec, IH. split.
    + intros [[t H] | [a [b ->]]]; [now exists "", t | now exists (String c a), b].
    + intros [a [b H]]. destruct a as [|d a]; simpl in H.
      * left. now exists b.
      * injection H as -> ->. right. now exists a, b.
Qed.

Lemma append_assoc (a b c : string) : (a ++ b) ++ c = a ++ b ++ c.
Proof. induction a; simpl; congruence. Qed.

Lemma append_nil_r (a : string) : a ++ "" = a.
Proof. induction a; simpl; congruence. Qed.

(** A text found in a path is found in every extension of the path. *)
Lemma str_in_extend p s t : str_in p s = true -> str_in p (s ++ t) = true.
Proof.
  rewrite !str_in_spec. intros [a [b ->]]. exists a, (b ++ t).
  now rewrite !append_assoc.
Qed.

Lemma str_in_refl s : str_in s s = true.
Proof. apply str_in_spec. exists "", "". simpl. now rewrite append_nil_r. Qed.

(** Every field that [split] returns occurs in the text that was split. *)
Lemma split_from_in sep cur s x :
  In x (split_from sep cur s) -> str_in x (cur ++ s) = true.
Proof.
  revert cur; induction s as [|c s IH]; intros cur; simpl.
  - intros [<- | []]. rewrite append_nil_r. apply str_in_refl.
  - destruct (Ascii.eqb c sep).
    + intros [<- | H].
      * apply str_in_extend, str_in_refl.
      * apply IH in H. simpl in H. apply str_in_spec in H as [a [b H]].
        apply str_in_spec. exists (cur ++ String c a), b.
        rewrite append_assoc. simpl. now rewrite H.
    + intros H. apply IH in H. rewrite append_assoc in H. exact H.
Qed.

Lemma drop_last_spec s :
  endswith s "/" = true -> s = drop_last s ++ "/".
Proof.
  induction s as [|c s IH]; simpl.
  - discriminate.
  - destruct s as [|d s].
    + simpl. destruct (Ascii.eqb_spec c "/"%char); [now subst | discriminate].
    + intros H. simpl in H. rewrite orb_true_iff in H.
      destruct H as [H | H].
      * destruct (Ascii.eqb c "/"); [|discriminate]. destruct (Ascii.eqb d "/") in H; discriminate.
      * change (String c (String d s) = String c (drop_last (String d s) ++ "/")).
        f_equal. apply IH. exact H.
Qed.

Lemma drop_last_snoc d c : drop_last (d ++ String c "") = d.
Proof.
  induction d as [|x d IH]; [reflexivity|].
  destruct d as [|y d]; [reflexivity|].
  change (String x (drop_last (String y d ++ String c "")) = String x (String y d)).
  now rewrite IH.
Qed.

End PyFacts.

(* ================================================================= *)
(** ** PatternMatcher *)

Section IncludeFile.
Import Py PyFacts.

Lemma exact_rule_iff filename pattern :
  String.eqb (lower filename) (lower pattern) = true <-> rule_exact filename pattern.
Proof. apply String.eqb_eq. Qed.

Lemma suffix_rule_iff filename pattern :
  startswith pattern "*." && endswith (lower filename) (lower (drop_first pattern)) = true
  <-> rule_suffix filename pattern.
Proof.
  rewrite andb_true_iff, startswith_spec, endswith_spec. unfold rule_suffix. split.
  - intros [[ext ->] [stem H]]. exists ext. split; [reflexivity|]. now exists stem.
  - intros [ext [-> [stem H]]]. split; [now exists ext | now exists stem].
Qed.

Lemma prefix_rule_iff filename pattern :
  endswith pattern "/" && startswith (lower filename) (lower (drop_last pattern)) = true
  <-> rule_prefix filename pattern.
Proof.
  rewrite andb_true_iff, startswith_spec. unfold rule_prefix. split.
  - intros [E [rest H]]. exists (drop_last pattern). split.
    + now apply drop_last_spec.
    + now exists rest.
  - intros [dir [-> [rest H]]]. rewrite drop_last_snoc. split.
    + apply endswith_spec. now exists dir.
    + now exists rest.
Qed.

Lemma include_file_loop_iff filename patterns :
  include_file_loop (lower filename) patterns = true
  <-> isIncludedFile filename patterns.
Proof.
  unfold isIncludedFile. induction patterns as [|pattern rest IH].
  - simpl. split; [discriminate | intros [p [[] _]]].
  - cbn [include_file_loop].
    destruct (String.eqb (lower filename) (lower pattern)) eqn:Ea.
    { split; [intros _ | reflexivity]. exists pattern. split; [now left|].
      left. now apply exact_rule_iff. }
    destruct (startswith pattern "*." &&
              endswith (lower filename) (lower (drop_first pattern))) eqn:Eb.
    { split; [intros _ | reflexivity]. exists pattern. split; [now left|].
      right; left. now apply suffix_rule_iff. }
    destruct (endswith pattern "/" &&
              startswith (lower filename) (lower (drop_last pattern))) eqn:Ec.
    { split; [intros _ | reflexivity]. exists pattern. split; [now left|].
      right; right. now apply prefix_rule_iff. }
    rewrite IH. split.
    + intros [p [Hin Hp]]. exists p. split; [now right | assumption].
    + intros [p [[<- | Hin] Hp]].
      * exfalso. destruct Hp as [H | [H | H]].
        -- apply exact_rule_iff in H. congruence.
        -- apply suffix_rule_iff in H. congruence.
        -- apply prefix_rule_iff in H. congruence.
      * exists p. now split.
Qed.
End IncludeFile.

(** C7: [should_include_file] holds exactly when some pattern of the set
    matches the file name, both taken in lower case, by one of the three
    rules: equality; for a pattern that begins with ["*."], the name ends
    with the pattern's text after the star; for a pattern that ends with
    ["/"], the name begins with the pattern without that slash.  The loop
    tries the rules in this order and stops at the first that holds. *)
Theorem should_include_file_rules (filename : string) (patterns : list string) :
  should_include_file filename patterns = true
  <-> isIncludedFile filename patterns.
Proof. apply include_file_loop_iff. Qed.

(** The order in which the set is enumerated does not matter. *)
Lemma should_include_file_permutation filename ps qs :
  Permutation ps qs ->
  should_include_file filename ps = should_include_file filename qs.
Proof.
  intros HP. apply eq_true_iff_eq. unfold should_include_file.
  rewrite !include_file_loop_iff.
  unfold isIncludedFile. split; intros [p [Hin Hp]]; exists p; split; auto.
  - eapply Permutation_in; eauto.
  - eapply Permutation_in; [apply Permutation_sym|]; eauto.
Qed.

(* ================================================================= *)
(** ** Binary classification *)

Lemma is_text_char_printable (b : byte) : is_text_char b = printable b.
Proof. destruct b; vm_compute; reflexivity. Qed.

Lemma ratio_table_ok : check_rows 1024 1 2 = true.
Proof. vm_compute. reflexivity. Qed.

Lemma check_row_sound k : forall p n,
  check_row k p n = true ->
  forall j, (j < k)%nat -> ratio_agrees (p + Z.of_nat j) n = true.
Proof.
  induction k as [|k IH]; intros p n H j Hj; [lia|].
  cbn [check_row] in H. apply andb_true_iff in H as [H0 H1].
  destruct j as [|j].
  - now rewrite Z.add_0_r.
  - replace (p + Z.of_nat (S j))%Z with ((p + 1) + Z.of_nat j)%Z by lia.
    apply IH; [assumption | lia].
Qed.

Lemma check_rows_sound k : forall n width,
  check_rows k n width = true ->
  forall i j, (i < k)%nat -> (j < width + i)%nat ->
  ratio_agrees (Z.of_nat j) (n + Z.of_nat i) = true.
Proof.
  induction k as [|k IH]; intros n width H i j Hi Hj; [lia|].
  cbn [check_rows] in H. apply andb_true_iff in H as [H0 H1].
  destruct i as [|i].
  - rewrite Z.add_0_r. apply (check_row_sound _ _ _ H0 j). lia.
  - replace (n + Z.of_nat (S i))%Z with ((n + 1) + Z.of_nat i)%Z by lia.
    apply (IH _ _ H1); lia.
Qed.

Lemma ratio_below_0_7_exact (p n : nat) :
  (0 < n <= 1024)%nat -> (p <= n)%nat ->
  ratio_below_0_7 (Z.of_nat p) (Z.of_nat n) = (10 * p <? 7 * n)%nat.
Proof.
  intros Hn Hp.
  pose proof (check_rows_sound 1024 1 2 ratio_table_ok (n - 1)%nat p) as T.
  replace (1 + Z.of_nat (n - 1))%Z with (Z.of_nat n) in T by lia.
  assert (A : ratio_agrees (Z.of_nat p) (Z.of_nat n) = true).
  { apply T; [apply Nat.lt_le_trans with n; [lia | apply Hn] | lia]. }
  unfold ratio_agrees in A. apply Bool.eqb_prop in A. rewrite A.
  destruct (Nat.ltb_spec (10 * p) (7 * n)).
  - apply Z.ltb_lt. lia.
  - apply Z.ltb_ge. lia.
Qed.

Lemma filter_length_le {A} (f : A -> bool) (l : list A) :
  length (filter f l) <= length l.
Proof. induction l as [|x l IH]; simpl; [lia | destruct (f x); simpl; lia]. Qed.

Lemma filter_ext_eq {A} (f g : A -> bool) (l : list A) :
  (forall x, f x = g x) -> filter f l = filter g l.
Proof. intros E. induction l as [|x l IH]; simpl; [reflexivity | now rewrite E, IH]. Qed.

Lemma classify_chunk_ratio (chunk : list byte) :
  length chunk <= 1024 ->
  bytes_in NUL_LITERAL chunk = false ->
  classify_chunk chunk
  = (10 * length (filter printable chunk) <? 7 * length chunk)%nat.
Proof.
  intros Hlen Hlit. unfold classify_chunk. rewrite Hlit.
  rewrite (filter_ext_eq _ _ chunk is_text_char_printable).
  destruct chunk as [|b chunk]; [reflexivity|].
  apply ratio_below_0_7_exact.
  - simpl in *. lia.
  - apply filter_length_le.
Qed.

(** C2, as the code has it: the classification looks at the first 1024 bytes
    only; on a sample that holds no NUL byte and not the four characters
    backslash, x, 0, 0, the file is binary exactly when fewer than 70% of
    the sampled bytes are bell, backspace, tab, newline, form feed, carriage
    return, escape or in 0x20..0xFF other than 0x7F; an empty sample is not
    binary. *)
Theorem is_binary_file_sample (content : list byte) :
  is_binary_file (Ok content) = is_binary_file (Ok (firstn 1024 content))
  /\ (~ In x00 (firstn 1024 content) ->
      bytes_in NUL_LITERAL (firstn 1024 content) = false ->
      is_binary_file (Ok content)
      = (10 * length (filter printable (firstn 1024 content))
         <? 7 * length (firstn 1024 content))%nat)
  /\ (firstn 1024 content = [] -> is_binary_file (Ok content) = false).
Proof.
  split; [|split].
  - unfold is_binary_file. now rewrite firstn_firstn, Nat.min_id.
  - intros _ Hlit. unfold is_binary_file. apply classify_chunk_ratio; [|exact Hlit].
    rewrite length_firstn. lia.
  - intros E. unfold is_binary_file. now rewrite E.
Qed.

Lemma is_binary_file_sample_witness :
  is_binary_file (Ok [x41; x3d; x31; x0a; x01; x02])
  = (10 * length (filter printable (firstn 1024 [x41; x3d; x31; x0a; x01; x02]))
     <? 7 * length (firstn 1024 [x41; x3d; x31; x0a; x01; x02]))%nat.
Proof.
  apply (proj1 (proj2 (is_binary_file_sample [x41; x3d; x31; x0a; x01; x02]))).
  - simpl. intros H. repeat (destruct H as [H | H]; [discriminate|]). exact H.
  - reflexivity.
Defined.

(** C2, as the specification words it, fails: four bell characters hold no
    NUL and no byte of the specification's printable set, yet the code
    counts bell (and backspace) as printable and answers "not binary". *)
Lemma is_binary_file_bell_counterexample :
  is_binary_file (Ok [x07; x07; x07; x07]) = false
  /\ spec_is_binary [x07; x07; x07; x07] = true.
Proof. split; vm_compute; reflexivity. Qed.

(** The test [b'\\x00' in chunk] looks for the four characters of the
    escape sequence, not for the NUL byte: a NUL among text goes unseen,
    and a text that spells the escape sequence is taken for binary. *)
Example nul_byte_not_detected :
  is_binary_file (Ok [x00; x41; x41; x41; x41; x41; x41; x41; x41; x41]) = false
  /\ is_binary_file (Ok [x5c; x78; x30; x30; x41; x41; x41; x41]) = true.
Proof. split; vm_compute; reflexivity. Qed.

(* ================================================================= *)
(** ** The loop body of the content-collecting walk *)

Section LoopBody.
Variable cfg : config.
Variable include_files : list string.

Lemma passes_filter_mode_gate root file size opened :
  passes_filter_mode cfg file (OsPath.join root file)
  = negb (gate_rejects cfg include_files root file size opened FilterModeGate).
Proof.
  unfold passes_filter_mode, gate_rejects.
  destruct (String.eqb (file_filter cfg) "dotfiles"),
           (String.eqb (file_filter cfg) "config"),
           (is_hidden_file_or_dir (OsPath.join root file)),
           (should_include_file file CONFIG_PATTERNS); reflexivity.
Qed.

Lemma accepted_gates root file size opened :
  accepted cfg include_files root file
  = negb (gate_rejects cfg include_files root file size opened ExcludeGate)
    && negb (gate_rejects cfg include_files root file size opened FilterModeGate)
    && negb (gate_rejects cfg include_files root file size opened RelevanceGate).
Proof.
  unfold accepted. rewrite (passes_filter_mode_gate root file size opened).
  cbn [gate_rejects]. now rewrite negb_involutive.
Qed.

(** A file that the inclusion tests turn away leaves no mark at all. *)
Lemma process_file_not_accepted root f st :
  accepted cfg include_files root (fst f) = false ->
  process_file cfg include_files root f st = st.
Proof.
  unfold accepted, process_file. intros H.
  destruct (should_exclude_path _ _); [reflexivity|].
  destruct (passes_filter_mode _ _ _); [|reflexivity].
  destruct (should_include_file _ _ || is_hidden_file_or_dir _); [|reflexivity].
  discriminate.
Qed.

Lemma process_file_accepted root f st :
  accepted cfg include_files root (fst f) = true ->
  process_file cfg include_files root f st
  = let file_path := OsPath.join root (fst f) in
    let rel_path := OsPath.relpath file_path (project_path cfg) in
    match st_size (snd f) with
    | Raise msg => on_exception cfg rel_path msg (emit (GetSize file_path) st)
    | Ok file_size =>
        after_size cfg file_path rel_path (snd f) file_size
                   (emit (GetSize file_path) st)
    end.
Proof.
  unfold accepted, process_file. intros H.
  destruct (should_exclude_path _ _); [discriminate|].
  destruct (passes_filter_mode _ _ _); [|discriminate].
  destruct (should_include_file _ _ || is_hidden_file_or_dir _); [|discriminate].
  reflexivity.
Qed.

Lemma dict_set_key d k v : In k (map fst (dict_set d k v)).
Proof.
  induction d as [|[k' v'] d IH]; simpl; [now left|].
  destruct (String.eqb k' k); simpl; [now left | now right].
Qed.

Lemma dict_set_keys d k v x :
  In x (map fst (dict_set d k v)) -> x = k \/ In x (map fst d).
Proof.
  induction d as [|[k' v'] d IH]; simpl.
  - intros [<- | []]. now left.
  - destruct (String.eqb k' k); simpl.
    + intros [<- | H]; [now left | now right; right].
    + intros [<- | H]; [now right; left|]. destruct (IH H); auto.
Qed.

End LoopBody.

(** C5: for a candidate file whose size the system reports, the loop body
    behaves as the five gates taken in the order exclude, filter mode,
    relevance, size, binary.  When a gate is the first to reject, only the
    gates up to it have been evaluated (the trace grows by their calls and
    by the report of the rejecting gate) and nothing is recorded or counted.
    When none rejects, the file is opened as text after the five gates, it
    is counted, and outside a dry run its content is stored under its
    relative path. *)
Theorem gates_in_order (cfg : config) (include_files : list string)
    (root file : string) (size : Z) (opened : io (list byte)) (st : scan_state) :
  let file_path := OsPath.join root file in
  let rel_path := OsPath.relpath file_path (project_path cfg) in
  let st' := process_file cfg include_files root (file, mkFile (Ok size) opened) st in
  match first_rejection cfg include_files root file size opened with
  | Some g =>
      trace st' = (trace st ++ rejection_events cfg root file size g)%list
      /\ content_lines st' = content_lines st
      /\ file_contents st' = file_contents st
      /\ file_count st' = file_count st
      /\ total_size st' = total_size st
      /\ total_lines st' = total_lines st
  | None =>
      exists content,
        opened = Ok content
        /\ trace st' = (trace st ++ [GetSize file_path; OpenBinary file_path;
                                     Stdout (MsgProcessing rel_path);
                                     OpenText file_path])%list
        /\ file_count st' = (file_count st + 1)%Z
        /\ (if dry_run cfg
            then content_lines st' = content_lines st
                 /\ file_contents st' = file_contents st
            else file_contents st'
                 = dict_set (file_contents st) rel_path (read_text content)
                 /\ In rel_path (recorded st'))
  end.
Proof.
  intros file_path rel_path st'.
  unfold first_rejection, gate_order. cbn [find].
  destruct (gate_rejects cfg include_files root file size opened ExcludeGate) eqn:Ga.
  { assert (E : st' = st).
    { apply process_file_not_accepted.
      cbn [fst]. rewrite (accepted_gates cfg include_files root file size opened).
      now rewrite Ga. }
    rewrite E. cbn. rewrite app_nil_r. repeat split. }
  destruct (gate_rejects cfg include_files root file size opened FilterModeGate) eqn:Gb.
  { assert (E : st' = st).
    { apply process_file_not_accepted.
      cbn [fst]. rewrite (accepted_gates cfg include_files root file size opened).
      rewrite Ga, Gb. reflexivity. }
    rewrite E. cbn. rewrite app_nil_r. repeat split. }
  destruct (gate_rejects cfg include_files root file size opened RelevanceGate) eqn:Gc.
  { assert (E : st' = st).
    { apply process_file_not_accepted.
      cbn [fst]. rewrite (accepted_gates cfg include_files root file size opened).
      rewrite Ga, Gb, Gc. reflexivity. }
    rewrite E. cbn. rewrite app_nil_r. repeat split. }
  assert (E : st' = after_size cfg file_path rel_path (mkFile (Ok size) opened) size
                      (emit (GetSize file_path) st)).
  { unfold st'. rewrite process_file_accepted; [reflexivity|].
    cbn [fst]. rewrite (accepted_gates cfg include_files root file size opened).
    rewrite Ga, Gb, Gc. reflexivity. }
  rewrite E. clear E st'. unfold after_size. cbn [data].
  cbn [gate_rejects]. rewrite Z.gtb_ltb.
  destruct (Z.ltb (max_file_size cfg) size).
  { cbn. rewrite <- app_assoc. repeat split. }
  destruct (is_binary_file opened) eqn:Ge.
  { cbn. rewrite <- !app_assoc. repeat split. }
  destruct opened as [content | msg]; [|discriminate].
  exists content. split; [reflexivity|].
  destruct (dry_run cfg).
  - cbn. rewrite <- !app_assoc. repeat split. lia.
  - destruct (is_text_format (output_format cfg)); cbn; rewrite <- !app_assoc.
    + repeat split. unfold recorded. cbn. apply in_or_app. right. apply dict_set_key.
    + repeat split. unfold recorded. cbn. apply in_or_app. right. apply dict_set_key.
Qed.

(** C8: a file that the inclusion tests accept and whose size is exactly the
    configured maximum passes the size gate: the binary test is the next
    thing done, and unless that test rejects it the file is counted and,
    outside a dry run, recorded.  With one byte more the file is reported
    as skipped for its size and nothing else happens: no entry, no error
    placeholder, no count. *)
Theorem size_gate_boundary (cfg : config) (include_files : list string)
    (root file : string) (opened : io (list byte)) (st : scan_state) :
  accepted cfg include_files root file = true ->
  let file_path := OsPath.join root file in
  let rel_path := OsPath.relpath file_path (project_path cfg) in
  let limit := max_file_size cfg in
  let at_limit :=
    process_file cfg include_files root (file, mkFile (Ok limit) opened) st in
  let over :=
    process_file cfg include_files root (file, mkFile (Ok (limit + 1)%Z) opened) st in
  (exists rest,
      trace at_limit
      = (trace st ++ [GetSize file_path; OpenBinary file_path] ++ rest)%list)
  /\ (is_binary_file opened = false ->
      file_count at_limit = (file_count st + 1)%Z
      /\ (dry_run cfg = false -> In rel_path (recorded at_limit)))
  /\ over = emit (Stdout (MsgSkipLarge rel_path (limit + 1) limit))
                 (emit (GetSize file_path) st)
  /\ content_lines over = content_lines st
  /\ file_contents over = file_contents st
  /\ file_count over = file_count st.
Proof.
  intros Hacc file_path rel_path limit at_limit over.
  assert (Eover : over = emit (Stdout (MsgSkipLarge rel_path (limit + 1) limit))
                              (emit (GetSize file_path) st)).
  { unfold over. rewrite process_file_accepted by exact Hacc.
    cbn [fst snd st_size]. unfold after_size. fold limit.
    replace (limit + 1 >? limit)%Z with true by (symmetry; apply Z.gtb_lt; lia).
    reflexivity. }
  assert (Eat : at_limit = after_size cfg file_path rel_path (mkFile (Ok limit) opened)
                             limit (emit (GetSize file_path) st)).
  { unfold at_limit. now rewrite process_file_accepted by exact Hacc. }
  split; [|split; [|split; [exact Eover | rewrite Eover; repeat split]]].
  - rewrite Eat. unfold after_size. fold limit. rewrite Z.gtb_ltb, Z.ltb_irrefl.
    cbn [data]. destruct opened as [content | msg].
    + destruct (is_binary_file (Ok content)).
      * eexists. cbn. rewrite <- ?app_assoc. reflexivity.
      * destruct (dry_run cfg);
          try (destruct (is_text_format (output_format cfg)));
          eexists; cbn; rewrite <- ?app_assoc; cbn; reflexivity.
    + cbn [is_binary_file]. eexists. cbn. rewrite <- ?app_assoc. reflexivity.
  - intros Hbin. rewrite Eat. unfold after_size. fold limit.
    rewrite Z.gtb_ltb, Z.ltb_irrefl. cbn [data]. rewrite Hbin.
    destruct opened as [content | msg]; [|discriminate].
    destruct (dry_run cfg).
    + split; [cbn; lia | discriminate].
    + destruct (is_text_format (output_format cfg)); cbn; (split; [lia|]);
        intros _; unfold recorded; cbn; apply in_or_app; right; apply dict_set_key.
Qed.

Lemma size_gate_boundary_witness :
  let cfg := Sample.cfg_json in
  let f := process_file cfg include_files_default "/p" in
  file_count (f (".env", mkFile (Ok 16%Z) (Ok (Sample.text "0123456789abcdef")))
                initial_state) = 1%Z
  /\ f (".env", mkFile (Ok 17%Z) (Ok (Sample.text "0123456789abcdef"))) initial_state
     = emit (Stdout (MsgSkipLarge ".env" 17 16)) (emit (GetSize "/p/.env") initial_state).
Proof.
  pose proof (size_gate_boundary Sample.cfg_json include_files_default "/p" ".env"
                (Ok (Sample.text "0123456789abcdef")) initial_state eq_refl) as H.
  cbv zeta in H. destruct H as [_ [H1 [H2 _]]].
  split.
  - exact (proj1 (H1 eq_refl)).
  - exact H2.
Defined.

(** C10: a file that cannot be opened is classified as binary.  So a file
    that the inclusion tests accept and whose size is within the limit, but
    which cannot be opened, is reported as a skipped binary file: nothing is
    recorded for it, neither content nor an error placeholder, and it is
    not counted. *)
Theorem unreadable_file_skipped_as_binary (cfg : config)
    (include_files : list string) (root file : string) (size : Z)
    (msg : string) (st : scan_state) :
  is_binary_file (Raise msg) = true
  /\ (accepted cfg include_files root file = true ->
      (size <= max_file_size cfg)%Z ->
      let file_path := OsPath.join root file in
      let rel_path := OsPath.relpath file_path (project_path cfg) in
      let st' :=
        process_file cfg include_files root (file, mkFile (Ok size) (Raise msg)) st in
      trace st' = (trace st ++ [GetSize file_path; OpenBinary file_path;
                                Stdout (MsgSkipBinary rel_path)])%list
      /\ content_lines st' = content_lines st
      /\ file_contents st' = file_contents st
      /\ file_count st' = file_count st
      /\ total_size st' = total_size st
      /\ total_lines st' = total_lines st).
Proof.
  split; [reflexivity|].
  intros Hacc Hsize file_path rel_path st'. unfold st'.
  rewrite process_file_accepted by exact Hacc.
  cbn [fst snd st_size]. unfold after_size.
  replace (size >? max_file_size cfg)%Z with false
    by (symmetry; rewrite Z.gtb_ltb; apply Z.ltb_ge; exact Hsize).
  cbn. rewrite <- ?app_assoc. repeat split.
Qed.

Lemma unreadable_file_skipped_as_binary_witness :
  trace (process_file Sample.cfg_all include_files_default "/p"
           (".env", mkFile (Ok 3%Z) (Raise "Permission denied")) initial_state)
  = [GetSize "/p/.env"; OpenBinary "/p/.env"; Stdout (MsgSkipBinary ".env")].
Proof.
  refine (proj1 (proj2 (unreadable_file_skipped_as_binary Sample.cfg_all
            include_files_default "/p" ".env" 3 "Permission denied" initial_state)
            eq_refl _)).
  vm_compute. discriminate.
Defined.

(* ================================================================= *)
(** ** Exclusion is a substring test *)

Section Exclusion.
Import Py PyFacts.

Lemma parts_in_path path part :
  In part (OsPath.parts path) -> str_in part path = true.
Proof.
  unfold OsPath.parts.
  assert (Hrel : forall x, In x (filter OsPath.keep_component (split OsPath.sep path)) ->
                           str_in x path = true).
  { intros x Hx. apply filter_In in Hx as [Hx _].
    apply (split_from_in OsPath.sep "" path x Hx). }
  destruct (String.eqb (OsPath.root_of path) "") eqn:E; [apply Hrel|].
  intros [<- | H]; [|now apply Hrel].
  unfold OsPath.root_of in *.
  destruct (startswith path "/") eqn:E1; [|discriminate].
  destruct (startswith path "//" && negb (startswith path "///")) eqn:E2.
  - apply andb_true_iff in E2 as [E2 _].
    apply startswith_spec in E2 as [t ->]. apply str_in_spec. now exists "", t.
  - apply startswith_spec in E1 as [t ->]. apply str_in_spec. now exists "", t.
Qed.

Lemma some_part_is_in pattern ps :
  some_part_is pattern ps = true -> In pattern ps.
Proof.
  induction ps as [|p ps IH]; simpl; [discriminate|].
  destruct (String.eqb_spec p pattern); [now left | right; auto].
Qed.

(** The test on the parts adds nothing to the test on the whole path. *)
Lemma should_exclude_path_iff path patterns :
  should_exclude_path path patterns = true
  <-> exists pattern, In pattern patterns /\ str_in pattern path = true.
Proof.
  induction patterns as [|pattern rest IH]; cbn [should_exclude_path].
  - split; [discriminate | intros [p [[] _]]].
  - destruct (str_in pattern path) eqn:E1.
    { split; [intros _ | reflexivity]. exists pattern. split; [now left | assumption]. }
    destruct (some_part_is pattern (OsPath.parts path)) eqn:E2.
    { apply some_part_is_in, parts_in_path in E2. congruence. }
    rewrite IH. split.
    + intros [p [Hin Hp]]. exists p. split; [now right | assumption].
    + intros [p [[<- | Hin] Hp]]; [congruence|]. exists p. now split.
Qed.

Lemma extends_trans a b c : extends a b -> extends b c -> extends a c.
Proof. intros [x ->] [y ->]. exists (x ++ y). now rewrite append_assoc. Qed.

(** An entry of a directory lies under the directory's path. *)
Lemma join_extends root name :
  startswith name "/" = false -> extends root (OsPath.join root name).
Proof.
  intros H. unfold OsPath.join. rewrite H.
  destruct (String.eqb root "" || endswith root "/"); eexists; reflexivity.
Qed.

(** Exclusion is inherited by everything whose path extends an excluded
    path. *)
Lemma should_exclude_path_extends D path patterns :
  should_exclude_path D patterns = true -> extends D path ->
  should_exclude_path path patterns = true.
Proof.
  rewrite !should_exclude_path_iff. intros [p [Hin Hp]] [rest ->].
  exists p. split; [assumption | now apply str_in_extend].
Qed.
End Exclusion.

(* ================================================================= *)
(** ** What a scan records *)

Lemma node_induction (P : node -> Prop) :
  (forall name info, P (File name info)) ->
  (forall name listable children, Forall P children -> P (Dir name listable children)) ->
  forall n, P n.
Proof.
  intros HF HD. fix IH 1. intros [name info | name listable children].
  - apply HF.
  - apply HD. induction children as [|c cs IHcs]; constructor; [apply IH | apply IHcs].
Qed.

Section Recorded.
Variable cfg : config.
Variables include_dirs include_files : list string.

Lemma headings_app a b : headings (a ++ b) = (headings a ++ headings b)%list.
Proof. unfold headings. apply flat_map_app. Qed.

Lemma adds_refl rel st : adds_at_most rel st st.
Proof. intros r H. now left. Qed.

Lemma adds_trans rel a b c :
  adds_at_most rel a b -> adds_at_most rel b c -> adds_at_most rel a c.
Proof. intros H1 H2 r H. destruct (H2 r H) as [H'|]; auto. Qed.

Lemma adds_emit rel e st : adds_at_most rel st (emit e st).
Proof. intros r H. now left. Qed.

Lemma adds_counts rel a b c st : adds_at_most rel st (add_counts a b c st).
Proof. intros r H. now left. Qed.

Lemma adds_store rel v st : adds_at_most rel st (store rel v st).
Proof.
  intros r H. unfold recorded in *. cbn in H.
  apply in_app_or in H as [H | H].
  - left. apply in_or_app. now left.
  - apply dict_set_keys in H as [-> | H]; [now right|].
    left. apply in_or_app. now right.
Qed.

Lemma adds_lines rel ls st :
  (forall r, In r (headings ls) -> r = rel) ->
  adds_at_most rel st (append_lines ls st).
Proof.
  intros Hls r H. unfold recorded in *. cbn in H.
  rewrite headings_app in H.
  apply in_app_or in H as [H | H]; [apply in_app_or in H as [H | H]|].
  - left. apply in_or_app. now left.
  - right. now apply Hls.
  - left. apply in_or_app. now right.
Qed.

Lemma adds_on_exception rel msg st :
  adds_at_most rel st (on_exception cfg rel msg st).
Proof.
  unfold on_exception. destruct (dry_run cfg); [apply adds_refl|].
  destruct (is_text_format (output_format cfg)).
  - apply adds_lines. cbn. intros r [<- | []]. reflexivity.
  - apply adds_store.
Qed.

Ltac adds_one :=
  first [ apply adds_emit | apply adds_counts | apply adds_store
        | apply adds_on_exception
        | apply adds_lines; cbn; intros ? [<- | []]; reflexivity ].

Ltac adds_chain :=
  repeat first [ apply adds_refl | eapply adds_trans; [|adds_one] ].

Lemma adds_after_size file_path rel info size st :
  adds_at_most rel st (after_size cfg file_path rel info size st).
Proof.
  unfold after_size.
  destruct (size >? max_file_size cfg)%Z; [adds_chain|].
  destruct (is_binary_file (data info)); [adds_chain|].
  destruct (dry_run cfg) eqn:Edry.
  - destruct (data info); [adds_chain|].
    unfold on_exception. rewrite Edry. adds_chain.
  - destruct (data info); [|adds_chain].
    destruct (is_text_format (output_format cfg)); adds_chain.
Qed.

(** Whatever the loop body records for a file, it records under the
    file's relative path, and only for a file that the inclusion tests
    accept. *)
Lemma process_file_recorded root f st r :
  In r (recorded (process_file cfg include_files root f st)) ->
  In r (recorded st)
  \/ (r = OsPath.relpath (OsPath.join root (fst f)) (project_path cfg)
      /\ accepted cfg include_files root (fst f) = true).
Proof.
  destruct (accepted cfg include_files root (fst f)) eqn:Hacc.
  - rewrite process_file_accepted by exact Hacc. cbv zeta. intros H.
    assert (A : adds_at_most
                  (OsPath.relpath (OsPath.join root (fst f)) (project_path cfg))
                  st
                  match st_size (snd f) with
                  | Ok file_size =>
                      after_size cfg (OsPath.join root (fst f))
                        (OsPath.relpath (OsPath.join root (fst f)) (project_path cfg))
                        (snd f) file_size (emit (GetSize (OsPath.join root (fst f))) st)
                  | Raise msg =>
                      on_exception cfg
                        (OsPath.relpath (OsPath.join root (fst f)) (project_path cfg))
                        msg (emit (GetSize (OsPath.join root (fst f))) st)
                  end).
    { destruct (st_size (snd f)).
      - eapply adds_trans; [apply adds_emit | apply adds_after_size].
      - eapply adds_trans; [apply adds_emit | apply adds_on_exception]. }
    destruct (A r H); auto.
  - rewrite process_file_not_accepted by exact Hacc. now left.
Qed.

Lemma process_step_recorded s st r :
  In r (recorded (process_step cfg include_files st s)) ->
  In r (recorded st)
  \/ exists root file, source_in cfg include_files [s] r root file.
Proof.
  unfold process_step.
  assert (G : forall files st,
             incl files (step_files s) ->
             In r (recorded (fold_left
                               (fun st f => process_file cfg include_files (step_root s) f st)
                               files st)) ->
             In r (recorded st)
             \/ exists root file, source_in cfg include_files [s] r root file).
  { induction files as [|f files IH]; intros st0 Hincl H; [now left|].
    cbn [fold_left] in H. apply IH in H.
    - destruct H as [H | H]; [|now right].
      apply process_file_recorded in H as [H | [-> Hacc]]; [now left|].
      right. exists (step_root s), (fst f). exists s, f.
      repeat split; auto; [now left | apply Hincl; now left].
    - intros x Hx. apply Hincl. now right. }
  apply G. apply incl_refl.
Qed.

Lemma source_in_mono steps steps' r root file :
  incl steps steps' ->
  source_in cfg include_files steps r root file ->
  source_in cfg include_files steps' r root file.
Proof.
  intros Hincl [s [f [Hs H]]]. exists s, f. split; [now apply Hincl | exact H].
Qed.

Lemma fold_steps_recorded steps st r :
  In r (recorded (fold_left (process_step cfg include_files) steps st)) ->
  In r (recorded st)
  \/ exists root file, source_in cfg include_files steps r root file.
Proof.
  revert st. induction steps as [|s steps IH]; intros st H; [now left|].
  cbn [fold_left] in H. apply IH in H as [H | [root [file H]]].
  - apply process_step_recorded in H as [H | [root [file H]]]; [now left|].
    right. exists root, file. eapply source_in_mono; [|exact H].
    intros x [<- | []]. now left.
  - right. exists root, file. eapply source_in_mono; [|exact H].
    intros x Hx. now right.
Qed.

Lemma scan_recorded top st r :
  In r (recorded (scan cfg include_dirs include_files top st)) ->
  In r (recorded st)
  \/ exists root file,
       source_in cfg include_files (walk cfg include_dirs (project_path cfg) top)
           r root file.
Proof. apply fold_steps_recorded. Qed.
End Recorded.

Lemma recorded_prologue cfg top : recorded (prologue cfg top) = [].
Proof. reflexivity. Qed.

Lemma recorded_epilogue cfg st : recorded (final (epilogue cfg st)) = recorded st.
Proof. unfold epilogue. destruct (dry_run cfg); reflexivity. Qed.

(** Every entry of a finished run comes from a file met by the walk and
    accepted by the inclusion tests. *)
Lemma run_recorded fs cfg r :
  In r (recorded (final (aggregate_hidden_files fs cfg))) ->
  exists top root file,
    fs (project_path cfg) = Some top
    /\ source_in cfg (snd get_include_patterns)
         (walk cfg (fst get_include_patterns) (project_path cfg) top) r root file.
Proof.
  unfold aggregate_hidden_files.
  destruct (fs (project_path cfg)) as [[name info | name listable children]|] eqn:E;
    try (cbn; intros []).
  rewrite recorded_epilogue. intros H. apply scan_recorded in H as [H | [root [file H]]].
  - rewrite recorded_prologue in H. destruct H.
  - exists (Dir name listable children), root, file. now split.
Qed.

(* ================================================================= *)
(** ** Where the walk goes *)

Section WalkRoots.
Variable cfg : config.
Variable include_dirs : list string.

Lemma walk_keeps_dir_not_excluded root d :
  walk_keeps_dir cfg include_dirs root d = true ->
  should_exclude_path (OsPath.join root d) (effective_excludes cfg) = false.
Proof.
  unfold walk_keeps_dir. intros H. apply andb_true_iff in H as [H _].
  now apply negb_true_iff in H.
Qed.

Lemma walk_roots n : forall top s,
  In s (walk cfg include_dirs top n) ->
  step_root s = top
  \/ should_exclude_path (step_root s) (effective_excludes cfg) = false.
Proof.
  induction n as [name info | name listable children IH] using node_induction;
    intros top s H; [destruct H|].
  destruct listable; [|destruct H]. cbn [walk] in H.
  destruct H as [<- | H]; [now left|]. right.
  apply in_flat_map in H as [c [Hc H]].
  rewrite Forall_forall in IH. specialize (IH c Hc).
  destruct c as [cname cinfo | d l cs]; [destruct H|].
  destruct (walk_keeps_dir cfg include_dirs top d) eqn:K; [|destruct H].
  destruct (IH _ _ H) as [-> | E]; [|exact E].
  now apply walk_keeps_dir_not_excluded.
Qed.

(** Every directory the walk goes down into is one that no exclude
    pattern matches. *)
Lemma walk_descends_unexcluded n top s :
  In s (tl (walk cfg include_dirs top n)) ->
  should_exclude_path (step_root s) (effective_excludes cfg) = false.
Proof.
  destruct n as [name info | name listable children]; [intros []|].
  destruct listable; [|intros []]. cbn [walk tl]. intros H.
  apply in_flat_map in H as [c [Hc H]].
  destruct c as [cname cinfo | d l cs]; [destruct H|].
  destruct (walk_keeps_dir cfg include_dirs top d) eqn:K; [|destruct H].
  destruct (walk_roots _ _ _ H) as [-> | E]; [|exact E].
  now apply walk_keeps_dir_not_excluded.
Qed.
End WalkRoots.

Lemma some_part_hidden_iff ps :
  some_part_hidden ps = true
  <-> exists part, In part ps /\ Py.startswith part "." = true.
Proof.
  induction ps as [|p ps IH]; cbn [some_part_hidden].
  - split; [discriminate | intros [x [[] _]]].
  - destruct (Py.startswith p ".") eqn:E.
    + split; [intros _ | reflexivity]. exists p. split; [now left | assumption].
    + rewrite IH. split.
      * intros [x [Hin Hx]]. exists x. split; [now right | assumption].
      * intros [x [[<- | Hin] Hx]]; [congruence|]. exists x. now split.
Qed.

Lemma filter_mode_dotfiles cfg file file_path :
  file_filter cfg = "dotfiles" ->
  passes_filter_mode cfg file file_path = true ->
  is_hidden_file_or_dir file_path = true.
Proof.
  unfold passes_filter_mode. intros ->. rewrite String.eqb_refl.
  destruct (is_hidden_file_or_dir file_path); [reflexivity | discriminate].
Qed.

Lemma filter_mode_config cfg file file_path :
  file_filter cfg = "config" ->
  passes_filter_mode cfg file file_path = true ->
  should_include_file file CONFIG_PATTERNS = true.
Proof.
  unfold passes_filter_mode. intros ->.
  change (String.eqb "config" "dotfiles") with false. rewrite String.eqb_refl.
  cbn [andb]. destruct (should_include_file file CONFIG_PATTERNS);
    [reflexivity | discriminate].
Qed.

(** C4: let [D] be a path that an exclude pattern matches (by occurring in
    it or by being one of its segments).  After the root, where it starts,
    the walk never goes down into [D] or into anything below it; a file
    whose path lies below [D] passes through the loop body without leaving
    a mark, whatever the include patterns and whether or not it is hidden;
    and every entry of a finished run comes from a file that does not lie
    below [D]. *)
Theorem excluded_directory_pruned (fs : filesystem) (cfg : config) (D : string) :
  should_exclude_path D (effective_excludes cfg) = true ->
  (forall include_dirs top s,
      In s (tl (walk cfg include_dirs (project_path cfg) top)) ->
      ~ extends D (step_root s))
  /\ (forall include_files root f st,
         extends D (OsPath.join root (fst f)) ->
         process_file cfg include_files root f st = st)
  /\ (forall r,
         In r (recorded (final (aggregate_hidden_files fs cfg))) ->
         exists top s f,
           fs (project_path cfg) = Some top
           /\ In s (walk cfg include_dirs_default (project_path cfg) top)
           /\ In f (step_files s)
           /\ r = OsPath.relpath (OsPath.join (step_root s) (fst f)) (project_path cfg)
           /\ ~ extends D (OsPath.join (step_root s) (fst f))).
Proof.
  intros HD. split; [|split].
  - intros include_dirs top s Hs Hext.
    apply walk_descends_unexcluded in Hs.
    rewrite (should_exclude_path_extends _ _ _ HD Hext) in Hs. discriminate.
  - intros include_files root f st Hext.
    apply process_file_not_accepted. unfold accepted.
    now rewrite (should_exclude_path_extends _ _ _ HD Hext).
  - intros r Hr. apply run_recorded in Hr as [top [root [file [Hfs Hsrc]]]].
    destruct Hsrc as [s [f [Hs [Hf [-> [-> [-> Hacc]]]]]]].
    exists top, s, f. repeat split; auto.
    intros Hext. unfold accepted in Hacc.
    rewrite (should_exclude_path_extends _ _ _ HD Hext) in Hacc. discriminate.
Qed.

Lemma excluded_directory_pruned_witness :
  process_file Sample.cfg_all include_files_default "/p/node_modules/pkg"
    (".secret", Sample.holding "token") initial_state = initial_state.
Proof.
  apply (proj1 (proj2 (excluded_directory_pruned (Sample.mount Sample.project)
                         Sample.cfg_all "/p/node_modules" eq_refl))).
  exists "/pkg/.secret". reflexivity.
Defined.

(* ================================================================= *)
(** ** A root that is not a directory *)

(** C9: when the root path does not resolve to a directory, the run prints
    the "not found" message and returns failure; that message is all it
    does: nothing is listed, no file is touched, nothing is collected and
    no artifact is written. *)
Theorem missing_root_aborts (fs : filesystem) (cfg : config) :
  isdir fs (project_path cfg) = false ->
  aggregate_hidden_files fs cfg
  = mkResult false (emit (Stdout (MsgNotFound (project_path cfg))) initial_state) None
  /\ returned (aggregate_hidden_files fs cfg) = false
  /\ written (aggregate_hidden_files fs cfg) = None
  /\ trace (final (aggregate_hidden_files fs cfg))
     = [Stdout (MsgNotFound (project_path cfg))]
  /\ recorded (final (aggregate_hidden_files fs cfg)) = [].
Proof.
  unfold isdir, aggregate_hidden_files. intros H.
  destruct (fs (project_path cfg)) as [[name info | name listable children]|];
    try discriminate; repeat split.
Qed.

Lemma missing_root_aborts_witness :
  returned (aggregate_hidden_files (Sample.mount Sample.project)
              (mkConfig "/p/README.md" None false "txt" MAX_FILE_SIZE "all")) = false.
Proof.
  exact (proj1 (proj2 (missing_root_aborts (Sample.mount Sample.project)
                         (mkConfig "/p/README.md" None false "txt" MAX_FILE_SIZE "all")
                         eq_refl))).
Defined.

(* ================================================================= *)
(** ** Dry run against a normal run *)

Section PlainText.

Lemma plain_byte_ascii b :
  plain_byte b = true ->
  (Byte.to_N b <? 128)%N = true
  /\ Ascii.eqb (ascii_of_byte b) CR = false
  /\ Py.is_continuation (ascii_of_byte b) = false.
Proof. destruct b; intros H; try discriminate H; repeat split. Qed.

Lemma utf8_ignore_plain content :
  forallb plain_byte content = true ->
  utf8_ignore [] 0 0%N 0%N content = content.
Proof.
  induction content as [|b content IH]; [reflexivity|].
  cbn [forallb]. intros H. apply andb_true_iff in H as [Hb Hrest].
  cbn [utf8_ignore]. destruct (plain_byte_ascii b Hb) as [-> _].
  now rewrite IH.
Qed.

Lemma len_translate_plain content :
  forallb plain_byte content = true ->
  Py.len (translate_newlines (string_of_list_byte content)) = length content.
Proof.
  induction content as [|b content IH]; [reflexivity|].
  cbn [forallb]. intros H. apply andb_true_iff in H as [Hb Hrest].
  destruct (plain_byte_ascii b Hb) as [_ [Hcr Hcont]].
  change (string_of_list_byte (b :: content))
    with (String (ascii_of_byte b) (string_of_list_byte content)).
  cbn [translate_newlines]. rewrite Hcr.
  cbn [Py.len]. rewrite Hcont. cbn [length]. now rewrite IH.
Qed.

(** Plain text is read as it is stored: one character for each byte. *)
Lemma len_read_text_plain content :
  forallb plain_byte content = true ->
  Py.len (read_text content) = length content.
Proof.
  intros H. unfold read_text. rewrite utf8_ignore_plain by exact H.
  now apply len_translate_plain.
Qed.

End PlainText.

Section DryAgainstNormal.
Variable cfg : config.
Variables include_dirs include_files : list string.

Let dry := with_dry_run cfg true.
Let normal := with_dry_run cfg false.

Lemma accepted_with_dry_run b root file :
  accepted (with_dry_run cfg b) include_files root file
  = accepted cfg include_files root file.
Proof. reflexivity. Qed.

Lemma process_file_dry_normal root f a b :
  agree a b ->
  agree (process_file dry include_files root f a)
        (process_file normal include_files root f b)
  /\ (plain_file (snd f) = true -> total_size a = total_size b ->
      total_size (process_file dry include_files root f a)
      = total_size (process_file normal include_files root f b)).
Proof.
  intros [Ht Hc].
  destruct (accepted cfg include_files root (fst f)) eqn:Hacc.
  2:{ rewrite !process_file_not_accepted by exact Hacc.
      split; [now split | auto]. }
  rewrite !process_file_accepted by exact Hacc.
  cbv zeta. unfold plain_file.
  destruct (st_size (snd f)) as [size | msg].
  2:{ unfold on_exception, agree. cbn [dry_run dry normal with_dry_run output_format].
      destruct (is_text_format (output_format cfg)); cbn; rewrite Ht;
        (split; [now split | auto]). }
  unfold after_size. cbn [max_file_size dry normal with_dry_run dry_run output_format].
  destruct (size >? max_file_size cfg)%Z.
  { unfold agree. cbn. rewrite Ht. split; [now split | auto]. }
  destruct (data (snd f)) as [content | msg] eqn:Ed.
  2:{ cbn [is_binary_file]. unfold agree. cbn. rewrite Ht. split; [now split | auto]. }
  destruct (is_binary_file (Ok content)).
  { unfold agree. cbn. rewrite Ht. split; [now split | auto]. }
  unfold agree.
  destruct (is_text_format (output_format cfg)); cbn; rewrite Ht, Hc;
    (split; [split; [reflexivity | lia]|]); intros Hp Hs;
    apply andb_true_iff in Hp as [Hsz Hpl]; apply Z.eqb_eq in Hsz;
    rewrite (len_read_text_plain _ Hpl), Hs, Hsz; lia.
Qed.

Lemma process_step_dry_normal s a b :
  agree a b ->
  agree (process_step dry include_files a s) (process_step normal include_files b s)
  /\ (forallb (fun f => plain_file (snd f)) (step_files s) = true ->
      total_size a = total_size b ->
      total_size (process_step dry include_files a s)
      = total_size (process_step normal include_files b s)).
Proof.
  unfold process_step. generalize (step_files s) as files.
  intros files. revert a b. induction files as [|f files IH]; intros a b H.
  - split; [exact H | auto].
  - cbn [fold_left forallb].
    destruct (process_file_dry_normal (step_root s) f a b H) as [H1 H2].
    destruct (IH _ _ H1) as [H3 H4]. split; [exact H3|].
    intros Hp Hs. apply andb_true_iff in Hp as [Hp1 Hp2]. auto.
Qed.

Lemma fold_steps_dry_normal steps a b :
  agree a b ->
  agree (fold_left (process_step dry include_files) steps a)
        (fold_left (process_step normal include_files) steps b)
  /\ (forallb (fun s => forallb (fun f => plain_file (snd f)) (step_files s)) steps = true ->
      total_size a = total_size b ->
      total_size (fold_left (process_step dry include_files) steps a)
      = total_size (fold_left (process_step normal include_files) steps b)).
Proof.
  revert a b. induction steps as [|s steps IH]; intros a b H.
  - split; [exact H | auto].
  - cbn [fold_left forallb].
    destruct (process_step_dry_normal s a b H) as [H1 H2].
    destruct (IH _ _ H1) as [H3 H4]. split; [exact H3|].
    intros Hp Hs. apply andb_true_iff in Hp as [Hp1 Hp2]. auto.
Qed.

(** The dry run keeps no content. *)
Lemma process_file_dry_keeps root f st :
  content_lines (process_file dry include_files root f st) = content_lines st
  /\ file_contents (process_file dry include_files root f st) = file_contents st.
Proof.
  destruct (accepted dry include_files root (fst f)) eqn:Hacc.
  2:{ rewrite process_file_not_accepted by exact Hacc. now split. }
  rewrite process_file_accepted by exact Hacc. cbv zeta.
  destruct (st_size (snd f)) as [size | msg]; [|now split].
  unfold after_size. cbn [dry dry_run with_dry_run].
  destruct (size >? _)%Z; [now split|].
  destruct (is_binary_file (data (snd f))); [now split|].
  destruct (data (snd f)); now split.
Qed.

Lemma fold_steps_dry_keeps steps st :
  content_lines (fold_left (process_step dry include_files) steps st) = content_lines st
  /\ file_contents (fold_left (process_step dry include_files) steps st) = file_contents st.
Proof.
  revert st. induction steps as [|s steps IH]; intros st; [now split|].
  cbn [fold_left]. destruct (IH (process_step dry include_files st s)) as [-> ->].
  unfold process_step. generalize (step_files s) as files. intros files. revert st.
  induction files as [|f files IHf]; intros st; [now split|].
  cbn [fold_left]. destruct (IHf (process_file dry include_files (step_root s) f st)) as [-> ->].
  apply process_file_dry_keeps.
Qed.

End DryAgainstNormal.

Section WalkFacts.
Variable cfg : config.
Variable include_dirs : list string.

Lemma files_of_in children f :
  In f (files_of children) -> In (File (fst f) (snd f)) children.
Proof.
  unfold files_of. intros H. apply in_flat_map in H as [c [Hc H]].
  destruct c as [name info | d l cs]; [|destruct H].
  destruct H as [<- | []]. exact Hc.
Qed.

(** The files the walk meets are files of the tree. *)
Lemma walk_files_in_tree n : forall top s f,
  In s (walk cfg include_dirs top n) -> In f (step_files s) ->
  In (snd f) (all_files n).
Proof.
  induction n as [name info | name listable children IH] using node_induction;
    intros top s f Hs Hf; [destruct Hs|].
  destruct listable; [|destruct Hs]. cbn [walk] in Hs. cbn [all_files].
  apply in_flat_map. destruct Hs as [<- | Hs].
  - cbn [step_files] in Hf. apply files_of_in in Hf.
    exists (File (fst f) (snd f)). split; [exact Hf | now left].
  - apply in_flat_map in Hs as [c [Hc Hs]].
    rewrite Forall_forall in IH. specialize (IH c Hc).
    destruct c as [cname cinfo | d l cs]; [destruct Hs|].
    destruct (walk_keeps_dir cfg include_dirs top d); [|destruct Hs].
    exists (Dir d l cs). split; [exact Hc | eapply IH; eauto].
Qed.

Lemma walk_files_plain n top :
  forallb plain_file (all_files n) = true ->
  forallb (fun s => forallb (fun f => plain_file (snd f)) (step_files s))
          (walk cfg include_dirs top n) = true.
Proof.
  intros H. rewrite forallb_forall in H.
  apply forallb_forall. intros s Hs. apply forallb_forall. intros f Hf.
  apply H. eapply walk_files_in_tree; eauto.
Qed.
End WalkFacts.

Lemma epilogue_trace cfg st :
  exists tail,
    trace (final (epilogue cfg st)) = (trace st ++ tail)%list
    /\ filter is_file_event tail = [].
Proof.
  unfold epilogue. destruct (dry_run cfg); cbn; rewrite <- ?app_assoc;
    eexists; split; reflexivity.
Qed.

Lemma epilogue_state cfg st :
  content_lines (final (epilogue cfg st)) = content_lines st
  /\ file_contents (final (epilogue cfg st)) = file_contents st
  /\ file_count (final (epilogue cfg st)) = file_count st
  /\ total_size (final (epilogue cfg st)) = total_size st
  /\ total_lines (final (epilogue cfg st)) = total_lines st.
Proof. unfold epilogue. destruct (dry_run cfg); repeat split. Qed.

(** C3, as the code has it: a dry run and a normal run of the same
    configuration on the same tree return the same result, take the same
    decisions file by file (the same calls and the same skip and processing
    reports, in the same order) and count the same number of files.  The dry
    run writes no artifact, stores no content and adds no section to the
    text; the normal run of an existing root writes one.  The total size is
    the sum of the sizes on disk in a dry run and of the lengths of the
    decoded texts in a normal run: the two agree when every file holds plain
    text (ASCII without carriage returns, size on disk equal to the length
    of the content). *)
Theorem dry_run_agrees (fs : filesystem) (cfg : config) :
  let dry := aggregate_hidden_files fs (with_dry_run cfg true) in
  let normal := aggregate_hidden_files fs (with_dry_run cfg false) in
  returned dry = returned normal
  /\ filter is_file_event (trace (final dry))
     = filter is_file_event (trace (final normal))
  /\ file_count (final dry) = file_count (final normal)
  /\ written dry = None
  /\ (isdir fs (project_path cfg) = true -> written normal <> None)
  /\ file_contents (final dry) = []
  /\ headings (content_lines (final dry)) = []
  /\ bodies (content_lines (final dry)) = []
  /\ ((forall top, fs (project_path cfg) = Some top ->
                   forallb plain_file (all_files top) = true) ->
      total_size (final dry) = total_size (final normal)).
Proof.
  cbv zeta. unfold aggregate_hidden_files, isdir.
  cbn [project_path with_dry_run].
  destruct (fs (project_path cfg)) as [[name info | name listable children]|] eqn:Efs;
    try (repeat split; discriminate).
  set (top := Dir name listable children).
  set (dirs := fst get_include_patterns). set (files := snd get_include_patterns).
  set (sd := scan (with_dry_run cfg true) dirs files top
               (prologue (with_dry_run cfg true) top)).
  set (sn := scan (with_dry_run cfg false) dirs files top
               (prologue (with_dry_run cfg false) top)).
  assert (Hagree : agree (prologue (with_dry_run cfg true) top)
                         (prologue (with_dry_run cfg false) top)) by (split; reflexivity).
  destruct (fold_steps_dry_normal cfg files
              (walk cfg dirs (project_path cfg) top) _ _ Hagree) as [[Ht Hc] Hsize].
  change (trace sd = trace sn) in Ht. change (file_count sd = file_count sn) in Hc.
  destruct (fold_steps_dry_keeps cfg files
              (walk cfg dirs (project_path cfg) top)
              (prologue (with_dry_run cfg true) top)) as [Hlines Hdict].
  change (content_lines sd = content_lines (prologue (with_dry_run cfg true) top)) in Hlines.
  change (file_contents sd = file_contents (prologue (with_dry_run cfg true) top)) in Hdict.
  destruct (epilogue_trace (with_dry_run cfg true) sd) as [td [Etd Ftd]].
  destruct (epilogue_trace (with_dry_run cfg false) sn) as [tn [Etn Ftn]].
  destruct (epilogue_state (with_dry_run cfg true) sd) as [Ld [Dd [Cd [Sd _]]]].
  destruct (epilogue_state (with_dry_run cfg false) sn) as [_ [_ [Cn [Sn _]]]].
  repeat split.
  - rewrite Etd, Etn, !filter_app, Ftd, Ftn, Ht. reflexivity.
  - rewrite Cd, Cn. exact Hc.
  - discriminate.
  - rewrite Dd, Hdict. reflexivity.
  - rewrite Ld, Hlines. reflexivity.
  - rewrite Ld, Hlines. reflexivity.
  - intros Hplain. rewrite Sd, Sn. apply Hsize; [|reflexivity].
    apply walk_files_plain. now apply Hplain.
Qed.

Lemma dry_run_agrees_witness :
  total_size (final (aggregate_hidden_files (Sample.mount Sample.project)
                       (with_dry_run Sample.cfg_all true)))
  = total_size (final (aggregate_hidden_files (Sample.mount Sample.project)
                         (with_dry_run Sample.cfg_all false))).
Proof.
  refine (proj2 (proj2 (proj2 (proj2 (proj2 (proj2 (proj2 (proj2
            (dry_run_agrees (Sample.mount Sample.project) Sample.cfg_all)))))))) _).
  intros top H. injection H as <-. vm_compute. reflexivity.
Defined.

(** C3, as the specification words it, fails: on a directory that holds one
    empty hidden file the dry run counts no line (it iterates over the lines
    of the file) and the normal run counts one (separators plus one). *)
Lemma dry_run_line_count_counterexample :
  total_lines (final (aggregate_hidden_files (Sample.mount Sample.empty_hidden)
                        (with_dry_run Sample.cfg_all true))) = 0%Z
  /\ total_lines (final (aggregate_hidden_files (Sample.mount Sample.empty_hidden)
                           (with_dry_run Sample.cfg_all false))) = 1%Z.
Proof. split; vm_compute; reflexivity. Qed.

(** The total sizes part as well: two bytes on disk that encode one
    character. *)
Example dry_run_size_differs :
  let top := Dir "p" true [File ".name" (mkFile (Ok 2%Z) (Ok [xc3; xa9]))] in
  total_size (final (aggregate_hidden_files (Sample.mount top)
                       (with_dry_run Sample.cfg_all true))) = 2%Z
  /\ total_size (final (aggregate_hidden_files (Sample.mount top)
                          (with_dry_run Sample.cfg_all false))) = 1%Z.
Proof. split; vm_compute; reflexivity. Qed.

(* ================================================================= *)
(** ** The rendered tree against the walk *)

Section SortedFacts.
Variable A : Type.
Variable key : A -> string.

Lemma in_insert_sorted x l y :
  In y (insert_sorted key x l) <-> y = x \/ In y l.
Proof.
  induction l as [|z l IH]; cbn [insert_sorted].
  - cbn. intuition.
  - destruct (String.ltb (key x) (key z)); cbn [In]; [intuition|].
    rewrite IH. intuition.
Qed.

Lemma in_sorted l y : In y (sorted key l) <-> In y l.
Proof.
  unfold sorted.
  assert (G : forall acc, In y (fold_left (fun acc x => insert_sorted key x acc) l acc)
                          <-> In y acc \/ In y l).
  { induction l as [|x l IH]; intros acc; cbn [fold_left In]; [intuition|].
    rewrite IH, in_insert_sorted. intuition. }
  rewrite G. cbn. intuition.
Qed.
End SortedFacts.

Lemma tree_dir_paths_in items p :
  In p (tree_dir_paths items) <-> exists line, In (ItemDir p line) items.
Proof.
  unfold tree_dir_paths. rewrite in_flat_map. split.
  - intros [i [Hi H]]. destruct i as [q l | q l | l]; [|destruct H|destruct H].
    destruct H as [<- | []]. eexists; eassumption.
  - intros [line H]. exists (ItemDir p line). split; [assumption | now left].
Qed.

Lemma tree_file_paths_in items p :
  In p (tree_file_paths items) <-> exists line, In (ItemFile p line) items.
Proof.
  unfold tree_file_paths. rewrite in_flat_map. split.
  - intros [i [Hi H]]. destruct i as [q l | q l | l]; [destruct H| |destruct H].
    destruct H as [<- | []]. eexists; eassumption.
  - intros [line H]. exists (ItemFile p line). split; [assumption | now left].
Qed.

(** A kept directory is shown, and so is all that its own rendering shows. *)
Lemma show_dirs_shows no_files current_path prefix ds e :
  In e ds ->
  (exists line,
      In (ItemDir (OsPath.join current_path (listed_name e)) line)
         (show_dirs no_files current_path prefix ds))
  /\ exists prefix',
       incl (snd e (OsPath.join current_path (listed_name e)) prefix')
            (show_dirs no_files current_path prefix ds).
Proof.
  induction ds as [|d ds IH]; intros H; [destruct H|].
  cbn [show_dirs]. destruct H as [-> | H].
  - split.
    + eexists. left. reflexivity.
    + eexists. intros i Hi. right. apply in_or_app. left. exact Hi.
  - destruct (IH H) as [[line Hl] [prefix' Hp]]. split.
    + exists line. right. apply in_or_app. now right.
    + exists prefix'. intros i Hi. right. apply in_or_app. right. now apply Hp.
Qed.

Lemma show_files_shows current_path prefix fs e :
  In e fs ->
  exists line,
    In (ItemFile (OsPath.join current_path (listed_name e)) line)
       (show_files current_path prefix fs).
Proof.
  induction fs as [|f fs IH]; intros H; [destruct H|].
  cbn [show_files]. destruct H as [-> | H].
  - eexists. left. reflexivity.
  - destruct (IH H) as [line Hl]. exists line. now right.
Qed.

Section TreeAgainstWalk.
Variable cfg : config.
Variables include_dirs include_files : list string.

Let render := add_directory_content include_dirs include_files.

Lemma walk_keeps_tree_keeps top c :
  walk_keeps_dir cfg include_dirs top (node_name c) = true ->
  tree_keeps_dir include_dirs top (c, render c) = true.
Proof.
  unfold walk_keeps_dir, tree_keeps_dir. intros H.
  apply andb_true_iff in H as [_ H]. exact H.
Qed.

(** A directory kept among the entries of a listing is shown by the
    listing, with its content. *)
Lemma render_listing_dir top prefix children c :
  In c children -> is_dir_node c = true ->
  tree_keeps_dir include_dirs top (c, render c) = true ->
  (exists line,
      In (ItemDir (OsPath.join top (node_name c)) line)
         (render_listing include_dirs include_files top prefix
            (map (fun c => (c, render c)) children)))
  /\ exists prefix',
       incl (render c (OsPath.join top (node_name c)) prefix')
            (render_listing include_dirs include_files top prefix
               (map (fun c => (c, render c)) children)).
Proof.
  intros Hc Hd Hk. unfold render_listing.
  set (included_dirs := filter (tree_keeps_dir include_dirs top) _).
  assert (Hin : In (c, render c) included_dirs).
  { unfold included_dirs. apply filter_In. split; [|exact Hk].
    apply filter_In. split; [|exact Hd].
    apply in_sorted. apply in_map_iff. now exists c. }
  destruct (show_dirs_shows
              (Nat.eqb (length (filter (tree_keeps_file include_files)
                 (filter (fun e => negb (is_dir_node (fst e)))
                    (sorted listed_name (map (fun c => (c, render c)) children))))) 0)
              top prefix included_dirs (c, render c) Hin) as [[line Hl] [prefix' Hp]].
  split.
  - exists line. apply in_or_app. now left.
  - exists prefix'. intros i Hi. apply in_or_app. left. now apply Hp.
Qed.

Lemma render_listing_file top prefix children name info :
  In (File name info) children ->
  should_include_file name include_files || is_hidden_file_or_dir name = true ->
  exists line,
    In (ItemFile (OsPath.join top name) line)
       (render_listing include_dirs include_files top prefix
          (map (fun c => (c, render c)) children)).
Proof.
  intros Hc Hk. unfold render_listing.
  set (included_files := filter (tree_keeps_file include_files) _).
  assert (Hin : In (File name info, render (File name info)) included_files).
  { unfold included_files. apply filter_In. split; [|exact Hk].
    apply filter_In. split; [|reflexivity].
    apply in_sorted. apply in_map_iff. now exists (File name info). }
  destruct (show_files_shows top prefix included_files _ Hin) as [line Hl].
  exists line. apply in_or_app. now right.
Qed.

Lemma dirs_of_in children d :
  In d (dirs_of children) ->
  exists c, In c children /\ is_dir_node c = true /\ node_name c = d.
Proof.
  unfold dirs_of. intros H. apply in_map_iff in H as [c [<- H]].
  apply filter_In in H as [H1 H2]. now exists c.
Qed.

(** Whatever lies in the steps of a child's walk lies in the steps that
    follow the first step of its parent's. *)
Lemma in_child_walk (P : walk_step -> Prop) top children :
  (exists s, In s (flat_map (fun c =>
                      match c with
                      | Dir d _ _ =>
                          if walk_keeps_dir cfg include_dirs top d
                          then walk cfg include_dirs (OsPath.join top d) c
                          else []
                      | File _ _ => []
                      end) children) /\ P s) ->
  exists c s, In c children /\ is_dir_node c = true
              /\ walk_keeps_dir cfg include_dirs top (node_name c) = true
              /\ In s (walk cfg include_dirs (OsPath.join top (node_name c)) c)
              /\ P s.
Proof.
  intros [s [Hs HP]]. apply in_flat_map in Hs as [c [Hc Hs]].
  destruct c as [name info | d l cs]; [destruct Hs|].
  destruct (walk_keeps_dir cfg include_dirs top d) eqn:K; [|destruct Hs].
  exists (Dir d l cs), s. repeat split; auto.
Qed.

Lemma walk_within_tree_node n : forall top prefix,
  (forall p, In p (walk_dir_paths (walk cfg include_dirs top n)) ->
             In p (tree_dir_paths (render n top prefix)))
  /\ (forall p name,
         In (p, name) (walk_accepted cfg include_files (walk cfg include_dirs top n)) ->
         should_include_file name include_files || is_hidden_file_or_dir name = true ->
         In p (tree_file_paths (render n top prefix))).
Proof.
  induction n as [name info | name listable children IH] using node_induction;
    intros top prefix; [split; [intros ? H | intros ? ? H]; destruct H|].
  destruct listable; [|split; [intros ? H | intros ? ? H]; destruct H].
  rewrite Forall_forall in IH. split.
  - intros p Hp. apply tree_dir_paths_in.
    unfold walk_dir_paths in Hp. apply in_flat_map in Hp as [s [Hs Hp]].
    cbn [walk] in Hs. destruct Hs as [<- | Hs].
    + cbn [step_root step_dirs] in Hp. apply in_map_iff in Hp as [d [<- Hd]].
      apply filter_In in Hd as [Hd Hk].
      apply dirs_of_in in Hd as [c [Hc [Hdir <-]]].
      apply (render_listing_dir top prefix children c Hc Hdir).
      now apply walk_keeps_tree_keeps.
    + destruct (in_child_walk (fun s => In p (map (OsPath.join (step_root s)) (step_dirs s)))
                  top children (ex_intro _ s (conj Hs Hp)))
        as [c [s' [Hc [Hdir [Hk [Hs' Hp']]]]]].
      destruct (render_listing_dir top prefix children c Hc Hdir
                  (walk_keeps_tree_keeps top c Hk)) as [_ [prefix' Hincl]].
      destruct (IH c Hc (OsPath.join top (node_name c)) prefix') as [IHd _].
      assert (Hq : In p (tree_dir_paths (render c (OsPath.join top (node_name c)) prefix'))).
      { apply IHd. unfold walk_dir_paths. apply in_flat_map. now exists s'. }
      apply tree_dir_paths_in in Hq as [line Hq]. exists line. now apply Hincl.
  - intros p fname Hp Hbare. apply tree_file_paths_in.
    unfold walk_accepted in Hp. apply in_flat_map in Hp as [s [Hs Hp]].
    cbn [walk] in Hs. destruct Hs as [<- | Hs].
    + cbn [step_root step_files] in Hp. apply in_map_iff in Hp as [f [E Hf]].
      injection E as <- <-. apply filter_In in Hf as [Hf _].
      apply files_of_in in Hf.
      now apply (render_listing_file top prefix children (fst f) (snd f)).
    + destruct (in_child_walk
                  (fun s => In (p, fname)
                      (map (fun f => (OsPath.join (step_root s) (fst f), fst f))
                         (filter (fun f => accepted cfg include_files (step_root s) (fst f))
                            (step_files s))))
                  top children (ex_intro _ s (conj Hs Hp)))
        as [c [s' [Hc [Hdir [Hk [Hs' Hp']]]]]].
      destruct (render_listing_dir top prefix children c Hc Hdir
                  (walk_keeps_tree_keeps top c Hk)) as [_ [prefix' Hincl]].
      destruct (IH c Hc (OsPath.join top (node_name c)) prefix') as [_ IHf].
      assert (Hq : In p (tree_file_paths (render c (OsPath.join top (node_name c)) prefix'))).
      { apply (IHf p fname); [|exact Hbare].
        unfold walk_accepted. apply in_flat_map. now exists s'. }
      apply tree_file_paths_in in Hq as [line Hq]. exists line. now apply Hincl.
Qed.

End TreeAgainstWalk.


(* ================================================================= *)
(** ** From the tree back to the walk *)

Section HiddenUnderJoin.
Import Py PyFacts.

(** Splitting after a separator starts afresh. *)
Lemma split_from_app sep a : forall cur b,
  split_from sep cur (a ++ String sep b)
  = (split_from sep cur a ++ split_from sep "" b)%list.
Proof.
  induction a as [|c a IH]; intros cur b.
  - cbn [append split_from]. rewrite Ascii.eqb_refl. reflexivity.
  - cbn [append split_from]. destruct (Ascii.eqb c sep).
    + rewrite IH. reflexivity.
    + apply IH.
Qed.

Lemma endswith_sep a :
  endswith a "/" = true -> exists a', a = a' ++ "/".
Proof. intros H. apply endswith_spec in H as [t ->]. now exists t. Qed.

Lemma some_part_hidden_app xs ys :
  some_part_hidden ys = true -> some_part_hidden (xs ++ ys) = true.
Proof.
  intros H. induction xs as [|x xs IH]; [exact H|].
  cbn [app some_part_hidden]. destruct (startswith x "."); [reflexivity | exact IH].
Qed.

Lemma some_part_hidden_root r ps :
  startswith r "." = false ->
  some_part_hidden ps = true -> some_part_hidden (r :: ps) = true.
Proof. intros Hr H. cbn [some_part_hidden]. now rewrite Hr. Qed.

Lemma root_of_not_hidden path : startswith (OsPath.root_of path) "." = false.
Proof.
  unfold OsPath.root_of. destruct (startswith path "/"); [|reflexivity].
  destruct (startswith path "//" && negb (startswith path "///")); reflexivity.
Qed.

Lemma hidden_of_fields path :
  some_part_hidden (filter OsPath.keep_component (split OsPath.sep path)) = true ->
  is_hidden_file_or_dir path = true.
Proof.
  intros H. unfold is_hidden_file_or_dir, OsPath.parts.
  destruct (String.eqb (OsPath.root_of path) ""); [exact H|].
  apply some_part_hidden_root; [apply root_of_not_hidden | exact H].
Qed.

Lemma fields_of_hidden name :
  startswith name "/" = false ->
  is_hidden_file_or_dir name = true ->
  some_part_hidden (filter OsPath.keep_component (split OsPath.sep name)) = true.
Proof.
  intros Hn. unfold is_hidden_file_or_dir, OsPath.parts, OsPath.root_of.
  rewrite Hn. cbn. auto.
Qed.

(** A hidden name makes every path that ends with it hidden. *)
Lemma hidden_under_join root name :
  is_hidden_file_or_dir name = true ->
  is_hidden_file_or_dir (OsPath.join root name) = true.
Proof.
  intros H. unfold OsPath.join.
  destruct (startswith name "/") eqn:Hn; [exact H|].
  pose proof (fields_of_hidden name Hn H) as Hf.
  destruct (String.eqb_spec root "") as [-> | Hroot]; [exact H|].
  cbn [orb]. destruct (endswith root "/") eqn:He.
  - apply endswith_sep in He as [a ->]. rewrite append_assoc.
    apply hidden_of_fields. unfold split.
    change ("/" ++ name) with (String OsPath.sep name).
    rewrite split_from_app, filter_app. now apply some_part_hidden_app.
  - apply hidden_of_fields. unfold split.
    change ("/" ++ name) with (String OsPath.sep name).
    rewrite split_from_app, filter_app. now apply some_part_hidden_app.
Qed.
End HiddenUnderJoin.

Lemma show_dirs_from no_files current_path prefix ds i :
  In i (show_dirs no_files current_path prefix ds) ->
  exists e, In e ds
    /\ ((exists line, i = ItemDir (OsPath.join current_path (listed_name e)) line)
        \/ exists prefix',
             In i (snd e (OsPath.join current_path (listed_name e)) prefix')
             /\ incl (snd e (OsPath.join current_path (listed_name e)) prefix')
                     (show_dirs no_files current_path prefix ds)).
Proof.
  induction ds as [|d ds IH]; intros H; [destruct H|].
  cbn [show_dirs] in H. destruct H as [<- | H].
  - exists d. split; [now left|]. left. eexists. reflexivity.
  - apply in_app_or in H as [H | H].
    + exists d. split; [now left|]. right. eexists. split; [exact H|].
      intros x Hx. cbn [show_dirs]. right. apply in_or_app. now left.
    + destruct (IH H) as [e [He Hi]]. exists e. split; [now right|].
      destruct Hi as [Hi | [prefix' [Hi Hincl]]]; [now left|].
      right. exists prefix'. split; [exact Hi|].
      intros x Hx. cbn [show_dirs]. right. apply in_or_app. right. now apply Hincl.
Qed.

Lemma show_files_from current_path prefix fs i :
  In i (show_files current_path prefix fs) ->
  exists e line, In e fs
    /\ i = ItemFile (OsPath.join current_path (listed_name e)) line.
Proof.
  induction fs as [|f fs IH]; intros H; [destruct H|].
  cbn [show_files] in H. destruct H as [<- | H].
  - exists f. eexists. split; [now left | reflexivity].
  - destruct (IH H) as [e [line [He Hi]]]. exists e, line. split; [now right | exact Hi].
Qed.

Lemma tree_paths_incl items items' q :
  incl items items' ->
  In q (tree_dir_paths items ++ tree_file_paths items) ->
  In q (tree_dir_paths items' ++ tree_file_paths items').
Proof.
  intros Hincl H. apply in_or_app. apply in_app_or in H as [H | H].
  - left. apply tree_dir_paths_in in H as [line H]. apply tree_dir_paths_in.
    exists line. now apply Hincl.
  - right. apply tree_file_paths_in in H as [line H]. apply tree_file_paths_in.
    exists line. now apply Hincl.
Qed.

Section TreeBackToWalk.
Variable cfg : config.
Variables include_dirs include_files : list string.

Let render := add_directory_content include_dirs include_files.

(** What a listing shows is a kept directory, something shown inside one,
    or a kept file. *)
Lemma render_listing_from top prefix children i :
  In i (render_listing include_dirs include_files top prefix
          (map (fun c => (c, render c)) children)) ->
  (exists c, In c children /\ is_dir_node c = true
             /\ tree_keeps_dir include_dirs top (c, render c) = true
             /\ ((exists line, i = ItemDir (OsPath.join top (node_name c)) line)
                 \/ exists prefix',
                      In i (render c (OsPath.join top (node_name c)) prefix')
                      /\ incl (render c (OsPath.join top (node_name c)) prefix')
                              (render_listing include_dirs include_files top prefix
                                 (map (fun c => (c, render c)) children))))
  \/ (exists name info line,
         In (File name info) children
         /\ should_include_file name include_files || is_hidden_file_or_dir name = true
         /\ i = ItemFile (OsPath.join top name) line).
Proof.
  unfold render_listing. intros H. apply in_app_or in H as [H | H].
  - left. apply show_dirs_from in H as [e [He Hi]].
    apply filter_In in He as [He Hk]. apply filter_In in He as [He Hd].
    apply in_sorted in He. apply in_map_iff in He as [c [<- Hc]].
    exists c. repeat split; auto.
    destruct Hi as [Hi | [prefix' [Hi Hincl]]]; [now left|].
    right. exists prefix'. split; [exact Hi|].
    intros x Hx. apply in_or_app. left. now apply Hincl.
  - right. apply show_files_from in H as [e [line [He Hi]]].
    apply filter_In in He as [He Hk]. apply filter_In in He as [He Hd].
    apply in_sorted in He. apply in_map_iff in He as [c [<- Hc]].
    destruct c as [name info | d l cs]; [|discriminate].
    exists name, info, line. repeat split; auto.
Qed.

Lemma tree_keeps_walk_keeps top c :
  should_exclude_path (OsPath.join top (node_name c)) (effective_excludes cfg) = false ->
  tree_keeps_dir include_dirs top (c, render c) = true ->
  walk_keeps_dir cfg include_dirs top (node_name c) = true.
Proof.
  unfold walk_keeps_dir, tree_keeps_dir. intros -> H. exact H.
Qed.

Lemma child_walk_incl top name children c :
  In c children -> is_dir_node c = true ->
  walk_keeps_dir cfg include_dirs top (node_name c) = true ->
  incl (walk cfg include_dirs (OsPath.join top (node_name c)) c)
       (walk cfg include_dirs top (Dir name true children)).
Proof.
  intros Hc Hd Hk s Hs. cbn [walk]. right. apply in_flat_map. exists c.
  split; [exact Hc|]. destruct c as [cname info | d l cs]; [discriminate|].
  cbn [node_name] in *. now rewrite Hk.
Qed.

Lemma walk_dir_paths_incl steps steps' :
  incl steps steps' -> incl (walk_dir_paths steps) (walk_dir_paths steps').
Proof.
  intros H p Hp. unfold walk_dir_paths in *. apply in_flat_map in Hp as [s [Hs Hp]].
  apply in_flat_map. exists s. split; [now apply H | exact Hp].
Qed.

Lemma walk_file_paths_incl steps steps' :
  incl steps steps' ->
  incl (walk_file_paths cfg include_files steps)
       (walk_file_paths cfg include_files steps').
Proof.
  intros H p Hp. unfold walk_file_paths, walk_accepted in *.
  apply in_map_iff in Hp as [x [E Hp]]. apply in_flat_map in Hp as [s [Hs Hp]].
  apply in_map_iff. exists x. split; [exact E|].
  apply in_flat_map. exists s. split; [now apply H | exact Hp].
Qed.

Lemma files_of_intro children name info :
  In (File name info) children -> In (name, info) (files_of children).
Proof.
  intros H. unfold files_of. apply in_flat_map. exists (File name info).
  split; [exact H | now left].
Qed.

Lemma accepted_in_all_mode top name :
  file_filter cfg = "all" ->
  should_exclude_path (OsPath.join top name) (effective_excludes cfg) = false ->
  should_include_file name include_files || is_hidden_file_or_dir name = true ->
  accepted cfg include_files top name = true.
Proof.
  intros Hmode Hex Hbare. unfold accepted, passes_filter_mode.
  rewrite Hex, Hmode. cbn [negb andb String.eqb Ascii.eqb Bool.eqb].
  apply orb_true_iff in Hbare as [H | H]; [now rewrite H|].
  rewrite (hidden_under_join top name H). apply orb_true_r.
Qed.

Lemma tree_within_walk_node n : forall top prefix,
  (forall q, In q (tree_dir_paths (render n top prefix)
                   ++ tree_file_paths (render n top prefix)) ->
             should_exclude_path q (effective_excludes cfg) = false) ->
  (forall p, In p (tree_dir_paths (render n top prefix)) ->
             In p (walk_dir_paths (walk cfg include_dirs top n)))
  /\ (file_filter cfg = "all" ->
      forall p, In p (tree_file_paths (render n top prefix)) ->
                In p (walk_file_paths cfg include_files (walk cfg include_dirs top n))).
Proof.
  induction n as [name info | name listable children IH] using node_induction;
    intros top prefix Hex; [split; [intros ? H | intros _ ? H]; destruct H|].
  destruct listable.
  2:{ split; [intros ? H | intros _ ? H]; destruct H. }
  rewrite Forall_forall in IH.
  assert (Hkept : forall c, In c children -> is_dir_node c = true ->
                    tree_keeps_dir include_dirs top (c, render c) = true ->
                    walk_keeps_dir cfg include_dirs top (node_name c) = true).
  { intros c Hc Hd Hk. apply tree_keeps_walk_keeps; [|exact Hk].
    apply Hex. apply in_or_app. left.
    destruct (render_listing_dir include_dirs include_files top prefix children c
                Hc Hd Hk) as [[l Hl] _].
    apply tree_dir_paths_in. now exists l. }
  split.
  - intros p Hp. apply tree_dir_paths_in in Hp as [line Hp].
    apply render_listing_from in Hp
      as [[c [Hc [Hd [Hk Hi]]]] | [fname [info [line' [_ [_ E]]]]]]; [|discriminate].
    pose proof (Hkept c Hc Hd Hk) as Hwk.
    destruct Hi as [[line' E] | [prefix' [Hi Hincl]]].
    + injection E as -> _. unfold walk_dir_paths. cbn [walk flat_map step_root step_dirs].
      apply in_or_app. left. apply in_map. apply filter_In. split; [|exact Hwk].
      unfold dirs_of. apply in_map. apply filter_In. now split.
    + apply (walk_dir_paths_incl _ _ (child_walk_incl top name children c Hc Hd Hwk)).
      apply (IH c Hc (OsPath.join top (node_name c)) prefix').
      * intros q Hq. apply Hex. eapply tree_paths_incl; eauto.
      * apply tree_dir_paths_in. now exists line.
  - intros Hmode p Hp. apply tree_file_paths_in in Hp as [line Hp].
    pose proof Hp as Hp0.
    apply render_listing_from in Hp
      as [[c [Hc [Hd [Hk Hi]]]] | [fname [info [line' [Hf [Hbare E]]]]]].
    + pose proof (Hkept c Hc Hd Hk) as Hwk.
      destruct Hi as [[line' E] | [prefix' [Hi Hincl]]]; [discriminate|].
      apply (walk_file_paths_incl _ _ (child_walk_incl top name children c Hc Hd Hwk)).
      apply (IH c Hc (OsPath.join top (node_name c)) prefix').
      * intros q Hq. apply Hex. eapply tree_paths_incl; eauto.
      * exact Hmode.
      * apply tree_file_paths_in. now exists line.
    + injection E as -> _. unfold walk_file_paths, walk_accepted.
      apply in_map_iff. exists (OsPath.join top fname, fname). split; [reflexivity|].
      cbn [walk flat_map step_root step_files]. apply in_or_app. left.
      apply in_map_iff. exists (fname, info). split; [reflexivity|].
      apply filter_In. split; [now apply files_of_intro|].
      cbn [fst]. apply accepted_in_all_mode; auto.
      apply Hex. apply in_or_app. right. apply tree_file_paths_in. now exists line.
Qed.

End TreeBackToWalk.

(** C1, as the code has it.  The tree and the walk keep a directory by the
    same test on its path (it matches an include-directory name or is
    hidden), but only the walk applies the exclude patterns: every directory
    the walk keeps is shown in the tree.  For files the tree tests the bare
    name where the walk tests the full path, and the tree knows neither
    exclude patterns nor filter mode: a file the walk accepts is shown in the
    tree provided its own name is hidden or matches an include-file pattern.
    The other way round, when no path shown in the tree matches an exclude
    pattern, every directory of the tree is kept by the walk and, in filter
    mode [all], every file of the tree is accepted by the walk. *)
Theorem tree_against_walk (cfg : config) (include_dirs include_files : list string)
    (top : node) :
  let items := tree_items include_dirs include_files (project_path cfg) top in
  let steps := walk cfg include_dirs (project_path cfg) top in
  (forall p, In p (walk_dir_paths steps) -> In p (tree_dir_paths items))
  /\ (forall p name,
         In (p, name) (walk_accepted cfg include_files steps) ->
         should_include_file name include_files || is_hidden_file_or_dir name = true ->
         In p (tree_file_paths items))
  /\ ((forall q, In q (tree_dir_paths items ++ tree_file_paths items) ->
                 should_exclude_path q (effective_excludes cfg) = false) ->
      (forall p, In p (tree_dir_paths items) -> In p (walk_dir_paths steps))
      /\ (file_filter cfg = "all" ->
          forall p, In p (tree_file_paths items) ->
                    In p (walk_file_paths cfg include_files steps))).
Proof.
  cbv zeta. unfold tree_items.
  destruct (walk_within_tree_node cfg include_dirs include_files top
              (project_path cfg) "") as [Hd Hf].
  split; [exact Hd | split; [exact Hf|]].
  apply (tree_within_walk_node cfg include_dirs include_files top (project_path cfg) "").
Qed.

Lemma tree_against_walk_witness :
  let cfg := mkConfig "/p" (Some []) false "txt" MAX_FILE_SIZE "all" in
  In "/p/.env"
     (tree_file_paths (tree_items include_dirs_default include_files_default "/p"
                         Sample.project))
  /\ In "/p/build/app.log"
        (walk_file_paths cfg include_files_default
           (walk cfg include_dirs_default "/p" Sample.project)).
Proof.
  cbv zeta.
  destruct (tree_against_walk (mkConfig "/p" (Some []) false "txt" MAX_FILE_SIZE "all")
              include_dirs_default include_files_default Sample.project)
    as [_ [Hf Hback]].
  split.
  - apply (Hf "/p/.env" ".env"); [vm_compute; left; reflexivity | reflexivity].
  - refine (proj2 (Hback _) eq_refl "/p/build/app.log" _).
    + intros q _. reflexivity.
    + vm_compute. left. reflexivity.
Defined.

(** C1, as the specification words it, fails in both directions with the
    default patterns.  [build] is an include-directory name and an exclude
    pattern: the tree shows [/p/build] and the log inside, the walk prunes
    them.  [settings.json] lies in a hidden directory: the walk accepts it by
    its path, the tree does not show it because its own name is neither
    hidden nor matched. *)
Lemma tree_and_walk_differ_counterexample :
  let items := tree_items include_dirs_default include_files_default "/p" Sample.project in
  let steps := walk Sample.cfg_all include_dirs_default "/p" Sample.project in
  (In "/p/build" (tree_dir_paths items) /\ ~ In "/p/build" (walk_dir_paths steps))
  /\ (In "/p/build/app.log" (tree_file_paths items)
      /\ ~ In "/p/build/app.log" (walk_file_paths Sample.cfg_all include_files_default steps))
  /\ (In "/p/.vscode/settings.json"
         (walk_file_paths Sample.cfg_all include_files_default steps)
      /\ ~ In "/p/.vscode/settings.json" (tree_file_paths items)).
Proof.
  cbv zeta. repeat split; vm_compute; intuition discriminate.
Qed.

(* ================================================================= *)
(** ** Further properties of the pattern matchers *)

Section MatcherFacts.
Import Py PyFacts.

Lemma some_part_included_iff ps dirs :
  some_part_included ps dirs = true
  <-> exists part, In part ps /\ In (lower part) dirs.
Proof.
  induction ps as [|p ps IH]; cbn [some_part_included].
  - split; [discriminate | intros [x [[] _]]].
  - destruct (mem (lower p) dirs) eqn:E.
    + split; [intros _ | reflexivity]. exists p. split; [now left|].
      unfold mem in E. apply existsb_exists in E as [y [Hy Ey]].
      apply String.eqb_eq in Ey. now subst.
    + rewrite IH. split.
      * intros [x [Hin Hx]]. exists x. split; [now right | assumption].
      * intros [x [[<- | Hin] Hx]]; [|exists x; now split].
        exfalso. assert (mem (lower p) dirs = true); [|congruence].
        unfold mem. apply existsb_exists. exists (lower p).
        split; [assumption | apply String.eqb_refl].
Qed.

(** A name occurs in every path that [join] ends with it. *)
Lemma name_in_join root name : str_in name (OsPath.join root name) = true.
Proof.
  unfold OsPath.join. destruct (startswith name "/"); [apply str_in_refl|].
  apply str_in_spec. destruct (String.eqb root "" || endswith root "/").
  - exists root, "". now rewrite append_nil_r.
  - exists (root ++ "/"), "". now rewrite append_nil_r, append_assoc.
Qed.

Lemma str_in_trans a b c :
  str_in a b = true -> str_in b c = true -> str_in a c = true.
Proof.
  rewrite !str_in_spec. intros [x [y ->]] [u [v ->]].
  exists (u ++ x), (y ++ v). now rewrite !append_assoc.
Qed.

Lemma plain_name_relative name :
  plain_name name = true -> startswith name "/" = false.
Proof.
  unfold plain_name. intros H. apply negb_true_iff in H.
  destruct (startswith name "/") eqn:E; [|reflexivity].
  apply startswith_spec in E as [t ->].
  assert (str_in "/" ("/" ++ t) = true); [|congruence].
  apply str_in_spec. now exists "", t.
Qed.

End MatcherFacts.

(** X1: [should_exclude_path] holds exactly when one of the patterns occurs
    somewhere in the path taken as a string; the comparison of the pattern
    with the segments of the path never adds a match. *)
Theorem exclude_is_substring_test (path : string) (patterns : list string) :
  should_exclude_path path patterns = true
  <-> exists pattern before after,
        In pattern patterns /\ path = before ++ pattern ++ after.
Proof.
  rewrite should_exclude_path_iff. split.
  - intros [p [Hin Hp]]. apply PyFacts.str_in_spec in Hp as [a [b ->]].
    now exists p, a, b.
  - intros [p [a [b [Hin ->]]]]. exists p. split; [assumption|].
    apply PyFacts.str_in_spec. now exists a, b.
Qed.

(** X2: the three matchers read their patterns as a set: two collections
    with the same elements, in whatever order and multiplicity, give the
    same answers. *)
Theorem matchers_read_sets (ps qs : list string) :
  (forall x, In x ps <-> In x qs) ->
  forall s,
    should_exclude_path s ps = should_exclude_path s qs
    /\ should_include_path s ps = should_include_path s qs
    /\ should_include_file s ps = should_include_file s qs.
Proof.
  intros H s. repeat split; apply eq_true_iff_eq.
  - rewrite !should_exclude_path_iff.
    split; intros [p [Hin Hp]]; exists p; (split; [now apply H | assumption]).
  - unfold should_include_path. rewrite !some_part_included_iff.
    split; intros [p [Hin Hp]]; exists p; (split; [assumption | now apply H]).
  - unfold should_include_file. rewrite !include_file_loop_iff. unfold isIncludedFile.
    split; intros [p [Hin Hp]]; exists p; (split; [now apply H | assumption]).
Qed.

Lemma matchers_read_sets_witness :
  should_exclude_path "/p/build/x" ["build"; "dist"; "build"]
  = should_exclude_path "/p/build/x" ["dist"; "build"].
Proof.
  refine (proj1 (matchers_read_sets ["build"; "dist"; "build"] ["dist"; "build"] _
                   "/p/build/x")).
  intros x. cbn. tauto.
Defined.

(** X3: exclusion looks at names too.  When an exclude pattern occurs in the
    name of an entry, the walk never goes down into a directory of that
    name and a file of that name passes through the loop body without
    leaving a mark, wherever the entry lies and whatever the include
    patterns say.  With the default patterns this removes [.gitignore],
    whose name holds [.git]. *)
Theorem excluded_by_name (cfg : config) (include_dirs include_files : list string)
    (root name pattern : string) (info : file_info) (st : scan_state) :
  In pattern (effective_excludes cfg) ->
  Py.str_in pattern name = true ->
  walk_keeps_dir cfg include_dirs root name = false
  /\ process_file cfg include_files root (name, info) st = st.
Proof.
  intros Hin Hp.
  assert (E : should_exclude_path (OsPath.join root name) (effective_excludes cfg) = true).
  { apply should_exclude_path_iff. exists pattern. split; [assumption|].
    eapply str_in_trans; [exact Hp | apply name_in_join]. }
  split.
  - unfold walk_keeps_dir. now rewrite E.
  - apply process_file_not_accepted. unfold accepted. cbn [fst]. now rewrite E.
Qed.

Lemma excluded_by_name_witness :
  process_file Sample.cfg_all include_files_default "/p"
    (".gitignore", Sample.holding "*.log") initial_state = initial_state.
Proof.
  refine (proj2 (excluded_by_name Sample.cfg_all include_dirs_default
                   include_files_default "/p" ".gitignore" ".git"
                   (Sample.holding "*.log") initial_state _ eq_refl)).
  cbn. tauto.
Defined.

(* ================================================================= *)
(** ** Paths built by the walk *)

Section WalkPaths.
Variable cfg : config.
Variable include_dirs : list string.

Lemma plain_names_child name listable children c :
  plain_names (Dir name listable children) = true -> In c children ->
  plain_name (node_name c) = true /\ plain_names c = true.
Proof.
  cbn [plain_names]. intros H Hc. rewrite forallb_forall in H.
  apply andb_true_iff. now apply H.
Qed.

(** Every directory the walk visits lies under the directory it started
    from. *)
Lemma walk_roots_extend n : forall top s,
  plain_names n = true ->
  In s (walk cfg include_dirs top n) -> extends top (step_root s).
Proof.
  induction n as [name info | name listable children IH] using node_induction;
    intros top s Hn H; [destruct H|].
  destruct listable; [|destruct H]. cbn [walk] in H.
  destruct H as [<- | H]; [exists ""; now rewrite PyFacts.append_nil_r|].
  apply in_flat_map in H as [c [Hc H]].
  rewrite Forall_forall in IH. specialize (IH c Hc).
  destruct (plain_names_child _ _ _ c Hn Hc) as [Hname Hsub].
  destruct c as [cname cinfo | d l cs]; [destruct H|].
  destruct (walk_keeps_dir cfg include_dirs top d); [|destruct H].
  eapply extends_trans; [|apply (IH _ _ Hsub H)].
  apply join_extends. now apply plain_name_relative.
Qed.

Lemma walk_file_names_plain n : forall top s f,
  plain_names n = true ->
  In s (walk cfg include_dirs top n) -> In f (step_files s) ->
  plain_name (fst f) = true.
Proof.
  induction n as [name info | name listable children IH] using node_induction;
    intros top s f Hn Hs Hf; [destruct Hs|].
  destruct listable; [|destruct Hs]. cbn [walk] in Hs.
  destruct Hs as [<- | Hs].
  - cbn [step_files] in Hf. apply files_of_in in Hf.
    now destruct (plain_names_child _ _ _ _ Hn Hf).
  - apply in_flat_map in Hs as [c [Hc Hs]].
    rewrite Forall_forall in IH. specialize (IH c Hc).
    destruct (plain_names_child _ _ _ c Hn Hc) as [Hname Hsub].
    destruct c as [cname cinfo | d l cs]; [destruct Hs|].
    destruct (walk_keeps_dir cfg include_dirs top d); [|destruct Hs].
    eapply IH; eauto.
Qed.

(** Every file the walk meets lies under the directory it started from. *)
Lemma walk_files_extend n top s f :
  plain_names n = true ->
  In s (walk cfg include_dirs top n) -> In f (step_files s) ->
  extends top (OsPath.join (step_root s) (fst f)).
Proof.
  intros Hn Hs Hf. eapply extends_trans; [eapply walk_roots_extend; eauto|].
  apply join_extends, plain_name_relative. eapply walk_file_names_plain; eauto.
Qed.
End WalkPaths.

(** A loop body that leaves the state alone on every file of every step
    makes the whole scan leave it alone. *)
Lemma fold_steps_idle cfg include_files steps :
  (forall s f st, In s steps -> In f (step_files s) ->
                  process_file cfg include_files (step_root s) f st = st) ->
  forall st, fold_left (process_step cfg include_files) steps st = st.
Proof.
  induction steps as [|s steps IH]; intros H st; [reflexivity|].
  cbn [fold_left].
  assert (E : process_step cfg include_files st s = st).
  { unfold process_step.
    assert (G : forall files, incl files (step_files s) ->
              forall st0, fold_left (fun st f => process_file cfg include_files
                                                   (step_root s) f st) files st0 = st0).
    { induction files as [|f files IHf]; intros Hincl st0; [reflexivity|].
      cbn [fold_left]. rewrite (H s f st0); [|now left | apply Hincl; now left].
      apply IHf. intros x Hx. apply Hincl. now right. }
    apply G, incl_refl. }
  rewrite E. apply IH. intros s' f st' Hs Hf. apply H; [now right | assumption].
Qed.

(** X4: when the root path itself matches an exclude pattern (a project
    kept under a directory called [build], say), the walk leaves the state
    as it found it: every file below the root is turned away and no
    subdirectory is entered, so a finished run holds no entry and counts no
    file. *)
Theorem excluded_root_scans_nothing (fs : filesystem) (cfg : config) (top : node) :
  fs (project_path cfg) = Some top ->
  plain_names top = true ->
  should_exclude_path (project_path cfg) (effective_excludes cfg) = true ->
  (forall include_dirs include_files st,
      scan cfg include_dirs include_files top st = st)
  /\ recorded (final (aggregate_hidden_files fs cfg)) = []
  /\ file_count (final (aggregate_hidden_files fs cfg)) = 0%Z.
Proof.
  intros Hfs Hn Hex.
  assert (Hscan : forall include_dirs include_files st,
             scan cfg include_dirs include_files top st = st).
  { intros include_dirs include_files st. unfold scan. apply fold_steps_idle.
    intros s f st' Hs Hf. apply process_file_not_accepted. unfold accepted.
    rewrite (should_exclude_path_extends _ _ _ Hex
               (walk_files_extend cfg include_dirs top _ s f Hn Hs Hf)).
    reflexivity. }
  split; [exact Hscan|].
  unfold aggregate_hidden_files. rewrite Hfs.
  destruct top as [name info | name listable children]; [split; reflexivity|].
  rewrite Hscan, recorded_epilogue.
  destruct (epilogue_state cfg (prologue cfg (Dir name listable children)))
    as [_ [_ [-> _]]].
  split; reflexivity.
Qed.

Lemma excluded_root_scans_nothing_witness :
  recorded (final (aggregate_hidden_files
                     (fun path => if String.eqb path "/home/u/build/app"
                                  then Some Sample.project else None)
                     (mkConfig "/home/u/build/app" None false "json"
                        MAX_FILE_SIZE "all"))) = [].
Proof.
  refine (proj1 (proj2 (excluded_root_scans_nothing
            (fun path => if String.eqb path "/home/u/build/app"
                         then Some Sample.project else None)
            (mkConfig "/home/u/build/app" None false "json" MAX_FILE_SIZE "all")
            Sample.project eq_refl eq_refl eq_refl))).
Defined.

(* ================================================================= *)
(** ** Letter case, and paths put together by [join] *)

Section LetterCase.
Import Py PyFacts.

Lemma lower_ascii_idem c : lower_ascii (lower_ascii c) = lower_ascii c.
Proof. destruct c as [[] [] [] [] [] [] [] []]; reflexivity. Qed.

Lemma lower_idem s : lower (lower s) = lower s.
Proof.
  induction s as [|c s IH]; [reflexivity|].
  cbn [lower]. now rewrite lower_ascii_idem, IH.
Qed.

(** Lower-casing leaves the star, the dot and the slash where they are. *)
Lemma lower_ascii_mark c d :
  d = "*"%char \/ d = "."%char \/ d = "/"%char ->
  Ascii.eqb d (lower_ascii c) = Ascii.eqb d c
  /\ Ascii.eqb (lower_ascii c) d = Ascii.eqb c d.
Proof.
  intros [-> | [-> | ->]];
    destruct c as [[] [] [] [] [] [] [] []]; split; reflexivity.
Qed.

Lemma startswith_lower_glob p : startswith (lower p) "*." = startswith p "*.".
Proof.
  destruct p as [|c1 [|c2 p]]; cbn [lower startswith]; [reflexivity| |].
  - now rewrite (proj1 (lower_ascii_mark c1 "*" (or_introl eq_refl))).
  - rewrite (proj1 (lower_ascii_mark c1 "*" (or_introl eq_refl))).
    now rewrite (proj1 (lower_ascii_mark c2 "." (or_intror (or_introl eq_refl)))).
Qed.

Lemma lower_is_empty s : String.eqb (lower s) "" = String.eqb s "".
Proof. destruct s; reflexivity. Qed.

Lemma endswith_lower_slash p : endswith (lower p) "/" = endswith p "/".
Proof.
  induction p as [|c p IH]; [reflexivity|].
  cbn [lower endswith]. rewrite IH. f_equal.
  cbn [String.eqb].
  rewrite (proj2 (lower_ascii_mark c "/" (or_intror (or_intror eq_refl)))).
  now rewrite lower_is_empty.
Qed.

Lemma drop_first_lower p : drop_first (lower p) = lower (drop_first p).
Proof. destruct p; reflexivity. Qed.

Lemma drop_last_lower p : drop_last (lower p) = lower (drop_last p).
Proof.
  induction p as [|c p IH]; [reflexivity|].
  destruct p as [|d p]; [reflexivity|].
  change (String (lower_ascii c) (drop_last (lower (String d p)))
          = String (lower_ascii c) (lower (drop_last (String d p)))).
  now rewrite IH.
Qed.

Lemma include_file_loop_lower f patterns :
  include_file_loop (lower f) (map lower patterns)
  = include_file_loop (lower f) patterns.
Proof.
  induction patterns as [|p ps IH]; [reflexivity|].
  cbn [map include_file_loop].
  rewrite startswith_lower_glob, endswith_lower_slash, drop_first_lower,
    drop_last_lower, !lower_idem, IH.
  reflexivity.
Qed.

Lemma is_lower_lower s : is_lower (lower s) = true.
Proof. unfold is_lower. rewrite lower_idem. apply String.eqb_refl. Qed.

End LetterCase.

(** X5: [should_include_path] lower-cases the segments of the path but not
    the names of the set, so a name of the set that holds an upper-case
    letter never matches anything: the answer is the same with those names
    removed. *)
Theorem include_dirs_match_in_lower_case (path : string) (include_dirs : list string) :
  should_include_path path include_dirs
  = should_include_path path (filter is_lower include_dirs).
Proof.
  apply eq_true_iff_eq. unfold should_include_path.
  rewrite !some_part_included_iff.
  split; intros [part [Hin Hp]]; exists part; (split; [assumption|]).
  - apply filter_In. split; [assumption | apply is_lower_lower].
  - now apply filter_In in Hp.
Qed.

(** X6: [should_include_file] compares without regard to the case of ASCII
    letters on both sides: lower-casing the file name, the patterns, or both
    changes nothing. *)
Theorem include_file_ignores_case (filename : string) (patterns : list string) :
  should_include_file (Py.lower filename) patterns
  = should_include_file filename patterns
  /\ should_include_file filename (map Py.lower patterns)
     = should_include_file filename patterns.
Proof.
  unfold should_include_file. split.
  - now rewrite lower_idem.
  - apply include_file_loop_lower.
Qed.

Section JoinedPaths.
Import Py PyFacts.

Lemma some_part_hidden_orb xs ys :
  some_part_hidden (xs ++ ys) = some_part_hidden xs || some_part_hidden ys.
Proof.
  induction xs as [|x xs IH]; [reflexivity|].
  cbn [app some_part_hidden]. destruct (startswith x "."); [reflexivity | exact IH].
Qed.

Lemma some_part_included_orb xs ys dirs :
  some_part_included (xs ++ ys) dirs
  = some_part_included xs dirs || some_part_included ys dirs.
Proof.
  induction xs as [|x xs IH]; [reflexivity|].
  cbn [app some_part_included]. destruct (mem (lower x) dirs); [reflexivity | exact IH].
Qed.

Lemma is_hidden_fields path :
  is_hidden_file_or_dir path = some_part_hidden (path_fields path).
Proof.
  unfold is_hidden_file_or_dir, OsPath.parts. fold (path_fields path).
  destruct (String.eqb (OsPath.root_of path) ""); [reflexivity|].
  cbn [some_part_hidden]. now rewrite root_of_not_hidden.
Qed.

(** The fields of a joined path are those of its two sides. *)
Lemma fields_join a b :
  startswith b "/" = false ->
  path_fields (OsPath.join a b) = (path_fields a ++ path_fields b)%list.
Proof.
  intros Hb. unfold OsPath.join. rewrite Hb.
  destruct (String.eqb_spec a "") as [-> | Ha]; [reflexivity|].
  cbn [orb]. destruct (endswith a "/") eqn:He.
  - apply endswith_sep in He as [a' ->]. rewrite append_assoc.
    unfold path_fields, split. change ("/" ++ b) with (String OsPath.sep b).
    change (a' ++ "/") with (a' ++ String OsPath.sep "").
    rewrite !split_from_app, !filter_app. cbn [split_from filter OsPath.keep_component].
    cbn. now rewrite app_nil_r.
  - unfold path_fields, split. change ("/" ++ b) with (String OsPath.sep b).
    now rewrite split_from_app, filter_app.
Qed.

Lemma root_of_relative b : startswith b "/" = false -> OsPath.root_of b = "".
Proof. intros H. unfold OsPath.root_of. now rewrite H. Qed.

End JoinedPaths.

Section RootOfJoin.
Import Py PyFacts.

(** Joining a relative name to a path keeps the root of the path. *)
Lemma root_of_join a b :
  a <> "" -> startswith b "/" = false ->
  OsPath.root_of (OsPath.join a b) = OsPath.root_of a.
Proof.
  intros Ha Hb. unfold OsPath.join. rewrite Hb.
  destruct a as [|c1 [|c2 [|c3 a]]]; [congruence| | |].
  - destruct (Ascii.eqb_spec "/" c1) as [<- | Hc].
    + change (String.eqb "/" "" || endswith "/" "/") with true. cbv iota.
      unfold OsPath.root_of. destruct b as [|d b]; [reflexivity|].
      cbn [startswith] in Hb. rewrite andb_true_r in Hb.
      cbn [append startswith]. rewrite Ascii.eqb_refl, Hb. reflexivity.
    + destruct (String.eqb (String c1 "") "" || endswith (String c1 "") "/");
        unfold OsPath.root_of; cbn [append startswith];
        apply Ascii.eqb_neq in Hc; rewrite Hc; reflexivity.
  - destruct (Ascii.eqb_spec "/" c1) as [<- | Hc1].
    + destruct (Ascii.eqb_spec "/" c2) as [<- | Hc2].
      * change (String.eqb "//" "" || endswith "//" "/") with true. cbv iota.
        unfold OsPath.root_of. destruct b as [|d b]; [reflexivity|].
        cbn [startswith] in Hb. rewrite andb_true_r in Hb.
        cbn [append startswith]. rewrite !Ascii.eqb_refl, Hb. reflexivity.
      * destruct (String.eqb (String "/" (String c2 "")) ""
                  || endswith (String "/" (String c2 "")) "/");
          unfold OsPath.root_of; cbn [append startswith];
          apply Ascii.eqb_neq in Hc2; rewrite Hc2, Ascii.eqb_refl; reflexivity.
    + destruct (String.eqb (String c1 (String c2 "")) ""
                || endswith (String c1 (String c2 "")) "/");
        unfold OsPath.root_of; cbn [append startswith];
        apply Ascii.eqb_neq in Hc1; rewrite Hc1; reflexivity.
  - destruct (String.eqb (String c1 (String c2 (String c3 a))) ""
              || endswith (String c1 (String c2 (String c3 a))) "/");
      unfold OsPath.root_of; cbn [append startswith]; reflexivity.
Qed.

Lemma should_include_path_fields path dirs :
  should_include_path path dirs
  = (negb (String.eqb (OsPath.root_of path) "")
     && mem (lower (OsPath.root_of path)) dirs)
    || some_part_included (path_fields path) dirs.
Proof.
  unfold should_include_path, OsPath.parts. fold (path_fields path).
  destruct (String.eqb (OsPath.root_of path) ""); [reflexivity|].
  cbn [some_part_included negb andb].
  destruct (mem (lower (OsPath.root_of path)) dirs); reflexivity.
Qed.

Lemma is_hidden_join a b :
  startswith b "/" = false ->
  is_hidden_file_or_dir (OsPath.join a b)
  = is_hidden_file_or_dir a || is_hidden_file_or_dir b.
Proof.
  intros Hb. rewrite !is_hidden_fields, (fields_join a b Hb).
  apply some_part_hidden_orb.
Qed.

Lemma should_include_path_join a b dirs :
  startswith b "/" = false ->
  should_include_path (OsPath.join a b) dirs
  = should_include_path a dirs || should_include_path b dirs.
Proof.
  intros Hb. rewrite !should_include_path_fields, (fields_join a b Hb).
  rewrite some_part_included_orb, (root_of_relative b Hb).
  destruct (String.eqb_spec a "") as [-> | Ha].
  - assert (E : OsPath.join "" b = b) by (unfold OsPath.join; now rewrite Hb).
    rewrite E, (root_of_relative b Hb). reflexivity.
  - rewrite (root_of_join a b Ha Hb). cbn [String.eqb negb andb orb].
    now rewrite orb_assoc.
Qed.

End RootOfJoin.

(** X7: both tests on paths distribute over [os.path.join] with a relative
    name: the joined path is hidden exactly when one of the two sides is,
    and it matches the include-directory names exactly when one of the two
    sides does. *)
Theorem path_tests_over_join (a b : string) :
  Py.startswith b "/" = false ->
  is_hidden_file_or_dir (OsPath.join a b)
  = is_hidden_file_or_dir a || is_hidden_file_or_dir b
  /\ forall include_dirs,
       should_include_path (OsPath.join a b) include_dirs
       = should_include_path a include_dirs || should_include_path b include_dirs.
Proof.
  intros Hb. split; [now apply is_hidden_join|].
  intros dirs. now apply should_include_path_join.
Qed.

Lemma path_tests_over_join_witness :
  is_hidden_file_or_dir (OsPath.join "/p/.vscode" "settings.json")
  = is_hidden_file_or_dir "/p/.vscode" || is_hidden_file_or_dir "settings.json".
Proof.
  exact (proj1 (path_tests_over_join "/p/.vscode" "settings.json" eq_refl)).
Defined.

(* ================================================================= *)
(** ** Which directories the walk reaches *)

Section Reach.
Variable cfg : config.
Variable include_dirs : list string.

(** A property of paths that [join] with a plain name preserves holds of
    every directory the walk visits, once it holds of the start. *)
Lemma walk_roots_closed (P : string -> Prop) :
  (forall a b, plain_name b = true -> P a -> P (OsPath.join a b)) ->
  forall n top s,
    plain_names n = true -> P top ->
    In s (walk cfg include_dirs top n) -> P (step_root s).
Proof.
  intros Hjoin.
  induction n as [name info | name listable children IH] using node_induction;
    intros top s Hn Htop H; [destruct H|].
  destruct listable; [|destruct H]. cbn [walk] in H.
  destruct H as [<- | H]; [exact Htop|].
  apply in_flat_map in H as [c [Hc H]].
  rewrite Forall_forall in IH. specialize (IH c Hc).
  destruct (plain_names_child _ _ _ c Hn Hc) as [Hname Hsub].
  destruct c as [cname cinfo | d l cs]; [destruct H|].
  destruct (walk_keeps_dir cfg include_dirs top d); [|destruct H].
  apply (IH (OsPath.join top d) s Hsub); [|exact H].
  now apply Hjoin.
Qed.

Lemma walk_keeps_dir_kept root d :
  walk_keeps_dir cfg include_dirs root d = true ->
  should_include_path (OsPath.join root d) include_dirs
  || is_hidden_file_or_dir (OsPath.join root d) = true.
Proof.
  unfold walk_keeps_dir. intros H. now apply andb_true_iff in H as [_ H].
Qed.

Lemma walk_roots_kept n : forall top s,
  In s (walk cfg include_dirs top n) ->
  step_root s = top
  \/ should_include_path (step_root s) include_dirs
     || is_hidden_file_or_dir (step_root s) = true.
Proof.
  induction n as [name info | name listable children IH] using node_induction;
    intros top s H; [destruct H|].
  destruct listable; [|destruct H]. cbn [walk] in H.
  destruct H as [<- | H]; [now left|]. right.
  apply in_flat_map in H as [c [Hc H]].
  rewrite Forall_forall in IH. specialize (IH c Hc).
  destruct c as [cname cinfo | d l cs]; [destruct H|].
  destruct (walk_keeps_dir cfg include_dirs top d) eqn:K; [|destruct H].
  destruct (IH _ _ H) as [-> | E]; [|exact E].
  now apply walk_keeps_dir_kept.
Qed.
End Reach.

(** X8: the walk goes down only into directories whose path has a segment
    among the include-directory names or a hidden segment.  So every entry
    of a finished run comes from a file that lies in the root itself or in
    such a directory: a hidden file inside an ordinary directory, such as
    [src/.env], is never collected. *)
Theorem entries_come_from_kept_directories (fs : filesystem) (cfg : config)
    (r : string) :
  In r (recorded (final (aggregate_hidden_files fs cfg))) ->
  exists top s f,
    fs (project_path cfg) = Some top
    /\ In s (walk cfg include_dirs_default (project_path cfg) top)
    /\ In f (step_files s)
    /\ r = OsPath.relpath (OsPath.join (step_root s) (fst f)) (project_path cfg)
    /\ (step_root s = project_path cfg
        \/ should_include_path (step_root s) include_dirs_default
           || is_hidden_file_or_dir (step_root s) = true).
Proof.
  intros Hr. apply run_recorded in Hr as [top [root [file [Hfs Hsrc]]]].
  destruct Hsrc as [s [f [Hs [Hf [-> [-> [-> Hacc]]]]]]].
  exists top, s, f. repeat split; auto.
  exact (walk_roots_kept cfg include_dirs_default top (project_path cfg) s Hs).
Qed.

Lemma entries_come_from_kept_directories_witness :
  exists top s f,
    Sample.mount Sample.project "/p" = Some top
    /\ In s (walk Sample.cfg_all include_dirs_default "/p" top)
    /\ In f (step_files s)
    /\ ".env" = OsPath.relpath (OsPath.join (step_root s) (fst f)) "/p"
    /\ (step_root s = "/p"
        \/ should_include_path (step_root s) include_dirs_default
           || is_hidden_file_or_dir (step_root s) = true).
Proof.
  apply (entries_come_from_kept_directories (Sample.mount Sample.project)
           Sample.cfg_all ".env").
  vm_compute. left. reflexivity.
Defined.

(** X9: below a directory whose path is hidden or matches an
    include-directory name, only exclusion stops the walk: every
    subdirectory that no exclude pattern matches is entered, whatever its
    own name; and the tree shows every subdirectory there. *)
Theorem below_kept_directory (cfg : config) (include_dirs : list string)
    (root d : string) :
  should_include_path root include_dirs || is_hidden_file_or_dir root = true ->
  plain_name d = true ->
  walk_keeps_dir cfg include_dirs root d
  = negb (should_exclude_path (OsPath.join root d) (effective_excludes cfg))
  /\ forall e, listed_name e = d -> tree_keeps_dir include_dirs root e = true.
Proof.
  intros Hroot Hd. apply plain_name_relative in Hd.
  assert (K : should_include_path (OsPath.join root d) include_dirs
              || is_hidden_file_or_dir (OsPath.join root d) = true).
  { rewrite (should_include_path_join root d include_dirs Hd), (is_hidden_join root d Hd).
    apply orb_true_iff in Hroot as [H | H]; rewrite H;
      rewrite ?orb_true_r; reflexivity. }
  split.
  - unfold walk_keeps_dir. rewrite K. apply andb_true_r.
  - intros e <-. unfold tree_keeps_dir. exact K.
Qed.

Lemma below_kept_directory_witness :
  walk_keeps_dir Sample.cfg_all include_dirs_default "/p/.vscode" "anything"
  = negb (should_exclude_path (OsPath.join "/p/.vscode" "anything")
            (effective_excludes Sample.cfg_all)).
Proof.
  exact (proj1 (below_kept_directory Sample.cfg_all include_dirs_default
                  "/p/.vscode" "anything" eq_refl eq_refl)).
Defined.

(** X10: when the root path itself has a hidden segment (a project kept
    under [~/.config], say), every file the walk meets counts as hidden: the
    relevance test and the [dotfiles] filter let every file through, and
    outside filter mode [config] a file is turned away by exclusion only. *)
Theorem hidden_root_makes_every_file_hidden (cfg : config)
    (include_dirs include_files : list string) (top : node) :
  is_hidden_file_or_dir (project_path cfg) = true ->
  plain_names top = true ->
  forall s f,
    In s (walk cfg include_dirs (project_path cfg) top) ->
    In f (step_files s) ->
    is_hidden_file_or_dir (OsPath.join (step_root s) (fst f)) = true
    /\ (file_filter cfg <> "config" ->
        accepted cfg include_files (step_root s) (fst f)
        = negb (should_exclude_path (OsPath.join (step_root s) (fst f))
                  (effective_excludes cfg))).
Proof.
  intros Hroot Hn s f Hs Hf.
  assert (Hdir : is_hidden_file_or_dir (step_root s) = true).
  { apply (walk_roots_closed cfg include_dirs
             (fun p => is_hidden_file_or_dir p = true)) with top (project_path cfg);
      auto.
    intros a b Hb Ha. rewrite (is_hidden_join a b (plain_name_relative b Hb)).
    now rewrite Ha. }
  assert (Hfile : is_hidden_file_or_dir (OsPath.join (step_root s) (fst f)) = true).
  { rewrite is_hidden_join, Hdir; [reflexivity|].
    apply plain_name_relative.
    exact (walk_file_names_plain cfg include_dirs top _ s f Hn Hs Hf). }
  split; [exact Hfile|].
  intros Hmode. unfold accepted, passes_filter_mode. rewrite Hfile.
  apply String.eqb_neq in Hmode. rewrite Hmode.
  cbn [negb andb]. rewrite andb_false_r, orb_true_r, !andb_true_r. reflexivity.
Qed.

Lemma hidden_root_makes_every_file_hidden_witness :
  is_hidden_file_or_dir (OsPath.join "/home/u/.config/app" "README.md") = true.
Proof.
  refine (proj1 (hidden_root_makes_every_file_hidden
            (mkConfig "/home/u/.config/app" None false "txt" MAX_FILE_SIZE "all")
            include_dirs_default include_files_default Sample.project
            eq_refl eq_refl
            (mkStep "/home/u/.config/app" ["src"; ".vscode"]
               (files_of
                  [ File ".env" (Sample.holding "A=1");
                    File "README.md" (Sample.holding "hello");
                    Dir "build" true [File "app.log" (Sample.holding "started")];
                    Dir "src" true [File "main.py" (Sample.holding "pass")];
                    Dir ".vscode" true [File "settings.json" (Sample.holding "{}")] ]))
            ("README.md", Sample.holding "hello") _ _)).
  - vm_compute. left. reflexivity.
  - vm_compute. right. left. reflexivity.
Defined.

(* ================================================================= *)
(** ** The loop body, case by case *)

Section LoopCases.
Variable cfg : config.
Variable include_files : list string.

(** A sample that cannot be read is binary, so a file that is not binary
    has content. *)
Lemma not_binary_has_content (opened : io (list byte)) :
  is_binary_file opened = false -> exists content, opened = Ok content.
Proof. destruct opened as [content | msg]; [now exists content | discriminate]. Qed.

(** The six ways through the loop body. *)
Lemma process_file_cases root f st :
  let file_path := OsPath.join root (fst f) in
  let rel_path := OsPath.relpath file_path (project_path cfg) in
  let sized := emit (GetSize file_path) st in
  let sampled := emit (OpenBinary file_path) sized in
  let reported := emit (Stdout (MsgProcessing rel_path)) sampled in
  (accepted cfg include_files root (fst f) = false
   /\ process_file cfg include_files root f st = st)
  \/ (accepted cfg include_files root (fst f) = true
      /\ ((exists msg, st_size (snd f) = Raise msg
           /\ process_file cfg include_files root f st
              = on_exception cfg rel_path msg sized)
          \/ (exists size, st_size (snd f) = Ok size
              /\ (((size >? max_file_size cfg)%Z = true
                   /\ process_file cfg include_files root f st
                      = emit (Stdout (MsgSkipLarge rel_path size (max_file_size cfg)))
                             sized)
                  \/ ((size >? max_file_size cfg)%Z = false
                      /\ ((is_binary_file (data (snd f)) = true
                           /\ process_file cfg include_files root f st
                              = emit (Stdout (MsgSkipBinary rel_path)) sampled)
                          \/ (exists content,
                                data (snd f) = Ok content
                                /\ is_binary_file (Ok content) = false
                                /\ process_file cfg include_files root f st
                                   = if dry_run cfg
                                     then add_counts 0 0
                                            (Z.of_nat (count_lines (read_text content)))
                                            (emit (OpenText file_path)
                                               (add_counts 1 size 0 reported))
                                     else
                                       let file_content := read_text content in
                                       let kept :=
                                         store rel_path file_content
                                               (emit (OpenText file_path) reported) in
                                       add_counts 1 (Z.of_nat (Py.len file_content))
                                         (Z.of_nat (Py.count file_content "\n") + 1)
                                         (if is_text_format (output_format cfg)
                                          then append_lines
                                                 [Heading rel_path; Raw FENCE;
                                                  Body file_content; Raw FENCE; Raw ""]
                                                 kept
                                          else kept)))))))).
Proof.
  cbv zeta.
  destruct (accepted cfg include_files root (fst f)) eqn:Hacc.
  2:{ left. split; [reflexivity|]. now apply process_file_not_accepted. }
  right. split; [reflexivity|].
  rewrite (process_file_accepted cfg include_files root f st Hacc). cbv zeta.
  destruct (st_size (snd f)) as [size | msg].
  2:{ left. now exists msg. }
  right. exists size. split; [reflexivity|]. unfold after_size.
  destruct (size >? max_file_size cfg)%Z; [left; now split|].
  right. split; [reflexivity|].
  destruct (is_binary_file (data (snd f))) eqn:Hbin; [left; now split|].
  right. destruct (not_binary_has_content _ Hbin) as [content Hc].
  exists content. rewrite Hc in *. split; [reflexivity|]. split; [exact Hbin|].
  destruct (dry_run cfg); reflexivity.
Qed.

(** What holds before the walk and is kept by the loop body for every file
    of the walk holds after it. *)
Lemma fold_steps_invariant (Inv : scan_state -> Prop) steps :
  (forall s f st, In s steps -> In f (step_files s) -> Inv st ->
                  Inv (process_file cfg include_files (step_root s) f st)) ->
  forall st, Inv st -> Inv (fold_left (process_step cfg include_files) steps st).
Proof.
  induction steps as [|s steps IH]; intros H st Hst; [exact Hst|].
  cbn [fold_left]. apply IH.
  - intros s' f st' Hs. apply H. now right.
  - unfold process_step.
    assert (G : forall files, incl files (step_files s) -> forall st0, Inv st0 ->
                Inv (fold_left (fun st1 f => process_file cfg include_files (step_root s) f st1)
                       files st0)).
    { induction files as [|f files IHf]; intros Hincl st0 H0; [exact H0|].
      cbn [fold_left]. apply IHf; [intros x Hx; apply Hincl; now right|].
      apply H; [now left | apply Hincl; now left | exact H0]. }
    apply G; [apply incl_refl | exact Hst].
Qed.
End LoopCases.

Ltac loop_cases cfg include_files root f st H :=
  destruct (process_file_cases cfg include_files root f st)
    as [[_ H] | [_ [[? [_ H]] | [? [_ [[_ H] | [_ [[_ H] | [? [_ [_ H]]]]]]]]]]];
  cbv zeta in H; rewrite H.

(* ================================================================= *)
(** ** What the counters count *)

Section Counters.
Variable cfg : config.
Variable include_files : list string.

Lemma filter_snoc {A} (p : A -> bool) l x :
  filter p (l ++ [x]) = (filter p l ++ (if p x then [x] else []))%list.
Proof. rewrite filter_app. reflexivity. Qed.

Lemma process_file_processing root f st :
  file_count st = Z.of_nat (length (filter is_processing (trace st))) ->
  file_count (process_file cfg include_files root f st)
  = Z.of_nat (length (filter is_processing
                        (trace (process_file cfg include_files root f st)))).
Proof.
  intros Hst. loop_cases cfg include_files root f st H; clear H.
  - exact Hst.
  - unfold on_exception.
    destruct (dry_run cfg); [|destruct (is_text_format (output_format cfg))];
      cbn; rewrite filter_snoc, app_nil_r; exact Hst.
  - cbn. rewrite !filter_snoc, !app_nil_r. exact Hst.
  - cbn. rewrite !filter_snoc, !app_nil_r. exact Hst.
  - destruct (dry_run cfg); [|destruct (is_text_format (output_format cfg))];
      cbn; rewrite !filter_snoc; cbn [is_processing]; rewrite ?app_nil_r, ?length_app;
      cbn [length]; rewrite Hst; lia.
Qed.

Lemma bodies_app a b : bodies (a ++ b) = (bodies a ++ bodies b)%list.
Proof. apply flat_map_app. Qed.

Lemma error_blocks_app a b : error_blocks (a ++ b) = (error_blocks a ++ error_blocks b)%list.
Proof. apply flat_map_app. Qed.

Lemma sum_of_app {A} (g : A -> Z) a b :
  sum_of g (a ++ b) = (sum_of g a + sum_of g b)%Z.
Proof.
  unfold sum_of. induction a as [|x a IH]; cbn [app fold_right]; [reflexivity | rewrite IH; lia].
Qed.

End Counters.

Section RunFacts.
Variable cfg : config.

Lemma prologue_counts top :
  file_count (prologue cfg top) = 0%Z
  /\ total_size (prologue cfg top) = 0%Z
  /\ total_lines (prologue cfg top) = 0%Z
  /\ file_contents (prologue cfg top) = [].
Proof. repeat split. Qed.

Lemma prologue_trace top :
  trace (prologue cfg top)
  = [ Stdout (MsgAnalyzing (project_path cfg)); Stdout MsgScanning;
      Stdout (MsgIncludedTypes (sorted (fun x => x) (snd get_include_patterns)));
      Stdout MsgGeneratingTree; Stdout MsgProcessingFiles ].
Proof. reflexivity. Qed.

Lemma prologue_lines top :
  bodies (content_lines (prologue cfg top)) = []
  /\ headings (content_lines (prologue cfg top)) = []
  /\ error_blocks (content_lines (prologue cfg top)) = [].
Proof. repeat split. Qed.

Lemma summary_trace st :
  trace (summary st)
  = (trace st ++ [ Stdout MsgSummary; Stdout (MsgFileCount (file_count st));
                   Stdout (MsgSize (total_size st) (total_size st / 1024));
                   Stdout (MsgLineCount (total_lines st)) ])%list.
Proof. unfold summary. cbn. now rewrite <- !app_assoc. Qed.

Lemma epilogue_summary st :
  exists before,
    trace (final (epilogue cfg st))
    = (trace st ++ before
       ++ [ Stdout MsgSummary; Stdout (MsgFileCount (file_count st));
            Stdout (MsgSize (total_size st) (total_size st / 1024));
            Stdout (MsgLineCount (total_lines st)) ])%list
    /\ filter is_processing before = [].
Proof.
  unfold epilogue. destruct (dry_run cfg); cbn [final]; rewrite summary_trace; cbn.
  - exists [Stdout MsgBlank; Stdout MsgDryRunBanner]. rewrite <- !app_assoc. now split.
  - eexists [Stdout MsgBlank; Stdout (MsgSuccess _); Stdout MsgBlank].
    rewrite <- !app_assoc. now split.
Qed.
End RunFacts.

(** X11: the file count is the number of "processing" reports: a file is
    counted exactly when it was announced, in a dry run and in a normal one,
    and a run that returns [True] ends by printing the summary with that
    count, the total size with its quotient by 1024, and the line count. *)
Theorem file_count_is_processing_reports (fs : filesystem) (cfg : config) :
  let st := final (aggregate_hidden_files fs cfg) in
  file_count st = Z.of_nat (length (filter is_processing (trace st)))
  /\ (returned (aggregate_hidden_files fs cfg) = true ->
      exists before,
        trace st
        = (before
           ++ [ Stdout MsgSummary;
                Stdout (MsgFileCount (Z.of_nat (length (filter is_processing before))));
                Stdout (MsgSize (total_size st) (total_size st / 1024));
                Stdout (MsgLineCount (total_lines st)) ])%list).
Proof.
  cbv zeta. unfold aggregate_hidden_files.
  destruct (fs (project_path cfg)) as [[name info | name listable children]|];
    try (split; [reflexivity | discriminate]).
  set (top := Dir name listable children).
  set (st := scan cfg (fst get_include_patterns) (snd get_include_patterns) top
               (prologue cfg top)).
  assert (Hst : file_count st = Z.of_nat (length (filter is_processing (trace st)))).
  { unfold st, scan.
    apply (fold_steps_invariant cfg (snd get_include_patterns)
             (fun s => file_count s = Z.of_nat (length (filter is_processing (trace s))))).
    - intros s f st0 _ _. apply process_file_processing.
    - reflexivity. }
  destruct (epilogue_summary cfg st) as [before [Htr Hnone]].
  destruct (epilogue_state cfg st) as [_ [_ [Hc [Hs Hl]]]].
  rewrite Htr, Hc, Hs, Hl. split.
  - rewrite !filter_app, Hnone. cbn. now rewrite !app_nil_r.
  - intros _. exists (trace st ++ before)%list.
    rewrite filter_app, Hnone, app_nil_r, <- Hst, <- app_assoc. reflexivity.
Qed.

Lemma file_count_is_processing_reports_witness :
  exists before,
    trace (final (aggregate_hidden_files (Sample.mount Sample.project) Sample.cfg_all))
    = (before
       ++ [ Stdout MsgSummary;
            Stdout (MsgFileCount (Z.of_nat (length (filter is_processing before))));
            Stdout (MsgSize
                      (total_size (final (aggregate_hidden_files
                                            (Sample.mount Sample.project) Sample.cfg_all)))
                      (total_size (final (aggregate_hidden_files
                                            (Sample.mount Sample.project) Sample.cfg_all))
                       / 1024));
            Stdout (MsgLineCount
                      (total_lines (final (aggregate_hidden_files
                                             (Sample.mount Sample.project)
                                             Sample.cfg_all)))) ])%list.
Proof.
  apply (proj2 (file_count_is_processing_reports (Sample.mount Sample.project)
                  Sample.cfg_all)).
  reflexivity.
Defined.

Section TextRun.
Variable cfg : config.
Variable include_files : list string.
Hypothesis Hnormal : dry_run cfg = false.
Hypothesis Htext : is_text_format (output_format cfg) = true.

Lemma process_file_counts_bodies root f st :
  counts_bodies st -> counts_bodies (process_file cfg include_files root f st).
Proof.
  unfold counts_bodies. intros [Hc [Hs [Hl Hh]]].
  loop_cases cfg include_files root f st H; clear H.
  - now repeat split.
  - unfold on_exception. rewrite Hnormal, Htext.
    cbn [append_lines emit content_lines file_count total_size total_lines].
    rewrite bodies_app, headings_app, error_blocks_app.
    cbn [bodies headings error_blocks flat_map app length].
    rewrite ?app_nil_r, !length_app. cbn [length]. repeat split; auto. lia.
  - now repeat split.
  - now repeat split.
  - rewrite Hnormal, Htext.
    cbn [append_lines emit store add_counts content_lines file_count total_size
         total_lines].
    rewrite bodies_app, headings_app, error_blocks_app.
    cbn [bodies headings error_blocks flat_map app].
    rewrite ?app_nil_r, !sum_of_app, !length_app. unfold sum_of at 2 4.
    cbn [length fold_right].
    rewrite Hc, Hs, Hl, Hh. repeat split; lia.
Qed.
End TextRun.

(** X12: in a normal run with format [txt] or [md] the summary describes
    the text that was written: the file count is the number of content
    blocks, the total size is the sum of their lengths in characters, the
    line count adds for each block one and the number of times the two
    characters backslash and [n] occur in it, and every heading is followed
    by either a content block or an error block. *)
Theorem summary_describes_the_text (fs : filesystem) (cfg : config) :
  dry_run cfg = false ->
  is_text_format (output_format cfg) = true ->
  let st := final (aggregate_hidden_files fs cfg) in
  file_count st = Z.of_nat (length (bodies (content_lines st)))
  /\ total_size st = sum_of (fun b => Z.of_nat (Py.len b)) (bodies (content_lines st))
  /\ total_lines st
     = sum_of (fun b => (Z.of_nat (Py.count b "\n") + 1)%Z) (bodies (content_lines st))
  /\ length (headings (content_lines st))
     = (length (bodies (content_lines st))
        + length (error_blocks (content_lines st)))%nat.
Proof.
  intros Hnormal Htext. cbv zeta. unfold aggregate_hidden_files.
  destruct (fs (project_path cfg)) as [[name info | name listable children]|];
    try (repeat split; reflexivity).
  set (top := Dir name listable children).
  destruct (epilogue_state cfg
              (scan cfg (fst get_include_patterns) (snd get_include_patterns) top
                 (prologue cfg top))) as [-> [_ [-> [-> ->]]]].
  unfold scan.
  apply (fold_steps_invariant cfg (snd get_include_patterns) counts_bodies).
  - intros s f st _ _. now apply process_file_counts_bodies.
  - repeat split.
Qed.

Lemma summary_describes_the_text_witness :
  file_count (final (aggregate_hidden_files (Sample.mount Sample.project) Sample.cfg_all))
  = Z.of_nat (length (bodies (content_lines
       (final (aggregate_hidden_files (Sample.mount Sample.project) Sample.cfg_all))))).
Proof.
  exact (proj1 (summary_describes_the_text (Sample.mount Sample.project) Sample.cfg_all
                  eq_refl eq_refl)).
Defined.

(* ================================================================= *)
(** ** Calls on files *)

Section Calls.
Variable cfg : config.
Variable include_files : list string.
Variable steps : list walk_step.

Let sound := sound_call cfg include_files steps.

Lemma Forall_snoc {A} (P : A -> Prop) l x :
  Forall P l -> P x -> Forall P (l ++ [x]).
Proof. intros Hl Hx. apply Forall_app. split; [exact Hl | now constructor]. Qed.

Lemma on_exception_trace rel msg st :
  trace (on_exception cfg rel msg st) = trace st.
Proof.
  unfold on_exception.
  destruct (dry_run cfg); [|destruct (is_text_format (output_format cfg))]; reflexivity.
Qed.

Lemma process_file_sound_calls s f st :
  In s steps -> In f (step_files s) ->
  Forall sound (trace st) ->
  Forall sound (trace (process_file cfg include_files (step_root s) f st)).
Proof.
  intros Hs Hf Hst.
  destruct (process_file_cases cfg include_files (step_root s) f st)
    as [[_ H] | [Hacc H]]; cbv zeta in H; [now rewrite H|].
  assert (Hat : file_at cfg include_files steps (OsPath.join (step_root s) (fst f)) f)
    by (exists s; now repeat split).
  assert (Hsized : Forall sound
                     (trace (emit (GetSize (OsPath.join (step_root s) (fst f))) st))).
  { cbn [emit trace]. apply Forall_snoc; [exact Hst|]. now exists f. }
  destruct H as [[msg [_ H]] | [size [Hsize H]]].
  { rewrite H, on_exception_trace. exact Hsized. }
  destruct H as [[_ H] | [Hle H]].
  { rewrite H. cbn [emit trace] in *. now apply Forall_snoc. }
  assert (Hmax : (size <= max_file_size cfg)%Z) by lia.
  assert (Hsampled : Forall sound
            (trace (emit (OpenBinary (OsPath.join (step_root s) (fst f)))
                      (emit (GetSize (OsPath.join (step_root s) (fst f))) st)))).
  { cbn [emit trace] in *. apply Forall_snoc; [exact Hsized|].
    exists f. split; [exact Hat | now exists size]. }
  destruct H as [[_ H] | [content [Hdata [Hbin H]]]].
  { rewrite H. cbn [emit trace] in *. now apply Forall_snoc. }
  assert (Htext : sound (OpenText (OsPath.join (step_root s) (fst f)))).
  { exists f. split; [exact Hat|]. split; [now exists size | now rewrite Hdata]. }
  rewrite H.
  destruct (dry_run cfg); [|destruct (is_text_format (output_format cfg))];
    cbn [emit trace add_counts store append_lines] in *;
    (apply Forall_snoc; [apply Forall_snoc; [exact Hsampled | exact I] | exact Htext]).
Qed.
End Calls.

(** X13: the scan touches only what the inclusion tests let through.  Every
    [getsize] call of a run is made for a file of the walk that is not
    excluded, passes the filter mode and is relevant; a file is opened only
    when its size is known and within the limit, and opened as text only
    when the binary check has answered no.  An excluded, oversized or
    binary file is never read. *)
Theorem calls_are_sound (fs : filesystem) (cfg : config) (top : node) :
  fs (project_path cfg) = Some top ->
  Forall (sound_call cfg (snd get_include_patterns)
            (walk cfg (fst get_include_patterns) (project_path cfg) top))
         (trace (final (aggregate_hidden_files fs cfg))).
Proof.
  intros Hfs. unfold aggregate_hidden_files. rewrite Hfs.
  destruct top as [name info | name listable children].
  { cbn. constructor; [exact I | constructor]. }
  set (top := Dir name listable children).
  destruct (epilogue_trace cfg
              (scan cfg (fst get_include_patterns) (snd get_include_patterns) top
                 (prologue cfg top))) as [tail [-> Htail]].
  apply Forall_app. split.
  - unfold scan.
    apply (fold_steps_invariant cfg (snd get_include_patterns)
             (fun st => Forall (sound_call cfg (snd get_include_patterns)
                                  (walk cfg (fst get_include_patterns)
                                     (project_path cfg) top)) (trace st))).
    + intros s f st Hs Hf. now apply process_file_sound_calls.
    + rewrite prologue_trace. repeat constructor.
  - apply Forall_forall. intros e He.
    assert (Hno : is_file_event e = false).
    { destruct (is_file_event e) eqn:E; [|reflexivity].
      assert (Hin : In e (filter is_file_event tail)) by (apply filter_In; now split).
      rewrite Htail in Hin. destruct Hin. }
    destruct e; try discriminate. exact I.
Qed.

Lemma calls_are_sound_witness :
  Forall (sound_call Sample.cfg_json (snd get_include_patterns)
            (walk Sample.cfg_json (fst get_include_patterns) "/p" Sample.project))
         (trace (final (aggregate_hidden_files (Sample.mount Sample.project)
                          Sample.cfg_json))).
Proof.
  exact (calls_are_sound (Sample.mount Sample.project) Sample.cfg_json
           Sample.project eq_refl).
Defined.

(** X14: a file whose size cannot be read is answered by the exception
    handler alone.  It is never opened, never announced and never counted;
    a dry run keeps no trace of it beyond the call, a text format gets a
    heading with an error block in place of the content, and the other
    formats get the error text as the content of the entry. *)
Theorem unsized_file_gets_placeholder (cfg : config) (include_files : list string)
    (root : string) (f : string * file_info) (msg : string) (st : scan_state) :
  accepted cfg include_files root (fst f) = true ->
  st_size (snd f) = Raise msg ->
  let file_path := OsPath.join root (fst f) in
  let rel_path := OsPath.relpath file_path (project_path cfg) in
  let st' := process_file cfg include_files root f st in
  trace st' = (trace st ++ [GetSize file_path])%list
  /\ (file_count st', total_size st', total_lines st')
     = (file_count st, total_size st, total_lines st)
  /\ (content_lines st', file_contents st')
     = if dry_run cfg then (content_lines st, file_contents st)
       else if is_text_format (output_format cfg)
       then ((content_lines st ++ [Heading rel_path; ErrorBlock msg; Raw ""])%list,
             file_contents st)
       else (content_lines st,
             dict_set (file_contents st) rel_path ("# Error reading file: " ++ msg)).
Proof.
  intros Hacc Hsize. cbv zeta.
  rewrite (process_file_accepted cfg include_files root f st Hacc). cbv zeta.
  rewrite Hsize. unfold on_exception.
  destruct (dry_run cfg); [|destruct (is_text_format (output_format cfg))];
    repeat split.
Qed.

Lemma unsized_file_gets_placeholder_witness :
  trace (process_file Sample.cfg_json include_files_default "/p"
           (".env", mkFile (Raise "Permission denied") (Ok [])) initial_state)
  = [GetSize "/p/.env"].
Proof.
  exact (proj1 (unsized_file_gets_placeholder Sample.cfg_json include_files_default
                  "/p" (".env", mkFile (Raise "Permission denied") (Ok []))
                  "Permission denied" initial_state eq_refl eq_refl)).
Defined.

(* ================================================================= *)
(** ** Files are treated one by one *)

Section Frame.
Variable cfg : config.
Variable include_files : list string.

Lemma process_file_frame root f st :
  trace (process_file cfg include_files root f st)
  = (trace st ++ file_events cfg include_files root f)%list.
Proof.
  unfold file_events.
  destruct (accepted cfg include_files root (fst f)) eqn:Hacc.
  2:{ rewrite !process_file_not_accepted by exact Hacc. cbn. now rewrite app_nil_r. }
  rewrite !process_file_accepted by exact Hacc. cbv zeta.
  destruct (st_size (snd f)) as [size | msg].
  2:{ now rewrite !on_exception_trace. }
  unfold after_size.
  destruct (size >? max_file_size cfg)%Z; [cbn; now rewrite <- app_assoc|].
  destruct (is_binary_file (data (snd f))) eqn:Hbin; [cbn; now rewrite <- !app_assoc|].
  destruct (not_binary_has_content _ Hbin) as [content ->].
  destruct (dry_run cfg); [|destruct (is_text_format (output_format cfg))];
    cbn; now rewrite <- !app_assoc.
Qed.

Lemma fold_files_frame root files : forall st,
  trace (fold_left (fun st f => process_file cfg include_files root f st) files st)
  = (trace st ++ flat_map (file_events cfg include_files root) files)%list.
Proof.
  induction files as [|f files IH]; intros st; cbn [fold_left flat_map].
  - now rewrite app_nil_r.
  - now rewrite IH, process_file_frame, <- app_assoc.
Qed.

Lemma fold_steps_frame steps : forall st,
  trace (fold_left (process_step cfg include_files) steps st)
  = (trace st
     ++ flat_map (fun s => flat_map (file_events cfg include_files (step_root s))
                             (step_files s)) steps)%list.
Proof.
  induction steps as [|s steps IH]; intros st; cbn [fold_left flat_map].
  - now rewrite app_nil_r.
  - rewrite IH. unfold process_step. now rewrite fold_files_frame, <- app_assoc.
Qed.
End Frame.

(** X15: files are treated one by one.  What the loop body does for a file
    (its calls and its reports) does not depend on the files met before, so
    the events of the whole walk are the events of its files laid end to
    end, directory by directory in the order of the walk and file by file
    in the order of the listing. *)
Theorem scan_events_are_per_file (cfg : config) (include_dirs include_files : list string)
    (top : node) (st : scan_state) :
  (forall root f st0,
      trace (process_file cfg include_files root f st0)
      = (trace st0 ++ file_events cfg include_files root f)%list)
  /\ trace (scan cfg include_dirs include_files top st)
     = (trace st
        ++ flat_map (fun s => flat_map (file_events cfg include_files (step_root s))
                                (step_files s))
             (walk cfg include_dirs (project_path cfg) top))%list.
Proof.
  split; [apply process_file_frame | apply fold_steps_frame].
Qed.

(* ================================================================= *)
(** ** What is written *)

Section Structured.
Variable cfg : config.
Variable include_files : list string.
Hypothesis Hfmt : is_text_format (output_format cfg) = false.

Lemma process_file_structured_lines root f st :
  content_lines (process_file cfg include_files root f st) = content_lines st.
Proof.
  loop_cases cfg include_files root f st H; clear H; try reflexivity.
  - unfold on_exception. rewrite Hfmt. now destruct (dry_run cfg).
  - rewrite Hfmt. now destruct (dry_run cfg).
Qed.
End Structured.

(** X16: with a format other than [txt] and [md] the walk adds nothing to
    the text: it still holds the header and the tree only.  A format that is
    none of the four known ones is written by the text branch, so the run
    leaves a [hidden_dump.txt] with header and tree and without any file
    content. *)
Theorem structured_run_adds_no_section (fs : filesystem) (cfg : config)
    (name : string) (listable : bool) (children : list node) :
  fs (project_path cfg) = Some (Dir name listable children) ->
  is_text_format (output_format cfg) = false ->
  let top := Dir name listable children in
  let r := aggregate_hidden_files fs cfg in
  content_lines (final r) = content_lines (prologue cfg top)
  /\ (dry_run cfg = false ->
      output_format cfg <> "json" -> output_format cfg <> "sqlite" ->
      written r
      = Some (TextFile (OsPath.join (project_path cfg) "hidden_dump" ++ ".txt")
                       (write_text (content_lines (prologue cfg top))))).
Proof.
  intros Hfs Hfmt. cbv zeta. unfold aggregate_hidden_files. rewrite Hfs.
  set (top := Dir name listable children).
  set (st := scan cfg (fst get_include_patterns) (snd get_include_patterns) top
               (prologue cfg top)).
  assert (Hst : content_lines st = content_lines (prologue cfg top)).
  { unfold st, scan.
    apply (fold_steps_invariant cfg (snd get_include_patterns)
             (fun s => content_lines s = content_lines (prologue cfg top)));
      [|reflexivity].
    intros s f st0 _ _ H0. now rewrite process_file_structured_lines. }
  destruct (epilogue_state cfg st) as [-> _]. split; [exact Hst|].
  intros Hnormal Hj Hs. unfold epilogue. rewrite Hnormal. cbn [written].
  unfold write_output. apply String.eqb_neq in Hj, Hs. rewrite Hj, Hs.
  unfold is_text_format in Hfmt. apply orb_false_iff in Hfmt as [_ Hmd].
  rewrite Hmd, Hst. reflexivity.
Qed.

Lemma structured_run_adds_no_section_witness :
  content_lines (final (aggregate_hidden_files (Sample.mount Sample.project)
                          Sample.cfg_json))
  = content_lines (prologue Sample.cfg_json Sample.project).
Proof.
  exact (proj1 (structured_run_adds_no_section (Sample.mount Sample.project)
                  Sample.cfg_json "p" true _ eq_refl eq_refl)).
Defined.

Section Rows.

Lemma dict_set_nodup d k v :
  NoDup (map fst d) -> NoDup (map fst (dict_set d k v)).
Proof.
  induction d as [|[k' v'] d IH]; cbn [dict_set map fst]; intros H.
  - constructor; [intros [] | constructor].
  - inversion H as [|? ? Hk Hd]; subst.
    destruct (String.eqb_spec k' k) as [-> | Hne]; cbn [map fst].
    + now constructor.
    + constructor; [|now apply IH].
      intros Hin. apply dict_set_keys in Hin as [-> | Hin]; [now apply Hne | now apply Hk].
Qed.

Lemma number_rows_entries d : forall next,
  map row_entry (number_rows next d) = d.
Proof.
  induction d as [|[k v] d IH]; intros next; cbn [number_rows map]; [reflexivity|].
  now rewrite IH.
Qed.

Lemma number_rows_ids d : forall next,
  map row_id (number_rows next d)
  = map (fun i => (next + Z.of_nat i)%Z) (seq 0 (length d)).
Proof.
  induction d as [|[k v] d IH]; intros next; cbn [number_rows map length seq];
    [reflexivity|].
  rewrite IH, <- seq_shift, map_map. unfold row_id at 1. cbn [fst].
  rewrite Z.add_0_r. f_equal. apply map_ext. intros i. lia.
Qed.

Variable cfg : config.
Variable include_files : list string.

Lemma process_file_nodup root f st :
  NoDup (map fst (file_contents st)) ->
  NoDup (map fst (file_contents (process_file cfg include_files root f st))).
Proof.
  intros Hst. loop_cases cfg include_files root f st H; clear H; try exact Hst.
  - unfold on_exception.
    destruct (dry_run cfg); [|destruct (is_text_format (output_format cfg))];
      cbn; try exact Hst. now apply dict_set_nodup.
  - destruct (dry_run cfg); [|destruct (is_text_format (output_format cfg))];
      cbn; try exact Hst; now apply dict_set_nodup.
Qed.
End Rows.

(** X17: the structured artifacts hold the collected entries, each relative
    path once.  The JSON file is the dictionary itself; the SQLite table has
    one row for each entry, in the order in which the paths were first met,
    with the identifiers 1, 2, 3 and so on of a fresh table. *)
Theorem structured_artifacts (fs : filesystem) (cfg : config) (top : node) :
  fs (project_path cfg) = Some top ->
  is_dir_node top = true ->
  dry_run cfg = false ->
  let r := aggregate_hidden_files fs cfg in
  let d := file_contents (final r) in
  NoDup (map fst d)
  /\ (output_format cfg = "json" ->
      exists path, written r = Some (JsonFile path d))
  /\ (output_format cfg = "sqlite" ->
      exists path rows,
        written r = Some (SqliteDb path rows)
        /\ map row_entry rows = d
        /\ map row_id rows = map (fun i => Z.of_nat (S i)) (seq 0 (length d))).
Proof.
  intros Hfs Hdir Hnormal. cbv zeta. unfold aggregate_hidden_files. rewrite Hfs.
  destruct top as [name info | name listable children]; [discriminate|].
  set (top := Dir name listable children).
  set (st := scan cfg (fst get_include_patterns) (snd get_include_patterns) top
               (prologue cfg top)).
  destruct (epilogue_state cfg st) as [_ [-> _]].
  split; [|split].
  - unfold st, scan.
    apply (fold_steps_invariant cfg (snd get_include_patterns)
             (fun s => NoDup (map fst (file_contents s)))); [|constructor].
    intros s f st0 _ _. apply process_file_nodup.
  - intros Hj. unfold epilogue. rewrite Hnormal. cbn [written].
    unfold write_output. rewrite Hj. cbn [String.eqb Ascii.eqb Bool.eqb].
    unfold write_json_output. now eexists.
  - intros Hs. unfold epilogue. rewrite Hnormal. cbn [written].
    unfold write_output. rewrite Hs. cbn [String.eqb Ascii.eqb Bool.eqb].
    unfold write_sqlite_output. eexists. eexists. split; [reflexivity|].
    split; [apply number_rows_entries|].
    rewrite number_rows_ids. apply map_ext. intros i. lia.
Qed.

Lemma structured_artifacts_witness :
  exists path,
    written (aggregate_hidden_files (Sample.mount Sample.project) Sample.cfg_json)
    = Some (JsonFile path
              (file_contents
                 (final (aggregate_hidden_files (Sample.mount Sample.project)
                           Sample.cfg_json)))).
Proof.
  exact (proj1 (proj2 (structured_artifacts (Sample.mount Sample.project)
                         Sample.cfg_json Sample.project eq_refl eq_refl eq_refl))
           eq_refl).
Defined.

Section ArtifactPath.
Import Py.

Lemma replace_from_absent old new fuel : forall s,
  str_in old s = false -> replace_from fuel s old new = s.
Proof.
  induction fuel as [|fuel IH]; intros s H; [reflexivity|].
  cbn [replace_from]. destruct s as [|c s]; cbn [str_in] in H;
    apply orb_false_iff in H as [H1 H2]; rewrite H1; [reflexivity|].
  now rewrite IH.
Qed.

Lemma replace_absent s old new :
  str_in old s = false -> replace s old new = s.
Proof. apply replace_from_absent. Qed.

(** [.txt] does not arise where a string that lacks it meets one that
    neither holds it nor begins with one of its endings. *)
Lemma txt_not_across p t :
  str_in ".txt" p = false -> str_in ".txt" t = false ->
  startswith t "txt" = false -> startswith t "xt" = false ->
  startswith t "t" = false ->
  str_in ".txt" (p ++ t) = false.
Proof.
  intros Hp Ht H3 H2 H1. induction p as [|c p IH]; [exact Ht|].
  cbn [str_in] in Hp. apply orb_false_iff in Hp as [Hs Hp].
  change (String c p ++ t) with (String c (p ++ t)). cbn [str_in].
  rewrite (IH Hp), orb_false_r.
  cbn [startswith] in Hs |- *.
  destruct (Ascii.eqb "." c); [|reflexivity]. cbn [andb] in Hs |- *.
  destruct p as [|c1 p]; [exact H3|]. cbn [append startswith] in Hs |- *.
  destruct (Ascii.eqb "t" c1); [|reflexivity]. cbn [andb] in Hs |- *.
  destruct p as [|c2 p]; [exact H2|]. cbn [append startswith] in Hs |- *.
  destruct (Ascii.eqb "x" c2); [|reflexivity]. cbn [andb] in Hs |- *.
  destruct p as [|c3 p]; [exact H1|]. cbn [append startswith] in Hs |- *.
  destruct (Ascii.eqb "t" c3); [discriminate | reflexivity].
Qed.

Lemma hidden_dump_path p ext :
  str_in ".txt" p = false ->
  str_in ".txt" ("hidden_dump" ++ ext) = false ->
  str_in ".txt" (OsPath.join p "hidden_dump" ++ ext) = false.
Proof.
  intros Hp Hext. unfold OsPath.join. cbn [startswith Ascii.eqb Bool.eqb andb].
  destruct (String.eqb p "" || endswith p "/").
  - rewrite PyFacts.append_assoc. apply txt_not_across; auto.
  - rewrite !PyFacts.append_assoc. apply txt_not_across; auto.
Qed.
End ArtifactPath.

(** X18: the artifact lies beside what was scanned.  When the path of the
    root does not hold the four characters [.txt], the run writes
    [hidden_dump] with the extension of the format into the root itself:
    the three writers that rename [.txt] find nothing to rename, and the
    path is the one that the graphical front end works out on its own for
    its button. *)
Theorem artifact_beside_root (cfg : config) (st : scan_state) :
  Py.str_in ".txt" (project_path cfg) = false ->
  artifact_path (write_output cfg st)
  = OsPath.join (project_path cfg) "hidden_dump" ++ extension (output_format cfg)
  /\ artifact_path (write_output cfg st)
     = Gui.output_path (project_path cfg) (output_format cfg).
Proof.
  intros Hp. unfold write_output, extension, Gui.output_path.
  destruct (String.eqb (output_format cfg) "json");
    [|destruct (String.eqb (output_format cfg) "sqlite");
      [|destruct (String.eqb (output_format cfg) "md")]];
    cbn [write_json_output write_sqlite_output write_markdown_output artifact_path];
    try (split; reflexivity);
    rewrite replace_absent by (apply hidden_dump_path; auto); split; reflexivity.
Qed.

Lemma artifact_beside_root_witness :
  artifact_path (write_output Sample.cfg_json initial_state) = "/p/hidden_dump.json".
Proof.
  exact (proj1 (artifact_beside_root Sample.cfg_json initial_state eq_refl)).
Defined.

(** A root whose path holds [.txt] has its artifact renamed into another
    directory, where the front end does not look for it. *)
Example artifact_path_renamed :
  artifact_path (write_output
                   (mkConfig "/data/notes.txt.d" None false "json" MAX_FILE_SIZE "all")
                   initial_state)
  = "/data/notes.json.d/hidden_dump.json"
  /\ Gui.output_path "/data/notes.txt.d" "json" = "/data/notes.txt.d/hidden_dump.json".
Proof. split; vm_compute; reflexivity. Qed.

(* ================================================================= *)
(** ** The shape of the tree *)

Section TreeShape.
Variables include_dirs include_files : list string.

Let render := add_directory_content include_dirs include_files.

Lemma tree_marks :
  In BRANCH TREE_MARKS /\ In LAST_BRANCH TREE_MARKS
  /\ In BAR TREE_MARKS /\ In GAP TREE_MARKS.
Proof. unfold TREE_MARKS. cbn [In]. tauto. Qed.

Lemma indented_deeper prefix mark line :
  In mark TREE_MARKS -> indented (prefix ++ mark) line -> indented prefix line.
Proof.
  intros Hm [mark' [rest [_ ->]]]. exists mark, (mark' ++ rest). split; [exact Hm|].
  now rewrite PyFacts.append_assoc.
Qed.

Lemma show_dirs_indented no_files current_path prefix ds :
  (forall e, In e ds -> forall path prefix',
        Forall (fun i => indented prefix' (item_line i)) (snd e path prefix')) ->
  Forall (fun i => indented prefix (item_line i))
         (show_dirs no_files current_path prefix ds).
Proof.
  induction ds as [|e ds IH]; intros H; [constructor|].
  cbn [show_dirs]. constructor.
  - cbn [item_line].
    destruct ds; [destruct no_files|];
      eexists; eexists; (split; [|reflexivity]); apply tree_marks.
  - apply Forall_app. split.
    + specialize (H e (or_introl eq_refl) (OsPath.join current_path (listed_name e))).
      eapply Forall_impl; [|apply H]. intros i Hi.
      eapply indented_deeper; [|exact Hi].
      destruct ds; [destruct no_files|]; apply tree_marks.
    + apply IH. intros e' He'. apply H. now right.
Qed.

Lemma show_files_indented current_path prefix fs :
  Forall (fun i => indented prefix (item_line i)) (show_files current_path prefix fs).
Proof.
  induction fs as [|e fs IH]; [constructor|].
  cbn [show_files]. constructor; [|exact IH]. cbn [item_line].
  destruct fs; eexists; eexists; (split; [|reflexivity]); apply tree_marks.
Qed.

Lemma add_directory_content_indented n : forall path prefix,
  Forall (fun i => indented prefix (item_line i)) (render n path prefix).
Proof.
  induction n as [name info | name listable children IH] using node_induction;
    intros path prefix; [constructor|].
  destruct listable.
  2:{ cbn. constructor; [|constructor].
      exists BRANCH, "[Permission Denied]". split; [apply tree_marks | reflexivity]. }
  unfold render. cbn [add_directory_content]. unfold render_listing.
  apply Forall_app. split; [|apply show_files_indented].
  apply show_dirs_indented. intros e He.
  apply filter_In in He as [He _]. apply filter_In in He as [He _].
  apply in_sorted in He. apply in_map_iff in He as [c [<- Hc]].
  rewrite Forall_forall in IH. exact (IH c Hc).
Qed.
End TreeShape.

(** X19: every line of the tree below the first is indented by the markers
    of its ancestors: what [add_directory_content] appends for a directory
    starts with the prefix it was given, followed by one of the four
    markers. *)
Theorem tree_lines_are_indented (include_dirs include_files : list string)
    (n : node) (current_path prefix : string) :
  Forall (fun i => indented prefix (item_line i))
         (add_directory_content include_dirs include_files n current_path prefix).
Proof. apply add_directory_content_indented. Qed.

(** X20: a root that cannot be listed.  The tree shows the name of the root
    and one line saying so; the walk, which passes over errors of listing,
    yields nothing, so no file is looked at, nothing is collected, and the
    run still writes its artifact and returns [True]. *)
Theorem unlistable_root (fs : filesystem) (cfg : config) (name : string)
    (children : list node) :
  fs (project_path cfg) = Some (Dir name false children) ->
  let r := aggregate_hidden_files fs cfg in
  returned r = true
  /\ (forall include_dirs include_files,
         generate_hidden_directory_tree include_dirs include_files (project_path cfg)
           (Dir name false children)
         = OsPath.basename (OsPath.rstrip_sep (project_path cfg)) ++ "/" ++ NL
           ++ BRANCH ++ "[Permission Denied]")
  /\ filter is_file_event (trace (final r)) = []
  /\ recorded (final r) = []
  /\ file_count (final r) = 0%Z
  /\ (dry_run cfg = false -> written r <> None).
Proof.
  intros Hfs. cbv zeta. unfold aggregate_hidden_files. rewrite Hfs.
  change (scan cfg (fst get_include_patterns) (snd get_include_patterns)
            (Dir name false children) (prologue cfg (Dir name false children)))
    with (prologue cfg (Dir name false children)).
  destruct (epilogue_trace cfg (prologue cfg (Dir name false children)))
    as [tail [Htr Htail]].
  destruct (epilogue_state cfg (prologue cfg (Dir name false children)))
    as [_ [_ [Hc _]]].
  split; [unfold epilogue; now destruct (dry_run cfg)|].
  split; [intros; unfold generate_hidden_directory_tree, tree_items; cbn;
          now rewrite PyFacts.append_assoc|].
  split; [rewrite Htr, filter_app, Htail; reflexivity|].
  split; [now rewrite recorded_epilogue|].
  split; [now rewrite Hc|].
  intros Hn. unfold epilogue. rewrite Hn. discriminate.
Qed.

Lemma unlistable_root_witness :
  returned (aggregate_hidden_files
              (Sample.mount (Dir "p" false [File ".env" (Sample.holding "A=1")]))
              Sample.cfg_all) = true.
Proof.
  exact (proj1 (unlistable_root
                  (Sample.mount (Dir "p" false [File ".env" (Sample.holding "A=1")]))
                  Sample.cfg_all "p" [File ".env" (Sample.holding "A=1")] eq_refl)).
Defined.

(* ================================================================= *)
(** ** Relative paths *)

Section RelativePaths.
Import Py.

Lemma join_glue a b :
  startswith b "/" = false -> OsPath.join a b = a ++ glue a ++ b.
Proof.
  intros H. unfold OsPath.join, glue. rewrite H.
  now destruct (String.eqb a "" || endswith a "/").
Qed.

Lemma startswith_append a b : startswith (a ++ b) a = true.
Proof. apply PyFacts.startswith_spec. now exists b. Qed.

Lemma skip_append a b : skip (String.length a) (a ++ b) = b.
Proof. induction a as [|c a IH]; [reflexivity | exact IH]. Qed.

Lemma lstrip_sep_relative r :
  startswith r "/" = false -> OsPath.lstrip_sep r = r.
Proof.
  destruct r as [|c r]; [reflexivity|]. cbn [startswith OsPath.lstrip_sep].
  rewrite andb_true_r. unfold OsPath.sep.
  rewrite (Ascii.eqb_sym c "/"). now intros ->.
Qed.

Lemma lstrip_sep_glue a r :
  startswith r "/" = false -> OsPath.lstrip_sep (glue a ++ r) = r.
Proof.
  intros H. unfold glue. destruct (String.eqb a "" || endswith a "/").
  - now apply lstrip_sep_relative.
  - cbn [append OsPath.lstrip_sep]. unfold OsPath.sep. rewrite Ascii.eqb_refl.
    now apply lstrip_sep_relative.
Qed.

Lemma startswith_append_nonempty r t :
  r <> "" -> startswith r "/" = false -> startswith (r ++ t) "/" = false.
Proof. destruct r as [|c r]; [congruence|]. intros _ H. exact H. Qed.

Lemma endswith_append a b : endswith (a ++ b) b = true.
Proof. apply PyFacts.endswith_spec. now exists a. Qed.

(** Nothing is put after a path that [join] has just closed with its own
    separator. *)
Lemma glue_glue a : glue (a ++ glue a) = "".
Proof.
  unfold glue at 2. destruct (String.eqb a "" || endswith a "/") eqn:E.
  - rewrite PyFacts.append_nil_r. unfold glue. now rewrite E.
  - unfold glue. now rewrite endswith_append, orb_true_r.
Qed.

Lemma join_below start p name :
  startswith name "/" = false -> below start p ->
  exists r, startswith r "/" = false
            /\ OsPath.join p name = start ++ glue start ++ r.
Proof.
  intros Hn [-> | [r [Hr ->]]].
  - exists name. split; [exact Hn | now apply join_glue].
  - rewrite (join_glue _ _ Hn).
    exists (r ++ glue (start ++ glue start ++ r) ++ name). split.
    + destruct r as [|c r]; [|exact Hr].
      now rewrite PyFacts.append_nil_r, glue_glue.
    + now rewrite !PyFacts.append_assoc.
Qed.

Lemma below_join start p name :
  startswith name "/" = false -> below start p -> below start (OsPath.join p name).
Proof. intros Hn Hp. right. now apply join_below. Qed.

Lemma relpath_below start r :
  startswith r "/" = false ->
  OsPath.relpath (start ++ glue start ++ r) start = r.
Proof.
  intros H. unfold OsPath.relpath.
  now rewrite startswith_append, skip_append, lstrip_sep_glue.
Qed.
End RelativePaths.

(** X21: the relative path identifies the file.  For every file the walk
    meets, [rel_path] is a relative path, and joining it to the root gives
    the path of the file back; so two files of the walk with the same
    relative path have the same path. *)
Theorem relative_path_round_trip (cfg : config) (include_dirs : list string)
    (top : node) (s : walk_step) (f : string * file_info) :
  plain_names top = true ->
  In s (walk cfg include_dirs (project_path cfg) top) ->
  In f (step_files s) ->
  let file_path := OsPath.join (step_root s) (fst f) in
  let rel_path := OsPath.relpath file_path (project_path cfg) in
  Py.startswith rel_path "/" = false
  /\ OsPath.join (project_path cfg) rel_path = file_path
  /\ forall s' f',
       In s' (walk cfg include_dirs (project_path cfg) top) ->
       In f' (step_files s') ->
       OsPath.relpath (OsPath.join (step_root s') (fst f')) (project_path cfg) = rel_path ->
       OsPath.join (step_root s') (fst f') = file_path.
Proof.
  intros Hn Hs Hf. cbv zeta.
  assert (Hfiles : forall s0 f0,
             In s0 (walk cfg include_dirs (project_path cfg) top) ->
             In f0 (step_files s0) ->
             exists r, Py.startswith r "/" = false
                       /\ OsPath.join (step_root s0) (fst f0)
                          = project_path cfg ++ glue (project_path cfg) ++ r).
  { intros s0 f0 Hs0 Hf0.
    assert (Hroot : below (project_path cfg) (step_root s0)).
    { apply (walk_roots_closed cfg include_dirs (below (project_path cfg)))
        with top (project_path cfg); auto; [|now left].
      intros a b Hb Ha. apply below_join; [now apply plain_name_relative | exact Ha]. }
    assert (Hname : Py.startswith (fst f0) "/" = false).
    { apply plain_name_relative.
      exact (walk_file_names_plain cfg include_dirs top _ s0 f0 Hn Hs0 Hf0). }
    exact (join_below _ _ _ Hname Hroot). }
  destruct (Hfiles s f Hs Hf) as [r [Hr E]]. rewrite E, (relpath_below _ _ Hr).
  split; [exact Hr|]. split; [now apply join_glue|].
  intros s' f' Hs' Hf'. destruct (Hfiles s' f' Hs' Hf') as [r' [Hr' E']].
  rewrite E', (relpath_below _ _ Hr'). now intros ->.
Qed.

Lemma relative_path_round_trip_witness :
  OsPath.join "/p" (OsPath.relpath (OsPath.join "/p/.vscode" "settings.json") "/p")
  = OsPath.join "/p/.vscode" "settings.json".
Proof.
  refine (proj1 (proj2 (relative_path_round_trip Sample.cfg_all include_dirs_default
            Sample.project
            (mkStep "/p/.vscode" [] [("settings.json", Sample.holding "{}")])
            ("settings.json", Sample.holding "{}") eq_refl _ _))).
  - vm_compute. right. left. reflexivity.
  - left. reflexivity.
Defined.

(* ================================================================= *)
(** ** The command line *)

Section CliFacts.
Import Py.

Lemma should_exclude_path_app path ps qs :
  should_exclude_path path (ps ++ qs)
  = should_exclude_path path ps || should_exclude_path path qs.
Proof.
  induction ps as [|p ps IH]; [reflexivity|].
  cbn [app should_exclude_path].
  destruct (str_in p path); [reflexivity|].
  destruct (some_part_is p (OsPath.parts path)); [reflexivity | exact IH].
Qed.

Lemma returned_isdir fs cfg :
  returned (aggregate_hidden_files fs cfg) = isdir fs (project_path cfg).
Proof.
  unfold aggregate_hidden_files, isdir.
  destruct (fs (project_path cfg)) as [[name info | name listable children]|];
    try reflexivity.
  unfold epilogue. now destruct (dry_run cfg).
Qed.

Lemma upper_app a b : Cli.upper (a ++ b) = Cli.upper a ++ Cli.upper b.
Proof. induction a as [|c a IH]; cbn; [reflexivity | now rewrite IH]. Qed.

Lemma endswith_snoc x c d :
  endswith (x ++ String c "") (String d "") = Ascii.eqb c d.
Proof.
  induction x as [|a x IH].
  - cbn [append endswith String.eqb]. now destruct (Ascii.eqb c d).
  - change (String a x ++ String c "") with (String a (x ++ String c "")).
    cbn [endswith]. rewrite IH.
    assert (E : String.eqb (String a (x ++ String c "")) (String d "") = false).
    { cbn [String.eqb]. destruct (Ascii.eqb a d); [|reflexivity].
      destruct x; reflexivity. }
    now rewrite E.
Qed.

Lemma snoc_not_empty x c : x ++ String c "" <> "".
Proof. destruct x; discriminate. Qed.
End CliFacts.

(** X22: the command line can add exclude patterns but not take any away.
    Whenever [main] calls [aggregate_hidden_files], it passes the absolute
    path of its argument and a set that holds every default pattern: a path
    is excluded exactly when a default pattern or a pattern given with
    [--exclude] matches it. *)
Theorem cli_keeps_default_excludes (abspath : string -> string)
    (int_of : string -> option Z) (fs : filesystem) (response : string)
    (a : Cli.args) (cfg : config) (r : run_result) :
  In (Cli.Aggregate cfg r) (fst (Cli.main abspath int_of fs response a)) ->
  r = aggregate_hidden_files fs cfg
  /\ project_path cfg = abspath (Cli.path a)
  /\ forall p,
       should_exclude_path p (effective_excludes cfg)
       = should_exclude_path p DEFAULT_EXCLUDE_PATTERNS
         || match Cli.exclude a with
            | Some extra => should_exclude_path p extra
            | None => false
            end.
Proof.
  unfold Cli.main. destruct (Cli.max_file_size_of int_of a) as [size|];
    [|intros []].
  set (cfg0 := mkConfig _ _ _ _ _ _).
  assert (Hin : forall asked tail,
             In (Cli.Aggregate cfg r)
                (asked ++ [Cli.Say Cli.AppTitle; Cli.Say Cli.Rule;
                           Cli.Aggregate cfg0 (aggregate_hidden_files fs cfg0);
                           Cli.Say tail]) ->
             (forall e, In e asked -> e = Cli.Ask) ->
             cfg = cfg0 /\ r = aggregate_hidden_files fs cfg0).
  { intros asked tail H Hasked. apply in_app_or in H as [H | H].
    - apply Hasked in H. discriminate.
    - destruct H as [H | [H | [H | [H | []]]]]; try discriminate.
      injection H as <- <-. now split. }
  assert (Hasked : forall e,
             In e (if String.eqb (abspath (Cli.path a)) "/" then [Cli.Ask] else []) ->
             e = Cli.Ask).
  { intros e. destruct (String.eqb _ "/"); [intros [<- | []]; reflexivity | intros []]. }
  assert (Hgoal : cfg = cfg0 /\ r = aggregate_hidden_files fs cfg0 ->
                  r = aggregate_hidden_files fs cfg
                  /\ project_path cfg = abspath (Cli.path a)
                  /\ forall p,
                       should_exclude_path p (effective_excludes cfg)
                       = should_exclude_path p DEFAULT_EXCLUDE_PATTERNS
                         || match Cli.exclude a with
                            | Some extra => should_exclude_path p extra
                            | None => false
                            end).
  { intros [-> ->]. split; [reflexivity|]. split; [reflexivity|]. intros p.
    unfold cfg0, effective_excludes. cbn [exclude_patterns]. unfold Cli.exclude_patterns_of.
    destruct (Cli.exclude a) as [[|x xs]|].
    - cbn [should_exclude_path]. now rewrite orb_false_r.
    - apply should_exclude_path_app.
    - now rewrite orb_false_r. }
  destruct (String.eqb (abspath (Cli.path a)) "/"
            && negb (String.eqb (Py.lower response) "y")).
  { cbn [fst]. intros H. apply in_app_or in H as [H | H].
    - apply Hasked in H. discriminate.
    - destruct H as [H | []]. discriminate. }
  destruct (returned (aggregate_hidden_files fs cfg0)); cbn [fst];
    intros H; apply Hgoal; eapply Hin; eauto.
Qed.

Lemma cli_keeps_default_excludes_witness :
  should_exclude_path "/p/node_modules/x"
    (effective_excludes (mkConfig "/p" (Some (DEFAULT_EXCLUDE_PATTERNS ++ ["src"])%list)
                           false "txt" MAX_FILE_SIZE "all"))
  = should_exclude_path "/p/node_modules/x" DEFAULT_EXCLUDE_PATTERNS
    || should_exclude_path "/p/node_modules/x" ["src"].
Proof.
  refine (proj2 (proj2 (cli_keeps_default_excludes (fun p => p) (fun _ => None)
            (Sample.mount Sample.project) ""
            (Cli.mkArgs "/p" "en" (Some ["src"]) false "txt" None "all")
            (mkConfig "/p" (Some (DEFAULT_EXCLUDE_PATTERNS ++ ["src"])%list)
               false "txt" MAX_FILE_SIZE "all")
            (aggregate_hidden_files (Sample.mount Sample.project)
               (mkConfig "/p" (Some (DEFAULT_EXCLUDE_PATTERNS ++ ["src"])%list)
                  false "txt" MAX_FILE_SIZE "all")) _)) "/p/node_modules/x").
  right. right. left. reflexivity.
Defined.

(** X23: how [main] ends, and what it has done by then.  A size that
    [int] refuses ends it with a [ValueError] before anything is printed or
    scanned.  Declining the confirmation for the root of the file system
    ends it with status 0 after the question and the line that tells of
    the cancellation, without a scan.  Otherwise it prints the title and
    the rule, scans once with the configuration built from its arguments,
    and then prints the closing line and returns when the path is a
    directory, or prints the error line and leaves with status 1 when it
    is not.  The question is asked exactly when the path is the root. *)
Theorem cli_ending (abspath : string -> string) (int_of : string -> option Z)
    (fs : filesystem) (response : string) (a : Cli.args) :
  let run := Cli.main abspath int_of fs response a in
  let project_path := abspath (Cli.path a) in
  let asked := if String.eqb project_path "/" then [Cli.Ask] else [] in
  let cfg_of size :=
    mkConfig project_path (Some (Cli.exclude_patterns_of a)) (Cli.dry_run a)
             (Cli.format a) size (Cli.filter a) in
  snd run
  = match Cli.max_file_size_of int_of a with
    | None => Cli.ValueError
    | Some _ =>
        if String.eqb project_path "/" && negb (String.eqb (Py.lower response) "y")
        then Cli.SysExit 0
        else if isdir fs project_path then Cli.Returns else Cli.SysExit 1
    end
  /\ (snd run = Cli.ValueError -> fst run = [])
  /\ (snd run = Cli.SysExit 0 -> fst run = [Cli.Ask; Cli.Say Cli.Cancelled])
  /\ (snd run = Cli.Returns ->
      exists size,
        Cli.max_file_size_of int_of a = Some size
        /\ isdir fs project_path = true
        /\ fst run
           = (asked ++ [Cli.Say Cli.AppTitle; Cli.Say Cli.Rule;
                        Cli.Aggregate (cfg_of size)
                          (aggregate_hidden_files fs (cfg_of size));
                        Cli.Say Cli.Done])%list)
  /\ (snd run = Cli.SysExit 1 ->
      exists size,
        Cli.max_file_size_of int_of a = Some size
        /\ isdir fs project_path = false
        /\ fst run
           = (asked ++ [Cli.Say Cli.AppTitle; Cli.Say Cli.Rule;
                        Cli.Aggregate (cfg_of size)
                          (aggregate_hidden_files fs (cfg_of size));
                        Cli.Say Cli.Error])%list).
Proof.
  cbv zeta. unfold Cli.main.
  destruct (Cli.max_file_size_of int_of a) as [size|].
  2:{ cbn [fst snd]. repeat split; discriminate. }
  set (cfg0 := mkConfig _ _ _ _ _ _).
  destruct (String.eqb (abspath (Cli.path a)) "/") eqn:Eroot; cbn [andb].
  - destruct (negb (String.eqb (Py.lower response) "y")).
    { cbn [fst snd app]. repeat split; discriminate. }
    rewrite (returned_isdir fs cfg0).
    change (project_path cfg0) with (abspath (Cli.path a)).
    destruct (isdir fs (abspath (Cli.path a))); cbn [fst snd];
      (split; [reflexivity|]); (split; [discriminate|]); (split; [discriminate|]);
      split; try discriminate; intros _; exists size; repeat split.
  - rewrite (returned_isdir fs cfg0).
    change (project_path cfg0) with (abspath (Cli.path a)).
    destruct (isdir fs (abspath (Cli.path a))); cbn [fst snd];
      (split; [reflexivity|]); (split; [discriminate|]); (split; [discriminate|]);
      split; try discriminate; intros _; exists size; repeat split.
Qed.

Lemma cli_ending_witness :
  fst (Cli.main (fun p => p) (fun _ => None) (fun _ => None) "n"
         (Cli.mkArgs "/" "en" None false "txt" None "all"))
  = [Cli.Ask; Cli.Say Cli.Cancelled].
Proof.
  exact (proj1 (proj2 (proj2 (cli_ending (fun p => p) (fun _ => None) (fun _ => None) "n"
                                (Cli.mkArgs "/" "en" None false "txt" None "all"))))
           eq_refl).
Defined.

(** X24: the size limit of the command line.  A number followed by [K],
    [M] or [G], in either case, is that number times 1024, 1024 squared or
    1024 cubed; the number is read from the upper-cased text.  An empty
    text stands for no option at all. *)
Theorem max_size_units (int_of : string -> option Z) (digits : string) (n : Z)
    (a : Cli.args) :
  int_of (Cli.upper digits) = Some n ->
  let given text :=
    Cli.max_file_size_of int_of
      (Cli.mkArgs (Cli.path a) (Cli.lang a) (Cli.exclude a) (Cli.dry_run a)
                  (Cli.format a) (Some text) (Cli.filter a)) in
  given (digits ++ "k") = Some (n * 1024)%Z
  /\ given (digits ++ "K") = Some (n * 1024)%Z
  /\ given (digits ++ "m") = Some (n * (1024 * 1024))%Z
  /\ given (digits ++ "M") = Some (n * (1024 * 1024))%Z
  /\ given (digits ++ "g") = Some (n * (1024 * 1024 * 1024))%Z
  /\ given (digits ++ "G") = Some (n * (1024 * 1024 * 1024))%Z
  /\ given "" = Some MAX_FILE_SIZE.
Proof.
  intros Hn. cbv zeta.
  assert (G : forall c,
             Cli.max_file_size_of int_of
               (Cli.mkArgs (Cli.path a) (Cli.lang a) (Cli.exclude a) (Cli.dry_run a)
                  (Cli.format a) (Some (digits ++ String c "")) (Cli.filter a))
             = let C := Cli.upper_ascii c in
               if Ascii.eqb C "G" then Some (n * (1024 * 1024 * 1024))%Z
               else if Ascii.eqb C "M" then Some (n * (1024 * 1024))%Z
               else if Ascii.eqb C "K" then Some (n * 1024)%Z
               else int_of (Cli.upper digits ++ String C "")).
  { intros c. unfold Cli.max_file_size_of. cbn [Cli.max_size].
    destruct (digits ++ String c "") as [|x rest] eqn:E;
      [now apply snoc_not_empty in E|].
    rewrite <- E, upper_app. cbn [Cli.upper]. rewrite !endswith_snoc.
    unfold Cli.scaled. rewrite PyFacts.drop_last_snoc, Hn. reflexivity. }
  repeat split; try apply G.
Qed.

Lemma max_size_units_witness :
  Cli.max_file_size_of (fun s => if String.eqb s "10" then Some 10%Z else None)
    (Cli.mkArgs "." "en" None false "txt" (Some "10m") "all")
  = Some (10 * (1024 * 1024))%Z.
Proof.
  exact (proj1 (proj2 (proj2 (max_size_units
            (fun s => if String.eqb s "10" then Some 10%Z else None) "10" 10
            (Cli.mkArgs "." "en" None false "txt" None "all") eq_refl)))).
Defined.

(* ================================================================= *)
(** ** The entries of a normal run, exactly *)

Section RecordedExactly.
Variable cfg : config.
Variable include_files : list string.
Hypothesis Hnormal : dry_run cfg = false.

Lemma dict_set_keeps d k v x :
  In x (map fst d) -> In x (map fst (dict_set d k v)).
Proof.
  induction d as [|[k' v'] d IH]; cbn [dict_set map fst In]; [intros []|].
  destruct (String.eqb_spec k' k) as [-> | Hne]; cbn [map fst In].
  - intros [<- | H]; [now left | now right].
  - intros [<- | H]; [now left | right; now apply IH].
Qed.

Lemma recorded_emit e st : recorded (emit e st) = recorded st.
Proof. reflexivity. Qed.

Lemma recorded_add_counts a b c st : recorded (add_counts a b c st) = recorded st.
Proof. reflexivity. Qed.

Lemma recorded_store_keeps k v st x :
  In x (recorded st) -> In x (recorded (store k v st)).
Proof.
  unfold recorded. cbn [store content_lines file_contents]. intros H.
  apply in_app_or in H as [H | H]; apply in_or_app; [now left | right].
  now apply dict_set_keeps.
Qed.

Lemma recorded_store_key k v st : In k (recorded (store k v st)).
Proof. unfold recorded. apply in_or_app. right. apply dict_set_key. Qed.

Lemma recorded_lines_keeps ls st x :
  In x (recorded st) -> In x (recorded (append_lines ls st)).
Proof.
  unfold recorded. cbn [append_lines content_lines file_contents]. intros H.
  rewrite headings_app. apply in_app_or in H as [H | H]; apply in_or_app;
    [left; apply in_or_app; now left | now right].
Qed.

Lemma on_exception_keeps rel msg st x :
  In x (recorded st) -> In x (recorded (on_exception cfg rel msg st)).
Proof.
  unfold on_exception. rewrite Hnormal.
  destruct (is_text_format (output_format cfg));
    [apply recorded_lines_keeps | apply recorded_store_keeps].
Qed.

Lemma on_exception_records rel msg st :
  In rel (recorded (on_exception cfg rel msg st)).
Proof.
  unfold on_exception. rewrite Hnormal.
  destruct (is_text_format (output_format cfg)); [|apply recorded_store_key].
  unfold recorded. cbn [append_lines content_lines]. rewrite headings_app.
  apply in_or_app. left. apply in_or_app. right. now left.
Qed.

(** The loop body keeps what is recorded. *)
Lemma process_file_keeps root f st x :
  In x (recorded st) -> In x (recorded (process_file cfg include_files root f st)).
Proof.
  intros Hx. loop_cases cfg include_files root f st H; clear H; auto.
  - now apply on_exception_keeps.
  - rewrite Hnormal. cbv zeta. rewrite recorded_add_counts.
    destruct (is_text_format (output_format cfg));
      [apply recorded_lines_keeps|]; now apply recorded_store_keeps.
Qed.

(** It records an accepted file exactly when the file is collectable. *)
Lemma process_file_records root f st :
  accepted cfg include_files root (fst f) = true ->
  collectable cfg (snd f) = true ->
  In (OsPath.relpath (OsPath.join root (fst f)) (project_path cfg))
     (recorded (process_file cfg include_files root f st)).
Proof.
  intros Hacc Hcol. unfold collectable in Hcol.
  destruct (process_file_cases cfg include_files root f st)
    as [[Hno _] | [_ H]]; [congruence|]. cbv zeta in H.
  destruct H as [[msg [_ ->]] | [size [Hsize H]]]; [apply on_exception_records|].
  rewrite Hsize in Hcol. apply andb_true_iff in Hcol as [Hle Hbin].
  apply Z.leb_le in Hle. apply negb_true_iff in Hbin.
  destruct H as [[Hgt _] | [_ H]]; [lia|].
  destruct H as [[Hb _] | [content [_ [_ ->]]]]; [congruence|].
  rewrite Hnormal. cbv zeta. rewrite recorded_add_counts.
  destruct (is_text_format (output_format cfg));
    [apply recorded_lines_keeps|]; apply recorded_store_key.
Qed.

Lemma process_file_new root f st x :
  In x (recorded (process_file cfg include_files root f st)) ->
  In x (recorded st)
  \/ (x = OsPath.relpath (OsPath.join root (fst f)) (project_path cfg)
      /\ accepted cfg include_files root (fst f) = true
      /\ collectable cfg (snd f) = true).
Proof.
  unfold collectable.
  destruct (process_file_cases cfg include_files root f st)
    as [[_ H] | [Hacc H]]; cbv zeta in H; [rewrite H; now left|].
  assert (Hstore : forall k v s0, In x (recorded (store k v s0)) ->
                                  In x (recorded s0) \/ x = k).
  { intros k v s0 Hin. unfold recorded in *. cbn [store content_lines file_contents] in Hin.
    apply in_app_or in Hin as [Hin | Hin].
    - left. apply in_or_app. now left.
    - apply dict_set_keys in Hin as [-> | Hin]; [now right | left].
      apply in_or_app. now right. }
  assert (Hlines : forall k ls s0,
             headings ls = [k] -> In x (recorded (append_lines ls s0)) ->
             In x (recorded s0) \/ x = k).
  { intros k ls s0 Hk Hin. unfold recorded in *.
    cbn [append_lines content_lines file_contents] in Hin.
    rewrite headings_app, Hk in Hin.
    apply in_app_or in Hin as [Hin | Hin].
    - apply in_app_or in Hin as [Hin | [<- | []]]; [left | now right].
      apply in_or_app. now left.
    - left. apply in_or_app. now right. }
  destruct H as [[msg [Hsize ->]] | [size [Hsize H]]].
  { rewrite Hsize. unfold on_exception. rewrite Hnormal.
    destruct (is_text_format (output_format cfg)); intros Hin;
      [eapply Hlines in Hin; [|reflexivity] | apply Hstore in Hin];
      destruct Hin as [Hin | ->]; auto. }
  rewrite Hsize.
  destruct H as [[_ ->] | [Hle H]]; [now left|].
  destruct H as [[_ ->] | [content [Hdata [Hbin ->]]]]; [now left|].
  rewrite Hnormal. cbv zeta. rewrite recorded_add_counts. intros Hin.
  assert (Hin' : In x (recorded st)
                 \/ x = OsPath.relpath (OsPath.join root (fst f)) (project_path cfg)).
  { destruct (is_text_format (output_format cfg)).
    - eapply Hlines in Hin; [|reflexivity].
      destruct Hin as [Hin | ->]; [|now right].
      apply Hstore in Hin as [Hin | ->]; auto.
    - apply Hstore in Hin as [Hin | ->]; auto. }
  destruct Hin' as [Hin' | ->]; [now left | right].
  split; [reflexivity|]. split; [exact Hacc|].
  rewrite Hdata, Hbin. cbn [negb]. rewrite andb_true_r. apply Z.leb_le. lia.
Qed.

Lemma fold_files_keeps root files : forall st x,
  In x (recorded st) ->
  In x (recorded (fold_left (fun st f => process_file cfg include_files root f st)
                    files st)).
Proof.
  induction files as [|f files IH]; intros st x H; [exact H|].
  cbn [fold_left]. apply IH. now apply process_file_keeps.
Qed.

Lemma fold_steps_keeps steps : forall st x,
  In x (recorded st) ->
  In x (recorded (fold_left (process_step cfg include_files) steps st)).
Proof.
  induction steps as [|s steps IH]; intros st x H; [exact H|].
  cbn [fold_left]. apply IH. unfold process_step. now apply fold_files_keeps.
Qed.

Lemma fold_files_records root files f : forall st,
  In f files ->
  accepted cfg include_files root (fst f) = true ->
  collectable cfg (snd f) = true ->
  In (OsPath.relpath (OsPath.join root (fst f)) (project_path cfg))
     (recorded (fold_left (fun st f => process_file cfg include_files root f st)
                  files st)).
Proof.
  induction files as [|g files IH]; intros st Hf Hacc Hcol; [destruct Hf|].
  cbn [fold_left]. destruct Hf as [-> | Hf].
  - apply fold_files_keeps. now apply process_file_records.
  - now apply IH.
Qed.

Lemma fold_steps_records steps s f : forall st,
  In s steps -> In f (step_files s) ->
  accepted cfg include_files (step_root s) (fst f) = true ->
  collectable cfg (snd f) = true ->
  In (OsPath.relpath (OsPath.join (step_root s) (fst f)) (project_path cfg))
     (recorded (fold_left (process_step cfg include_files) steps st)).
Proof.
  induction steps as [|t steps IH]; intros st Hs Hf Hacc Hcol; [destruct Hs|].
  cbn [fold_left]. destruct Hs as [-> | Hs].
  - apply fold_steps_keeps. unfold process_step. now apply fold_files_records.
  - now apply IH.
Qed.

Lemma fold_steps_entries steps st x :
  In x (recorded (fold_left (process_step cfg include_files) steps st)) ->
  In x (recorded st) \/ entry_of cfg include_files steps x.
Proof.
  apply (fold_steps_invariant cfg include_files
           (fun s0 => In x (recorded s0) ->
                      In x (recorded st) \/ entry_of cfg include_files steps x));
    [|now left].
  intros s f st0 Hs Hf IH Hin.
  apply process_file_new in Hin as [Hin | [-> [Hacc Hcol]]]; [now apply IH|].
  right. exists s, f. now repeat split.
Qed.
End RecordedExactly.

(** X25: the entries of a normal run, exactly.  A relative path is recorded
    (as a heading of the text or as a key of the dictionary) if and only if
    it is the relative path of a file of the walk that the inclusion tests
    accept and that is collectable: its size cannot be read, which leaves
    an error entry, or its size is within the limit and it is not
    binary. *)
Theorem recorded_exactly (fs : filesystem) (cfg : config) (top : node) (r : string) :
  fs (project_path cfg) = Some top ->
  dry_run cfg = false ->
  In r (recorded (final (aggregate_hidden_files fs cfg)))
  <-> entry_of cfg (snd get_include_patterns)
        (walk cfg (fst get_include_patterns) (project_path cfg) top) r.
Proof.
  intros Hfs Hnormal. unfold aggregate_hidden_files. rewrite Hfs.
  destruct top as [name info | name listable children].
  { cbn. split; [intros [] | intros [s [f [[] _]]]]. }
  rewrite recorded_epilogue. unfold scan. split.
  - intros H. apply fold_steps_entries in H as [H | H]; [|exact H|exact Hnormal].
    rewrite recorded_prologue in H. destruct H.
  - intros [s [f [Hs [Hf [-> [Hacc Hcol]]]]]]. now apply fold_steps_records.
Qed.

Lemma recorded_exactly_witness :
  In ".env" (recorded (final (aggregate_hidden_files (Sample.mount Sample.project)
                                Sample.cfg_all)))
  <-> entry_of Sample.cfg_all (snd get_include_patterns)
        (walk Sample.cfg_all (fst get_include_patterns) "/p" Sample.project) ".env".
Proof.
  exact (recorded_exactly (Sample.mount Sample.project) Sample.cfg_all Sample.project
           ".env" eq_refl eq_refl).
Defined.

(* ================================================================= *)
(** ** The package against the program in one file *)

Section SameListing.

Lemma same_listed_name e1 e2 : same_listed e1 e2 -> listed_name e1 = listed_name e2.
Proof. intros [H _]. unfold listed_name. now rewrite H. Qed.

Lemma insert_sorted_same x y l1 l2 :
  same_listed x y -> Forall2 same_listed l1 l2 ->
  Forall2 same_listed (insert_sorted listed_name x l1) (insert_sorted listed_name y l2).
Proof.
  intros Hxy H. induction H as [|a b l1 l2 Hab H IH]; cbn [insert_sorted].
  - constructor; [exact Hxy | constructor].
  - rewrite (same_listed_name _ _ Hxy), (same_listed_name _ _ Hab).
    destruct (String.ltb (listed_name y) (listed_name b)).
    + constructor; [exact Hxy|]. now constructor.
    + now constructor.
Qed.

Lemma sorted_same l1 l2 :
  Forall2 same_listed l1 l2 ->
  Forall2 same_listed (sorted listed_name l1) (sorted listed_name l2).
Proof.
  unfold sorted. intros H.
  assert (G : forall acc1 acc2, Forall2 same_listed acc1 acc2 ->
              Forall2 same_listed
                (fold_left (fun acc x => insert_sorted listed_name x acc) l1 acc1)
                (fold_left (fun acc x => insert_sorted listed_name x acc) l2 acc2)).
  { induction H as [|a b l1 l2 Hab H IH]; intros acc1 acc2 Hacc; [exact Hacc|].
    cbn [fold_left]. apply IH. now apply insert_sorted_same. }
  apply G. constructor.
Qed.

Lemma filter_same (p1 p2 : listed -> bool) l1 l2 :
  Forall2 same_listed l1 l2 ->
  (forall e1 e2, In e1 l1 -> same_listed e1 e2 -> p1 e1 = p2 e2) ->
  Forall2 same_listed (List.filter p1 l1) (List.filter p2 l2).
Proof.
  intros H. induction H as [|a b l1 l2 Hab H IH]; intros Hp; [constructor|].
  cbn [List.filter]. rewrite (Hp a b (or_introl eq_refl) Hab).
  assert (IH' : Forall2 same_listed (List.filter p1 l1) (List.filter p2 l2)).
  { apply IH. intros e1 e2 He. apply Hp. now right. }
  destruct (p2 b); [now constructor | exact IH'].
Qed.

Lemma show_dirs_same no_files current_path prefix ds1 ds2 :
  Forall2 same_listed ds1 ds2 ->
  show_dirs no_files current_path prefix ds1
  = show_dirs no_files current_path prefix ds2.
Proof.
  intros H. induction H as [|a b l1 l2 Hab H IH]; [reflexivity|].
  cbn [show_dirs]. rewrite IH, (same_listed_name _ _ Hab).
  destruct Hab as [_ Hsnd]. rewrite Hsnd.
  now destruct H.
Qed.

Lemma show_files_same current_path prefix fs1 fs2 :
  Forall2 same_listed fs1 fs2 ->
  show_files current_path prefix fs1 = show_files current_path prefix fs2.
Proof.
  intros H. induction H as [|a b l1 l2 Hab H IH]; [reflexivity|].
  cbn [show_files]. rewrite IH, (same_listed_name _ _ Hab). now destruct H.
Qed.

Lemma Forall2_length_eq {A B} (R : A -> B -> Prop) l1 l2 :
  Forall2 R l1 l2 -> length l1 = length l2.
Proof. intros H. induction H; cbn; congruence. Qed.

Variable include_dirs : list string.
Variables files1 files2 : list string.

Lemma all_entries_child name listable children c f :
  In c children -> In f (all_entries c) ->
  In f (all_entries (Dir name listable children)).
Proof. intros Hc Hf. cbn [all_entries]. apply in_flat_map. now exists c. Qed.

(** The tree reads the file patterns only through their answers on the
    names of the files it lists. *)
Lemma add_directory_content_same n :
  (forall f, In f (all_entries n) ->
             should_include_file (fst f) files1 = should_include_file (fst f) files2) ->
  forall path prefix,
    add_directory_content include_dirs files1 n path prefix
    = add_directory_content include_dirs files2 n path prefix.
Proof.
  induction n as [name info | name listable children IH] using node_induction;
    intros Hsame path prefix; [reflexivity|].
  destruct listable; [|reflexivity]. cbn [add_directory_content].
  rewrite Forall_forall in IH.
  assert (Hall : Forall2 same_listed
                   (map (fun c => (c, add_directory_content include_dirs files1 c)) children)
                   (map (fun c => (c, add_directory_content include_dirs files2 c)) children)).
  { assert (G : forall cs, incl cs children ->
                  Forall2 same_listed
                    (map (fun c => (c, add_directory_content include_dirs files1 c)) cs)
                    (map (fun c => (c, add_directory_content include_dirs files2 c)) cs)).
    { induction cs as [|c cs IHcs]; intros Hincl; [constructor|].
      cbn [map]. constructor.
      - split; [reflexivity|]. cbn [snd]. apply IH; [apply Hincl; now left|].
        intros f Hf. apply Hsame.
        apply all_entries_child with c; [apply Hincl; now left | exact Hf].
      - apply IHcs. intros x Hx. apply Hincl. now right. }
    apply G, incl_refl. }
  unfold render_listing.
  set (l1 := map (fun c => (c, add_directory_content include_dirs files1 c)) children) in *.
  set (l2 := map (fun c => (c, add_directory_content include_dirs files2 c)) children) in *.
  assert (Hsorted := sorted_same _ _ Hall).
  assert (Hdirs : Forall2 same_listed
            (List.filter (tree_keeps_dir include_dirs path)
               (List.filter (fun e => is_dir_node (fst e)) (sorted listed_name l1)))
            (List.filter (tree_keeps_dir include_dirs path)
               (List.filter (fun e => is_dir_node (fst e)) (sorted listed_name l2)))).
  { apply filter_same.
    - apply filter_same; [exact Hsorted|]. intros e1 e2 _ [H _]. now rewrite H.
    - intros e1 e2 _ H. unfold tree_keeps_dir. now rewrite (same_listed_name _ _ H). }
  assert (Hfiles : Forall2 same_listed
            (List.filter (tree_keeps_file files1)
               (List.filter (fun e => negb (is_dir_node (fst e))) (sorted listed_name l1)))
            (List.filter (tree_keeps_file files2)
               (List.filter (fun e => negb (is_dir_node (fst e))) (sorted listed_name l2)))).
  { apply filter_same.
    - apply filter_same; [exact Hsorted|]. intros e1 e2 _ [H _]. now rewrite H.
    - intros e1 e2 He H. unfold tree_keeps_file. rewrite <- (same_listed_name _ _ H).
      apply filter_In in He as [He Hfile]. apply in_sorted in He.
      unfold l1 in He. apply in_map_iff in He as [c [<- Hc]].
      destruct c as [cname cinfo | d l cs]; [|discriminate].
      unfold listed_name. cbn [fst node_name].
      assert (E := Hsame (cname, cinfo)). cbn [fst] in E. rewrite E; [reflexivity|].
      apply all_entries_child with (File cname cinfo); [exact Hc | now left]. }
  rewrite (show_dirs_same _ _ _ _ _ Hdirs), (show_files_same _ _ _ _ Hfiles).
  now rewrite (Forall2_length_eq _ _ _ Hfiles).
Qed.
End SameListing.

Section SameScan.
Variable cfg : config.
Variable include_dirs : list string.
Variables files1 files2 : list string.
Hypothesis Hexcl : effective_excludes cfg = [].
Hypothesis Hnormal : dry_run cfg = false.
Hypothesis Hformat : output_format cfg = "txt".
Hypothesis Hsize : max_file_size cfg = MAX_FILE_SIZE.
Hypothesis Hfilter : file_filter cfg = "all".

Lemma walk_keeps_dir_one_file root d :
  walk_keeps_dir cfg include_dirs root d = OneFile.walk_keeps_dir include_dirs root d.
Proof. unfold walk_keeps_dir, OneFile.walk_keeps_dir. now rewrite Hexcl. Qed.

Lemma flat_map_same {A B} (g h : A -> list B) l :
  (forall x, In x l -> g x = h x) -> flat_map g l = flat_map h l.
Proof.
  induction l as [|x l IH]; intros H; [reflexivity|].
  cbn [flat_map]. rewrite (H x (or_introl eq_refl)), IH; [reflexivity|].
  intros y Hy. apply H. now right.
Qed.

(** Without exclude patterns the two walks are one. *)
Lemma walk_one_file n : forall top,
  walk cfg include_dirs top n = OneFile.walk include_dirs top n.
Proof.
  induction n as [name info | name listable children IH] using node_induction;
    intros top; [reflexivity|].
  destruct listable; [|reflexivity]. cbn [walk OneFile.walk].
  rewrite Forall_forall in IH. f_equal.
  - f_equal. apply filter_ext. intros d. apply walk_keeps_dir_one_file.
  - apply flat_map_same. intros c Hc. destruct c as [cname cinfo | d l cs]; [reflexivity|].
    rewrite walk_keeps_dir_one_file.
    destruct (OneFile.walk_keeps_dir include_dirs top d); [|reflexivity].
    now apply IH.
Qed.

Lemma process_file_one_file root f a b :
  should_include_file (fst f) files1 = should_include_file (fst f) files2 ->
  is_binary_file (data (snd f)) = false ->
  same_text a b ->
  same_text (process_file cfg files1 root f a)
            (OneFile.process_file (project_path cfg) files2 root f b).
Proof.
  intros Hsame Hbin [Hl [Hc Hs]].
  unfold process_file, OneFile.process_file, passes_filter_mode. cbv zeta.
  rewrite Hexcl, Hfilter, Hsame. cbn [should_exclude_path String.eqb Ascii.eqb Bool.eqb
                                      andb negb].
  destruct (should_include_file (fst f) files2
            || is_hidden_file_or_dir (OsPath.join root (fst f))); cbn [negb];
    [|now repeat split].
  destruct (st_size (snd f)) as [size | msg].
  2:{ unfold on_exception, OneFile.on_exception. rewrite Hnormal, Hformat.
      unfold same_text. cbn. rewrite Hl. now repeat split. }
  unfold after_size. rewrite Hsize, Hbin, Hnormal, Hformat.
  destruct (size >? MAX_FILE_SIZE)%Z; [now repeat split|].
  destruct (not_binary_has_content _ Hbin) as [content ->].
  unfold same_text. cbn. rewrite Hl, Hc, Hs. now repeat split.
Qed.

Lemma fold_steps_one_file steps : forall a b,
  (forall s f, In s steps -> In f (step_files s) ->
               should_include_file (fst f) files1 = should_include_file (fst f) files2
               /\ is_binary_file (data (snd f)) = false) ->
  same_text a b ->
  same_text (fold_left (process_step cfg files1) steps a)
            (fold_left (OneFile.process_step (project_path cfg) files2) steps b).
Proof.
  induction steps as [|s steps IH]; intros a b H Hab; [exact Hab|].
  cbn [fold_left]. apply IH; [intros s' f Hs'; apply H; now right|].
  unfold process_step, OneFile.process_step.
  assert (G : forall files, incl files (step_files s) -> forall a0 b0,
              same_text a0 b0 ->
              same_text
                (fold_left (fun st f => process_file cfg files1 (step_root s) f st) files a0)
                (fold_left (fun st f => OneFile.process_file (project_path cfg) files2
                                          (step_root s) f st) files b0)).
  { induction files as [|f files IHf]; intros Hincl a0 b0 H0; [exact H0|].
    cbn [fold_left]. apply IHf; [intros x Hx; apply Hincl; now right|].
    destruct (H s f (or_introl eq_refl) (Hincl f (or_introl eq_refl))) as [H1 H2].
    now apply process_file_one_file. }
  now apply G; [apply incl_refl|].
Qed.

(** The files the walk meets are entries of the tree. *)
Lemma walk_entries_in_tree n : forall top s f,
  In s (walk cfg include_dirs top n) -> In f (step_files s) -> In f (all_entries n).
Proof.
  induction n as [name info | name listable children IH] using node_induction;
    intros top s f Hs Hf; [destruct Hs|].
  destruct listable; [|destruct Hs]. cbn [walk] in Hs. cbn [all_entries].
  apply in_flat_map. destruct Hs as [<- | Hs].
  - cbn [step_files] in Hf. apply files_of_in in Hf.
    exists (File (fst f) (snd f)). split; [exact Hf|]. destruct f. now left.
  - apply in_flat_map in Hs as [c [Hc Hs]].
    rewrite Forall_forall in IH. specialize (IH c Hc).
    destruct c as [cname cinfo | d l cs]; [destruct Hs|].
    destruct (walk_keeps_dir cfg include_dirs top d); [|destruct Hs].
    exists (Dir d l cs). split; [exact Hc | eapply IH; eauto].
Qed.
End SameScan.

Section NewerPatterns.
Import Py.

Lemma include_file_loop_app name ps qs :
  include_file_loop name (ps ++ qs)
  = include_file_loop name ps || include_file_loop name qs.
Proof.
  induction ps as [|p ps IH]; [reflexivity|].
  cbn [app include_file_loop].
  destruct (String.eqb name (lower p)); [reflexivity|].
  destruct (startswith p "*." && endswith name (lower (drop_first p))); [reflexivity|].
  destruct (endswith p "/" && startswith name (lower (drop_last p))); [reflexivity|].
  exact IH.
Qed.

(** The package knows the patterns of the program in one file and two
    more. *)
Lemma newer_patterns name :
  should_include_file name include_files_default
  = should_include_file name OneFile.include_files_default
    || should_include_file name NEWER_PATTERNS.
Proof.
  unfold should_include_file.
  change include_files_default
    with (firstn 9 OneFile.include_files_default ++ NEWER_PATTERNS
          ++ skipn 9 OneFile.include_files_default)%list.
  rewrite <- (firstn_skipn 9 OneFile.include_files_default) at 3.
  rewrite !include_file_loop_app.
  destruct (include_file_loop (lower name) (firstn 9 OneFile.include_files_default)),
           (include_file_loop (lower name) NEWER_PATTERNS),
           (include_file_loop (lower name) (skipn 9 OneFile.include_files_default));
    reflexivity.
Qed.

Lemma hidden_dump_txt p :
  OsPath.join p "hidden_dump" ++ ".txt" = OsPath.join p "hidden_dump.txt".
Proof.
  unfold OsPath.join. cbn [startswith Ascii.eqb Bool.eqb andb].
  destruct (String.eqb p "" || endswith p "/"); now rewrite !PyFacts.append_assoc.
Qed.
End NewerPatterns.

Lemma one_file_prologue_counts project_path top :
  file_count (OneFile.prologue project_path top) = 0%Z
  /\ total_size (OneFile.prologue project_path top) = 0%Z.
Proof. split; reflexivity. Qed.

Lemma one_file_epilogue_state outcome project_path st :
  content_lines (OneFile.final (OneFile.epilogue outcome project_path st))
  = content_lines st
  /\ file_count (OneFile.final (OneFile.epilogue outcome project_path st))
     = file_count st
  /\ total_size (OneFile.final (OneFile.epilogue outcome project_path st))
     = total_size st.
Proof. destruct outcome; repeat split. Qed.

Lemma one_file_epilogue_ok project_path st :
  OneFile.returned (OneFile.epilogue OneFile.WriteOk project_path st) = true
  /\ OneFile.written (OneFile.epilogue OneFile.WriteOk project_path st)
     = Some (TextFile (OsPath.join project_path "hidden_dump.txt")
                      (write_text (content_lines st)))
  /\ OneFile.write_error (OneFile.epilogue OneFile.WriteOk project_path st) = None.
Proof. repeat split. Qed.

(** X26: the package against the program in one file.  Called without
    exclude patterns, as a normal run with format [txt], the default size
    limit and filter [all], the package collects the very text that
    [one_file_version.py] collects, and counts the same files and
    characters, on every tree that holds no binary file and no file named
    by [*.conf] or [*.theme]: those two patterns, the exclusions, the
    binary check and the other modes are all that sets the two programs
    apart in what they collect.  When the program in one file gets its
    file written and read back, it returns what the package returns and
    has written the same file at the same place; when it does not, it
    returns [False] where the package has no handler. *)
Theorem one_file_version_agrees (fs : filesystem) (cfg : config) (top : node)
    (outcome : OneFile.write_outcome) :
  fs (project_path cfg) = Some top ->
  exclude_patterns cfg = Some [] ->
  dry_run cfg = false ->
  output_format cfg = "txt" ->
  max_file_size cfg = MAX_FILE_SIZE ->
  file_filter cfg = "all" ->
  forallb common_ground (all_entries top) = true ->
  let a := aggregate_hidden_files fs cfg in
  let b := OneFile.aggregate_hidden_files fs outcome (project_path cfg) in
  content_lines (final a) = content_lines (OneFile.final b)
  /\ file_count (final a) = file_count (OneFile.final b)
  /\ total_size (final a) = total_size (OneFile.final b)
  /\ (outcome = OneFile.WriteOk ->
      returned a = OneFile.returned b
      /\ written a = OneFile.written b
      /\ OneFile.write_error b = None)
  /\ (outcome <> OneFile.WriteOk -> OneFile.returned b = false).
Proof.
  intros Hfs Hexcl Hnormal Hformat Hsize Hfilter Hcommon. cbv zeta.
  unfold aggregate_hidden_files, OneFile.aggregate_hidden_files. rewrite Hfs.
  destruct top as [name info | name listable children].
  { cbn [final OneFile.final returned OneFile.returned written OneFile.written
         OneFile.write_error].
    repeat split; reflexivity. }
  set (top := Dir name listable children) in *.
  rewrite forallb_forall in Hcommon.
  assert (Hnames : forall f, In f (all_entries top) ->
             should_include_file (fst f) include_files_default
             = should_include_file (fst f) OneFile.include_files_default).
  { intros f Hf. specialize (Hcommon f Hf). unfold common_ground in Hcommon.
    apply andb_true_iff in Hcommon as [_ H]. apply negb_true_iff in H.
    now rewrite newer_patterns, H, orb_false_r. }
  assert (Hexcl' : effective_excludes cfg = []) by (unfold effective_excludes; now rewrite Hexcl).
  assert (Hpro : same_text (prologue cfg top) (OneFile.prologue (project_path cfg) top)).
  { unfold same_text.
    destruct (prologue_counts cfg top) as [-> [-> _]].
    destruct (one_file_prologue_counts (project_path cfg) top) as [-> ->].
    split; [|split; reflexivity].
    unfold prologue, OneFile.prologue.
    cbn [content_lines append_lines emit initial_state app fst snd
         get_include_patterns OneFile.get_include_patterns].
    unfold generate_hidden_directory_tree, tree_items.
    now rewrite (add_directory_content_same include_dirs_default include_files_default
                   OneFile.include_files_default top Hnames). }
  assert (Hscan : same_text
            (scan cfg (fst get_include_patterns) (snd get_include_patterns) top
               (prologue cfg top))
            (OneFile.scan (project_path cfg) (fst OneFile.get_include_patterns)
               (snd OneFile.get_include_patterns) top
               (OneFile.prologue (project_path cfg) top))).
  { unfold scan, OneFile.scan.
    change (fst get_include_patterns) with include_dirs_default.
    change (snd get_include_patterns) with include_files_default.
    change (fst OneFile.get_include_patterns) with include_dirs_default.
    change (snd OneFile.get_include_patterns) with OneFile.include_files_default.
    rewrite <- (walk_one_file cfg include_dirs_default Hexcl' top (project_path cfg)).
    apply (fold_steps_one_file cfg include_files_default OneFile.include_files_default
             Hexcl' Hnormal Hformat Hsize Hfilter); [|exact Hpro].
    intros s f Hs Hf.
    assert (Hin := walk_entries_in_tree cfg include_dirs_default top _ s f Hs Hf).
    split; [now apply Hnames|].
    specialize (Hcommon f Hin). unfold common_ground in Hcommon.
    apply andb_true_iff in Hcommon as [H _]. now apply negb_true_iff in H. }
  destruct Hscan as [Hl [Hc Hs]].
  set (sa := scan cfg (fst get_include_patterns) (snd get_include_patterns) top
               (prologue cfg top)) in *.
  set (sb := OneFile.scan (project_path cfg) (fst OneFile.get_include_patterns)
               (snd OneFile.get_include_patterns) top
               (OneFile.prologue (project_path cfg) top)) in *.
  destruct (epilogue_state cfg sa) as [-> [_ [-> [-> _]]]].
  destruct (one_file_epilogue_state outcome (project_path cfg) sb) as [-> [-> ->]].
  split; [exact Hl|]. split; [exact Hc|]. split; [exact Hs|]. split.
  - intros ->.
    destruct (one_file_epilogue_ok (project_path cfg) sb) as [-> [-> ->]].
    split; [unfold epilogue; rewrite Hnormal; reflexivity|].
    split; [|reflexivity].
    unfold epilogue. rewrite Hnormal. cbv zeta. cbn [written].
    unfold write_output. rewrite Hformat.
    change (String.eqb "txt" "json") with false.
    change (String.eqb "txt" "sqlite") with false.
    change (String.eqb "txt" "md") with false.
    cbv iota. now rewrite hidden_dump_txt, Hl.
  - intros Hfail. destruct outcome; [congruence | reflexivity | reflexivity].
Qed.

Lemma one_file_version_agrees_witness :
  written (aggregate_hidden_files (Sample.mount Sample.project)
             (mkConfig "/p" (Some []) false "txt" MAX_FILE_SIZE "all"))
  = OneFile.written (OneFile.aggregate_hidden_files (Sample.mount Sample.project)
                       OneFile.WriteOk "/p").
Proof.
  exact (proj1 (proj2 (proj1 (proj2 (proj2 (proj2
           (one_file_version_agrees (Sample.mount Sample.project)
              (mkConfig "/p" (Some []) false "txt" MAX_FILE_SIZE "all")
              Sample.project OneFile.WriteOk
              eq_refl eq_refl eq_refl eq_refl eq_refl eq_refl eq_refl)))) eq_refl))).
Defined.

(* ================================================================= *)
(** ** Filter modes and the recorded paths *)

Section FilterModePaths.
Variable cfg : config.
Variable include_dirs : list string.

(** The path of a file of the walk is the root joined with its relative
    path. *)
Lemma walk_file_below top s f :
  plain_names top = true ->
  In s (walk cfg include_dirs (project_path cfg) top) ->
  In f (step_files s) ->
  let rel_path :=
    OsPath.relpath (OsPath.join (step_root s) (fst f)) (project_path cfg) in
  Py.startswith rel_path "/" = false
  /\ OsPath.join (step_root s) (fst f) = OsPath.join (project_path cfg) rel_path.
Proof.
  intros Hn Hs Hf. cbv zeta.
  assert (Hroot : below (project_path cfg) (step_root s)).
  { apply (walk_roots_closed cfg include_dirs (below (project_path cfg)))
      with top (project_path cfg); auto; [|now left].
    intros a b Hb Ha. apply below_join; [now apply plain_name_relative | exact Ha]. }
  assert (Hname : Py.startswith (fst f) "/" = false).
  { apply plain_name_relative.
    exact (walk_file_names_plain cfg include_dirs top _ s f Hn Hs Hf). }
  destruct (join_below _ _ _ Hname Hroot) as [r [Hr E]].
  rewrite E, (relpath_below _ _ Hr). split; [exact Hr|].
  symmetry. now apply join_glue.
Qed.

(** Below a root that is not hidden, a hidden file has a hidden relative
    path. *)
Lemma hidden_relative_path top s f :
  plain_names top = true ->
  is_hidden_file_or_dir (project_path cfg) = false ->
  In s (walk cfg include_dirs (project_path cfg) top) ->
  In f (step_files s) ->
  is_hidden_file_or_dir (OsPath.join (step_root s) (fst f)) = true ->
  is_hidden_file_or_dir
    (OsPath.relpath (OsPath.join (step_root s) (fst f)) (project_path cfg)) = true.
Proof.
  intros Hn Hroot Hs Hf Hhid.
  destruct (walk_file_below top s f Hn Hs Hf) as [Hrel E].
  rewrite E, (is_hidden_join _ _ Hrel), Hroot in Hhid. exact Hhid.
Qed.
End FilterModePaths.

(** C6, as the code has it: every entry of a finished run comes from a
    file met by the walk.  In filter mode [dotfiles] the path of that file,
    as the walk builds it from the path of the root, has a segment that
    starts with a dot; the recorded relative path has one too when the
    path of the root has none (entry names holding no separator).  In
    filter mode [config] the name of the file matches the fixed set of
    configuration patterns. *)
Theorem filter_mode_entries (fs : filesystem) (cfg : config) (r : string) :
  In r (recorded (final (aggregate_hidden_files fs cfg))) ->
  exists top s f,
    fs (project_path cfg) = Some top
    /\ In s (walk cfg include_dirs_default (project_path cfg) top)
    /\ In f (step_files s)
    /\ r = OsPath.relpath (OsPath.join (step_root s) (fst f)) (project_path cfg)
    /\ (file_filter cfg = "dotfiles" ->
        (exists part,
            In part (OsPath.parts (OsPath.join (step_root s) (fst f)))
            /\ Py.startswith part "." = true)
        /\ (plain_names top = true ->
            is_hidden_file_or_dir (project_path cfg) = false ->
            exists part,
              In part (OsPath.parts r) /\ Py.startswith part "." = true))
    /\ (file_filter cfg = "config" ->
        isIncludedFile (fst f)
          [".env"; ".env.*"; "*.env"; "*.env.*"; "*.ini"; "*.toml"; "*.yaml";
           "*.yml"; "*.json"; "*.xml"]).
Proof.
  intros Hr. apply run_recorded in Hr as [top [root [file [Hfs Hsrc]]]].
  destruct Hsrc as [s [f [Hs [Hf [-> [-> [-> Hacc]]]]]]].
  exists top, s, f.
  unfold accepted in Hacc.
  apply andb_true_iff in Hacc as [Hacc _]. apply andb_true_iff in Hacc as [_ Hacc].
  split; [exact Hfs|]. split; [exact Hs|]. split; [exact Hf|]. split; [reflexivity|].
  split.
  - intros Hmode. assert (Hhid := filter_mode_dotfiles _ _ _ Hmode Hacc). split.
    + apply some_part_hidden_iff. exact Hhid.
    + intros Hn Hroot. apply some_part_hidden_iff.
      exact (hidden_relative_path cfg include_dirs_default top s f Hn Hroot Hs Hf Hhid).
  - intros Hmode. apply include_file_loop_iff. exact (filter_mode_config _ _ _ Hmode Hacc).
Qed.

Lemma filter_mode_entries_witness :
  exists top s f,
    Sample.mount Sample.project "/p" = Some top
    /\ In s (walk Sample.cfg_dotfiles include_dirs_default "/p" top)
    /\ In f (step_files s)
    /\ ".vscode/settings.json" = OsPath.relpath (OsPath.join (step_root s) (fst f)) "/p"
    /\ (file_filter Sample.cfg_dotfiles = "dotfiles" ->
        (exists part,
            In part (OsPath.parts (OsPath.join (step_root s) (fst f)))
            /\ Py.startswith part "." = true)
        /\ (plain_names top = true ->
            is_hidden_file_or_dir "/p" = false ->
            exists part,
              In part (OsPath.parts ".vscode/settings.json")
              /\ Py.startswith part "." = true))
    /\ (file_filter Sample.cfg_dotfiles = "config" ->
        isIncludedFile (fst f)
          [".env"; ".env.*"; "*.env"; "*.env.*"; "*.ini"; "*.toml"; "*.yaml";
           "*.yml"; "*.json"; "*.xml"]).
Proof.
  apply (filter_mode_entries (Sample.mount Sample.project) Sample.cfg_dotfiles
           ".vscode/settings.json").
  vm_compute. right. left. reflexivity.
Defined.

(** C6, as the specification words it, fails for filter mode [dotfiles]:
    hidden status is judged on the path that starts with the path of the
    root, so below a root kept under [.config] every file passes, and the
    entries [README.md] and [src/main.py] are recorded although no segment
    of theirs starts with a dot. *)
Lemma filter_mode_dotfiles_counterexample :
  file_filter (mkConfig "/home/u/.config/app" None false "txt" MAX_FILE_SIZE "dotfiles")
  = "dotfiles"
  /\ In "README.md"
        (recorded (final (aggregate_hidden_files
                            (fun path => if String.eqb path "/home/u/.config/app"
                                         then Some Sample.project else None)
                            (mkConfig "/home/u/.config/app" None false "txt"
                               MAX_FILE_SIZE "dotfiles"))))
  /\ is_hidden_file_or_dir "README.md" = false
  /\ In "src/main.py"
        (recorded (final (aggregate_hidden_files
                            (fun path => if String.eqb path "/home/u/.config/app"
                                         then Some Sample.project else None)
                            (mkConfig "/home/u/.config/app" None false "txt"
                               MAX_FILE_SIZE "dotfiles"))))
  /\ is_hidden_file_or_dir "src/main.py" = false.
Proof.
  split; [reflexivity|]. split; [vm_compute; tauto|]. split; [reflexivity|].
  split; [vm_compute; tauto | reflexivity].
Qed.
